(** * VroomMart data-access layer (server/storage.ts): a shallow embedding

    The storage facade [DatabaseStorage] talks to a relational store through a
    query builder.  Every facade method is a short sequence of SQL statements
    with no transaction around them, so a method is modelled as a computation
    in a state-and-error monad over the store: a statement that the store
    rejects stops the method, and what earlier statements wrote stays written.

    Modelling conventions
    - a table is the list of its rows in the store's scan order; a [select]
      without ORDER BY returns rows in that order and an INSERT appends; an
      UPDATE writes a new version of every row it changes, at a place the
      store chooses (see [Engine]);
    - a nullable column is an [option]; SQL comparisons and arithmetic on NULL
      follow SQL (a NULL never satisfies [eq], NULL + 1 is NULL);
    - integer columns are 32-bit: a number sent to one, or computed for one
      by the store, is rejected when it does not fit; a COUNT is taken to
      fit (no table holds 2^31 rows);
    - [varchar]/[text] are [string], the bytes of the UTF-8 text; generated
      uuids are drawn from a supply kept in the store ([nextUuid]);
      timestamps are read from [clock];
    - ORDER BY is any ordering the store may produce: an [Engine] gives a
      permutation sorted by the requested keys and nothing more;
    - [decimal] and [jsonb] columns are kept as the text the driver returns
      for them; no embedded method computes with them. *)

From Stdlib Require Import String Ascii.
From Stdlib Require Import List ZArith Lia Bool Permutation Sorted.
Import ListNotations.

Set Implicit Arguments.

(** ** Values crossing the JavaScript / SQL boundary *)

(** An optional nullable property of an insert object:
    [undefined], [null], or a value. *)
Inductive Field (A : Type) : Type :=
| Undefined
| Null
| Val (a : A).
Arguments Undefined {A}.
Arguments Null {A}.

(** Column value written by INSERT for a property, given the column default. *)
Definition column_value {A} (dflt : option A) (f : Field A) : option A :=
  match f with
  | Undefined => dflt
  | Null => None
  | Val a => Some a
  end.

(** JavaScript [x || d] on a number-valued property. *)
Definition js_or (f : Field Z) (d : Z) : Z :=
  match f with
  | Val n => if Z.eqb n 0 then d else n
  | _ => d
  end.

(** JavaScript [x + n] where [x] is a number or [null] ([null] counts as 0). *)
Definition js_add (x : option Z) (n : Z) : Z :=
  match x with
  | Some a => (a + n)%Z
  | None => n
  end.

(** The range of a 32-bit [integer] column, and of the 64-bit row counts of
    LIMIT and OFFSET. *)
Definition int4_min : Z := (-2147483648)%Z.
Definition int4_max : Z := 2147483647%Z.
Definition int8_max : Z := 9223372036854775807%Z.

Definition in_int4 (v : Z) : bool := (int4_min <=? v)%Z && (v <=? int4_max)%Z.

(** A value for an [integer] column: nothing when the store rejects it as out
    of range; NULL always fits. *)
Definition int4 (v : option Z) : option (option Z) :=
  match v with
  | None => Some None
  | Some z => if in_int4 z then Some (Some z) else None
  end.

(** [x + k] over the integers, NULL when [x] is. *)
Definition plus (x : option Z) (k : Z) : option Z :=
  option_map (fun a => (a + k)%Z) x.

(** SQL [col + k] on a nullable integer column: the store computes the sum in
    32 bits and rejects the statement when it does not fit. *)
Definition sql_add (x : option Z) (k : Z) : option (option Z) :=
  int4 (plus x k).

(** SQL [col = v] on a nullable boolean column, in a WHERE clause:
    NULL satisfies no comparison. *)
Definition sql_eq_bool (x : option bool) (v : bool) : bool :=
  match x with
  | Some b => Bool.eqb b v
  | None => false
  end.

(** Array destructuring [const [x] = rows]. *)
Definition first {A} (rows : list A) : option A := hd_error rows.

(** ** Rows (shared/schema.ts) *)

Module Users.
Record row := mk {
  id : string;
  email : option string;
  firstName : option string;
  lastName : option string;
  profileImageUrl : option string;
  username : option string;
  bio : option string;
  location : option string;
  website : option string;
  followersCount : option Z;
  followingCount : option Z;
  createdAt : option Z;
  updatedAt : option Z
}.

(* .set({ followersCount, followingCount, updatedAt }) *)
Definition set_stats (followers following : option Z) (t : option Z) (r : row)
  : row :=
  mk (id r) (email r) (firstName r) (lastName r) (profileImageUrl r)
     (username r) (bio r) (location r) (website r)
     followers following (createdAt r) t.
End Users.

Module Products.
Record row := mk {
  id : nat;
  userId : string;
  title : string;
  description : string;
  price : string;
  imageUrl : option string;
  imageUrls : option (list string);
  hashtags : option (list string);
  category : option string;
  stock : option Z;
  isAvailable : option bool;
  likesCount : option Z;
  sharesCount : option Z;
  commentsCount : option Z;
  viewsCount : option Z;
  createdAt : option Z;
  updatedAt : option Z
}.

(* .set({ likesCount }) *)
Definition set_likesCount (v : option Z) (r : row) : row :=
  mk (id r) (userId r) (title r) (description r) (price r) (imageUrl r)
     (imageUrls r) (hashtags r) (category r) (stock r) (isAvailable r)
     v (sharesCount r) (commentsCount r) (viewsCount r)
     (createdAt r) (updatedAt r).
End Products.

Module Follows.
Record row := mk {
  id : nat;
  followerId : string;
  followingId : string;
  createdAt : option Z
}.
End Follows.

Module ProductLikes.
Record row := mk {
  id : nat;
  userId : string;
  productId : nat;
  createdAt : option Z
}.
End ProductLikes.

Module ProductBookmarks.
Record row := mk {
  id : nat;
  userId : string;
  productId : nat;
  createdAt : option Z
}.
End ProductBookmarks.

Module CartItems.
Record row := mk {
  id : nat;
  userId : string;
  productId : nat;
  quantity : option Z;
  createdAt : option Z;
  updatedAt : option Z
}.

(* .set({ quantity, updatedAt }) *)
Definition set_quantity (q : option Z) (t : option Z) (r : row) : row :=
  mk (id r) (userId r) (productId r) q (createdAt r) t.
End CartItems.

Module Orders.
Record row := mk {
  id : nat;
  buyerId : string;
  sellerId : string;
  productId : nat;
  quantity : option Z;
  totalAmount : string;
  status : option string;
  paymentMethod : option string;
  shippingAddress : option string;
  createdAt : option Z;
  updatedAt : option Z
}.

(* .set({ status, updatedAt }) *)
Definition set_status (s : option string) (t : option Z) (r : row) : row :=
  mk (id r) (buyerId r) (sellerId r) (productId r) (quantity r)
     (totalAmount r) s (paymentMethod r) (shippingAddress r) (createdAt r) t.
End Orders.

(** [InsertCartItem]: the cart-item insert schema omits id and timestamps;
    [quantity] is optional and nullable. *)
Module InsertCartItem.
Record t := mk {
  userId : string;
  productId : nat;
  quantity : Field Z
}.
End InsertCartItem.

(** ** The store *)

Record Db := {
  users : list Users.row;
  products : list Products.row;
  follows : list Follows.row;
  productLikes : list ProductLikes.row;
  productBookmarks : list ProductBookmarks.row;
  cartItems : list CartItems.row;
  orders : list Orders.row;
  nextUuid : nat;
  clock : Z
}.

Definition with_users (v : list Users.row) (d : Db) : Db :=
  {| users := v; products := products d; follows := follows d;
     productLikes := productLikes d; productBookmarks := productBookmarks d;
     cartItems := cartItems d; orders := orders d;
     nextUuid := nextUuid d; clock := clock d |}.

Definition with_products (v : list Products.row) (d : Db) : Db :=
  {| users := users d; products := v; follows := follows d;
     productLikes := productLikes d; productBookmarks := productBookmarks d;
     cartItems := cartItems d; orders := orders d;
     nextUuid := nextUuid d; clock := clock d |}.

Definition with_follows (v : list Follows.row) (d : Db) : Db :=
  {| users := users d; products := products d; follows := v;
     productLikes := productLikes d; productBookmarks := productBookmarks d;
     cartItems := cartItems d; orders := orders d;
     nextUuid := nextUuid d; clock := clock d |}.

Definition with_productLikes (v : list ProductLikes.row) (d : Db) : Db :=
  {| users := users d; products := products d; follows := follows d;
     productLikes := v; productBookmarks := productBookmarks d;
     cartItems := cartItems d; orders := orders d;
     nextUuid := nextUuid d; clock := clock d |}.

Definition with_productBookmarks (v : list ProductBookmarks.row) (d : Db)
  : Db :=
  {| users := users d; products := products d; follows := follows d;
     productLikes := productLikes d; productBookmarks := v;
     cartItems := cartItems d; orders := orders d;
     nextUuid := nextUuid d; clock := clock d |}.

Definition with_cartItems (v : list CartItems.row) (d : Db) : Db :=
  {| users := users d; products := products d; follows := follows d;
     productLikes := productLikes d; productBookmarks := productBookmarks d;
     cartItems := v; orders := orders d;
     nextUuid := nextUuid d; clock := clock d |}.

Definition with_orders (v : list Orders.row) (d : Db) : Db :=
  {| users := users d; products := products d; follows := follows d;
     productLikes := productLikes d; productBookmarks := productBookmarks d;
     cartItems := cartItems d; orders := v;
     nextUuid := nextUuid d; clock := clock d |}.

Definition with_nextUuid (n : nat) (d : Db) : Db :=
  {| users := users d; products := products d; follows := follows d;
     productLikes := productLikes d; productBookmarks := productBookmarks d;
     cartItems := cartItems d; orders := orders d;
     nextUuid := n; clock := clock d |}.

(** ** The monad of facade methods *)

Inductive StorageError : Type :=
| ForeignKeyViolation   (* INSERT of a row whose referenced row is missing *)
| IntegerOutOfRange     (* a number outside the range of its integer type *)
| UndefinedOperator     (* an operator applied to operands it has no
                           definition for *)
| MalformedArrayLiteral (* text that is read as an array and is none *)
| SyntaxError.          (* a statement the store cannot parse *)

Inductive Outcome (A : Type) : Type :=
| Ok (a : A)
| Fail (e : StorageError).
Arguments Fail {A} e.

Definition M (A : Type) : Type := Db -> Outcome A * Db.

Definition ret {A} (a : A) : M A := fun d => (Ok a, d).

Definition throw {A} (e : StorageError) : M A := fun d => (Fail e, d).

Definition bind {A B} (m : M A) (k : A -> M B) : M B :=
  fun d =>
    match m d with
    | (Ok a, d') => k a d'
    | (Fail e, d') => (Fail e, d')
    end.

Notation "x <- m ;; k" := (bind m (fun x => k))
  (at level 61, m at next level, right associativity).
Notation "m ;;; k" := (bind m (fun _ => k))
  (at level 61, right associativity).

(** ** What the store decides

    The store is free in three things the facade relies on: the order of
    rows that ORDER BY leaves tied, the place of the row versions an UPDATE
    writes, and the reading of text as an array. *)

(** The white space that the store skips before an array literal. *)
Definition blank (c : ascii) : bool :=
  let n := nat_of_ascii c in
  (n =? 32)%nat || ((9 <=? n)%nat && (n <=? 13)%nat).

(** Text can only be an array literal when its first character that is not
    white space opens a brace or a dimension bracket. *)
Fixpoint opens_array_text (cs : list ascii) : bool :=
  match cs with
  | [] => false
  | c :: cs' =>
      if blank c then opens_array_text cs'
      else Ascii.eqb c "{" || Ascii.eqb c "["
  end.

Definition opens_array (s : string) : bool :=
  opens_array_text (list_ascii_of_string s).

(** The rows an UPDATE leaves alone keep their order, the row versions it
    writes keep theirs; a plan says which of the two comes next, and when
    the plan ends the rows left alone come first.  (Every UPDATE of the
    facade but [markConversationAsRead] names its rows by primary key and
    so writes at most one version, which a plan can put anywhere.) *)
Fixpoint merge_by {R} (plan : list bool) (keep new : list R) : list R :=
  match plan with
  | [] => keep ++ new
  | true :: plan' =>
      match new with
      | n :: new' => n :: merge_by plan' keep new'
      | [] => keep
      end
  | false :: plan' =>
      match keep with
      | k :: keep' => k :: merge_by plan' keep' new
      | [] => new
      end
  end.

(** What every store guarantees: ORDER BY returns the same rows, in an
    order in which each row may precede all rows after it, rows that compare
    equal in whatever order its plan produces; an UPDATE places the row
    versions it writes by a plan of its own; text that does not open an
    array is not read as one. *)
Class Engine : Type := {
  sort_rows : forall R : Type, (R -> R -> bool) -> list R -> list R;
  sort_rows_perm :
    forall (R : Type) (le : R -> R -> bool) (l : list R),
      Permutation (sort_rows le l) l;
  sort_rows_sorted :
    forall (R : Type) (le : R -> R -> bool) (l : list R),
      (forall x y, le x y = true \/ le y x = true) ->
      (forall x y z, le x y = true -> le y z = true -> le x z = true) ->
      StronglySorted (fun x y => le x y = true) (sort_rows le l);
  placement : forall R : Type, list R -> list R -> list bool;
  array_in : string -> option (list string);
  array_in_opens :
    forall s : string, opens_array s = false -> array_in s = None
}.

(** The table after an UPDATE: the rows left alone and the new versions. *)
Definition place_rows {E : Engine} {R} (keep new : list R) : list R :=
  merge_by (placement keep new) keep new.

(** All of them, or nothing when one is missing. *)
Fixpoint all_some {A} (l : list (option A)) : option (list A) :=
  match l with
  | [] => Some []
  | Some a :: l' => option_map (cons a) (all_some l')
  | None :: _ => None
  end.

(** ** Tables and statements *)

Record Table (R : Type) := {
  rows : Db -> list R;
  put : list R -> Db -> Db
}.

Definition usersT : Table Users.row := {| rows := users; put := with_users |}.
Definition productsT : Table Products.row :=
  {| rows := products; put := with_products |}.
Definition followsT : Table Follows.row :=
  {| rows := follows; put := with_follows |}.
Definition productLikesT : Table ProductLikes.row :=
  {| rows := productLikes; put := with_productLikes |}.
Definition productBookmarksT : Table ProductBookmarks.row :=
  {| rows := productBookmarks; put := with_productBookmarks |}.
Definition cartItemsT : Table CartItems.row :=
  {| rows := cartItems; put := with_cartItems |}.
Definition ordersT : Table Orders.row :=
  {| rows := orders; put := with_orders |}.

(** [db.select().from(t).where(c)] *)
Definition select {R} (t : Table R) (c : R -> bool) : M (list R) :=
  fun d => (Ok (filter c (rows t d)), d).

(** [db.select({count: count()}).from(t).where(c)], read at [[0].count] *)
Definition select_count {R} (t : Table R) (c : R -> bool) : M Z :=
  fun d => (Ok (Z.of_nat (length (filter c (rows t d)))), d).

(** [db.update(t).set(s).where(c).returning()].  The new version [s r] of a
    row is nothing when an expression of the SET clause does not fit its
    column: the store then rejects the statement and changes no row.  The
    new versions are returned in the order the rows were scanned. *)
Definition update {E : Engine} {R} (t : Table R) (s : R -> option R)
    (c : R -> bool) : M (list R) :=
  fun d =>
    match all_some (map s (filter c (rows t d))) with
    | Some new =>
        (Ok new,
         put t (place_rows (filter (fun r => negb (c r)) (rows t d)) new) d)
    | None => (Fail IntegerOutOfRange, d)
    end.

(** [db.delete(t).where(c)] *)
Definition delete {R} (t : Table R) (c : R -> bool) : M unit :=
  fun d => (Ok tt, put t (filter (fun r => negb (c r)) (rows t d)) d).

(** [new Date()] and the column default [now()] *)
Definition now : M Z := fun d => (Ok (clock d), d).

(** [gen_random_uuid()] *)
Definition gen_random_uuid : M nat :=
  fun d => (Ok (nextUuid d), with_nextUuid (S (nextUuid d)) d).

(** A foreign key: the referenced table must hold a row with that key. *)
Definition references {R} (t : Table R) (c : R -> bool) : M unit :=
  fun d =>
    if existsb c (rows t d) then (Ok tt, d) else (Fail ForeignKeyViolation, d).

(** A number sent as the value of an [integer] column: the store reads it
    when it receives the statement, before it touches any row. *)
Definition int4_param (v : option Z) : M (option Z) :=
  match int4 v with
  | Some x => ret x
  | None => throw IntegerOutOfRange
  end.

(** Appending the new row of an INSERT. *)
Definition append {R} (t : Table R) (r : R) : M unit :=
  fun d => (Ok tt, put t (rows t d ++ [r]) d).

(** ** Conditions of WHERE clauses *)

Definition eq_s {R} (col : R -> string) (v : string) : R -> bool :=
  fun r => String.eqb (col r) v.

Definition eq_n {R} (col : R -> nat) (v : nat) : R -> bool :=
  fun r => Nat.eqb (col r) v.

Definition eq_b {R} (col : R -> option bool) (v : bool) : R -> bool :=
  fun r => sql_eq_bool (col r) v.

Definition and_ {R} (c1 c2 : R -> bool) : R -> bool :=
  fun r => c1 r && c2 r.

Definition or_ {R} (c1 c2 : R -> bool) : R -> bool :=
  fun r => c1 r || c2 r.

(** [inArray(col, ids)] *)
Definition inArray {R} (col : R -> nat) (ids : list nat) : R -> bool :=
  fun r => existsb (Nat.eqb (col r)) ids.

(** The array operator [col && arr] on two arrays: they share an element;
    NULL (hence not satisfied) when the column is NULL. *)
Definition overlap (xs ys : list string) : bool :=
  existsb (fun x => existsb (String.eqb x) ys) xs.

Definition overlaps {R} (col : R -> option (list string)) (arr : list string)
  : R -> bool :=
  fun r => match col r with
           | Some xs => overlap xs arr
           | None => false
           end.

(** A JavaScript array placed in a [sql] template, as in
    [sql`${col} && ${hashtags}`], is not sent as an array: the query builder
    writes its elements as a parenthesised list of parameters.  The store
    reads [col && ($1)] with the one parameter taken as the text of an
    array, has no operator for [col && ($1, $2, ...)], which pairs an array
    with a row, and cannot parse [col && ()]. *)
Definition array_operand {E : Engine} (arr : list string)
  : M (list string) :=
  match arr with
  | [] => throw SyntaxError
  | [text] =>
      match array_in text with
      | Some xs => ret xs
      | None => throw MalformedArrayLiteral
      end
  | _ :: _ :: _ => throw UndefinedOperator
  end.

(** *** ILIKE patterns

    A pattern is read left to right: [%] stands for any run of characters,
    [_] for any one character, a backslash makes the next character literal,
    any other character stands for itself up to letter case. *)

Inductive tok : Type :=
| AnyRun
| AnyChar
| Lit (c : ascii).

Definition backslash : ascii := ascii_of_nat 92.
Definition percent : ascii := ascii_of_nat 37.
Definition underscore : ascii := ascii_of_nat 95.

Fixpoint tokens (p : list ascii) : list tok :=
  match p with
  | [] => []
  | c :: p' =>
      if Ascii.eqb c backslash then
        match p' with
        | [] => []          (* the store rejects a dangling escape *)
        | e :: p'' => Lit e :: tokens p''
        end
      else if Ascii.eqb c percent then AnyRun :: tokens p'
      else if Ascii.eqb c underscore then AnyChar :: tokens p'
      else Lit c :: tokens p'
  end.

(** A pattern whose last backslash escapes nothing is rejected by the store;
    [searchProducts] only builds patterns that end in [%] (see
    [search_pattern_well_formed]). *)
Fixpoint dangling (p : list ascii) : bool :=
  match p with
  | [] => false
  | c :: p' =>
      if Ascii.eqb c backslash then
        match p' with
        | [] => true
        | _ :: p'' => dangling p''
        end
      else dangling p'
  end.

(** Letter case is folded on the ASCII letters. *)
Definition lower (c : ascii) : ascii :=
  let n := nat_of_ascii c in
  if (65 <=? n)%nat && (n <=? 90)%nat then ascii_of_nat (n + 32) else c.

Definition same_letter (c d : ascii) : bool := Ascii.eqb (lower c) (lower d).

Fixpoint matches (ts : list tok) (s : list ascii) {struct ts} : bool :=
  match ts with
  | [] => match s with [] => true | _ :: _ => false end
  | AnyRun :: ts' =>
      (fix run (s : list ascii) : bool :=
         matches ts' s || match s with [] => false | _ :: s' => run s' end) s
  | AnyChar :: ts' =>
      match s with [] => false | _ :: s' => matches ts' s' end
  | Lit c :: ts' =>
      match s with
      | [] => false
      | d :: s' => same_letter c d && matches ts' s'
      end
  end.

(** [text ILIKE pattern] *)
Definition ilike_text (text pattern : string) : bool :=
  matches (tokens (list_ascii_of_string pattern)) (list_ascii_of_string text).

(** [ilike(col, pattern)] *)
Definition ilike {R} (col : R -> string) (pattern : string) : R -> bool :=
  fun r => ilike_text (col r) pattern.

(** The template literal [`%${query}%`]. *)
Definition contains_pattern (query : string) : string :=
  String percent (query ++ String percent EmptyString)%string.

(** ** ORDER BY and LIMIT *)

(** [desc(col)] compares two column values; [Lt] puts the left row first.
    Descending order puts NULL before every value. *)
Definition desc (a b : option Z) : comparison :=
  match a, b with
  | None, None => Eq
  | None, Some _ => Lt
  | Some _, None => Gt
  | Some x, Some y => Z.compare y x
  end.

Definition by_desc {R} (col : R -> option Z) : R -> R -> comparison :=
  fun r1 r2 => desc (col r1) (col r2).

(** [orderBy(k1, k2)]: the second key decides among rows equal on the first. *)
Definition then_by {R} (k1 k2 : R -> R -> comparison) : R -> R -> comparison :=
  fun r1 r2 => match k1 r1 r2 with Eq => k2 r1 r2 | c => c end.

(** A row may stand before another when it does not compare greater. *)
Definition may_precede {R} (k : R -> R -> comparison) (r1 r2 : R) : bool :=
  match k r1 r2 with Gt => false | _ => true end.

(** [db.select().from(t).where(c).orderBy(k)] *)
Definition select_order_by {E : Engine} {R} (t : Table R) (c : R -> bool)
    (k : R -> R -> comparison) : M (list R) :=
  fun d => (Ok (sort_rows (may_precede k) (filter c (rows t d))), d).

(** [q.limit(n)]: the query builder writes a LIMIT clause only for a number
    that is not negative, so a negative [n] limits nothing; the store reads
    the number as a 64-bit row count and rejects one that does not fit. *)
Definition sql_limit {R} (n : Z) (q : M (list R)) : M (list R) :=
  if (n <? 0)%Z then q
  else if (int8_max <? n)%Z then throw IntegerOutOfRange
  else rs <- q ;; ret (firstn (Z.to_nat n) rs).

(** A default parameter value ([limit = 10]) applies to [undefined]. *)
Definition default_arg (arg : option Z) (d : Z) : Z :=
  match arg with Some v => v | None => d end.

(** ** JavaScript containers used by the analytics methods *)

(** [Map<string, number>]: entries in insertion order, one per key. *)
Fixpoint map_set (k : string) (v : Z) (m : list (string * Z))
  : list (string * Z) :=
  match m with
  | [] => [(k, v)]
  | (k', v') :: m' =>
      if String.eqb k' k then (k, v) :: m' else (k', v') :: map_set k v m'
  end.

Fixpoint map_get (k : string) (m : list (string * Z)) : option Z :=
  match m with
  | [] => None
  | (k', v') :: m' => if String.eqb k' k then Some v' else map_get k m'
  end.

(** [m.get(k) || 0] *)
Definition get_or_0 (k : string) (m : list (string * Z)) : Z :=
  match map_get k m with
  | Some v => v
  | None => 0%Z
  end.

(** [Set<string>.add]: insertion order, no duplicates. *)
Definition set_add (x : string) (s : list string) : list string :=
  if existsb (String.eqb x) s then s else s ++ [x].

(** Stable insertion sort: a new element goes before the first element it
    may precede, so equal elements keep their order. *)
Fixpoint insert_before {A} (le : A -> A -> bool) (x : A) (l : list A)
  : list A :=
  match l with
  | [] => [x]
  | y :: l' => if le x y then x :: y :: l' else y :: insert_before le x l'
  end.

Fixpoint stable_sort {A} (le : A -> A -> bool) (l : list A) : list A :=
  match l with
  | [] => []
  | x :: l' => insert_before le x (stable_sort le l')
  end.

(** [Array.prototype.sort(cmp)]: stable; [b] moves before [a] only when
    [cmp(a, b) > 0]. *)
Definition array_sort {A} (cmp : A -> A -> Z) (l : list A) : list A :=
  stable_sort (fun a b => (cmp a b <=? 0)%Z) l.

(** [arr.slice(0, end)]: a negative [end] counts from the end of the array. *)
Definition slice0 {A} (e : Z) (l : list A) : list A :=
  if (e <? 0)%Z
  then firstn (Z.to_nat (Z.max (Z.of_nat (List.length l) + e) 0)) l
  else firstn (Z.to_nat e) l.

(** ** INSERT statements

    Each reads its numbers, checks the foreign keys the schema declares,
    fills the generated id and the [defaultNow()] timestamps, and returns
    the row ([returning()]). *)

Definition insert_follows (followerId followingId : string)
  : M (list Follows.row) :=
  references usersT (eq_s Users.id followerId) ;;;
  references usersT (eq_s Users.id followingId) ;;;
  i <- gen_random_uuid ;;
  t <- now ;;
  let r := Follows.mk i followerId followingId (Some t) in
  append followsT r ;;;
  ret [r].

Definition insert_productLikes (userId : string) (productId : nat)
  : M (list ProductLikes.row) :=
  references usersT (eq_s Users.id userId) ;;;
  references productsT (eq_n Products.id productId) ;;;
  i <- gen_random_uuid ;;
  t <- now ;;
  let r := ProductLikes.mk i userId productId (Some t) in
  append productLikesT r ;;;
  ret [r].

Definition insert_cartItems (item : InsertCartItem.t)
  : M (list CartItems.row) :=
  quantity <- int4_param
                (column_value (Some 1%Z) (InsertCartItem.quantity item)) ;;
  references usersT (eq_s Users.id (InsertCartItem.userId item)) ;;;
  references productsT (eq_n Products.id (InsertCartItem.productId item)) ;;;
  i <- gen_random_uuid ;;
  t <- now ;;
  let r := CartItems.mk i
             (InsertCartItem.userId item) (InsertCartItem.productId item)
             quantity (Some t) (Some t) in
  append cartItemsT r ;;;
  ret [r].

(** ** The facade: [DatabaseStorage] *)

Definition getProduct (id : nat) : M (option Products.row) :=
  found <- select productsT (eq_n Products.id id) ;;
  ret (first found).

Definition isFollowingUser (followerId followingId : string) : M bool :=
  result <- select followsT (and_ (eq_s Follows.followerId followerId)
                                  (eq_s Follows.followingId followingId)) ;;
  ret (0 <? List.length result)%nat.

Definition isProductLiked (userId : string) (productId : nat) : M bool :=
  result <- select productLikesT
              (and_ (eq_s ProductLikes.userId userId)
                    (eq_n ProductLikes.productId productId)) ;;
  ret (0 <? List.length result)%nat.

Section Facade.
Context {E : Engine}.

Definition updateUserStats (userId : string) : M unit :=
  followersCount <- select_count followsT (eq_s Follows.followingId userId) ;;
  followingCount <- select_count followsT (eq_s Follows.followerId userId) ;;
  t <- now ;;
  update usersT
    (fun u => Some (Users.set_stats (Some followersCount)
                      (Some followingCount) (Some t) u))
    (eq_s Users.id userId) ;;;
  ret tt.

Definition followUser (followerId followingId : string)
  : M (option Follows.row) :=
  inserted <- insert_follows followerId followingId ;;
  updateUserStats followerId ;;;
  updateUserStats followingId ;;;
  ret (first inserted).

Definition unfollowUser (followerId followingId : string) : M unit :=
  delete followsT (and_ (eq_s Follows.followerId followerId)
                        (eq_s Follows.followingId followingId)) ;;;
  updateUserStats followerId ;;;
  updateUserStats followingId.

(** [.set({ likesCount: sql`${products.likesCount} + k` })] on one row. *)
Definition add_likes (k : Z) (p : Products.row) : option Products.row :=
  option_map (fun v => Products.set_likesCount v p)
             (sql_add (Products.likesCount p) k).

Definition likeProduct (userId : string) (productId : nat)
  : M (option ProductLikes.row) :=
  inserted <- insert_productLikes userId productId ;;
  update productsT (add_likes 1) (eq_n Products.id productId) ;;;
  ret (first inserted).

Definition unlikeProduct (userId : string) (productId : nat) : M unit :=
  delete productLikesT (and_ (eq_s ProductLikes.userId userId)
                             (eq_n ProductLikes.productId productId)) ;;;
  update productsT (add_likes (-1)) (eq_n Products.id productId) ;;;
  ret tt.

Definition addToCart (cartItem : InsertCartItem.t)
  : M (option CartItems.row) :=
  found <- select cartItemsT
             (and_ (eq_s CartItems.userId (InsertCartItem.userId cartItem))
                   (eq_n CartItems.productId
                         (InsertCartItem.productId cartItem))) ;;
  match first found with
  | Some existingItem =>
      t <- now ;;
      quantity <- int4_param
                    (Some (js_add
                             (CartItems.quantity existingItem)
                             (js_or (InsertCartItem.quantity cartItem) 1))) ;;
      updated <- update cartItemsT
                   (fun r => Some (CartItems.set_quantity quantity (Some t) r))
                   (eq_n CartItems.id (CartItems.id existingItem)) ;;
      ret (first updated)
  | None =>
      inserted <- insert_cartItems cartItem ;;
      ret (first inserted)
  end.

Definition updateOrderStatus (id : nat) (status : string)
  : M (option Orders.row) :=
  t <- now ;;
  updated <- update ordersT
               (fun o => Some (Orders.set_status (Some status) (Some t) o))
               (eq_n Orders.id id) ;;
  ret (first updated).

Definition searchProducts (query : string) (hashtags : option (list string))
  : M (list Products.row) :=
  let conditions :=
    and_ (eq_b Products.isAvailable true)
         (or_ (ilike Products.title (contains_pattern query))
              (ilike Products.description (contains_pattern query))) in
  match hashtags with
  | Some hs =>
      if (0 <? List.length hs)%nat
      then
        operand <- array_operand hs ;;
        select_order_by productsT
          (and_ conditions (overlaps Products.hashtags operand))
          (by_desc Products.createdAt)
      else select_order_by productsT conditions (by_desc Products.createdAt)
  | None => select_order_by productsT conditions (by_desc Products.createdAt)
  end.

Definition getTrendingProducts (limit : option Z) : M (list Products.row) :=
  let limit := default_arg limit 10 in
  sql_limit limit
    (select_order_by productsT (eq_b Products.isAvailable true)
       (then_by (by_desc Products.likesCount) (by_desc Products.viewsCount))).

Definition getRecommendedProducts (userId : string) (limit : option Z)
  : M (list Products.row) :=
  let limit := default_arg limit 10 in
  userInteractions <- select productLikesT
                        (eq_s ProductLikes.userId userId) ;;
  bookmarks <- select productBookmarksT
                 (eq_s ProductBookmarks.userId userId) ;;
  let interactedProductIds :=
    map ProductLikes.productId userInteractions
    ++ map ProductBookmarks.productId bookmarks in
  if (List.length interactedProductIds =? 0)%nat
  then getTrendingProducts (Some limit)
  else
    interactedProducts <- select productsT
                            (inArray Products.id interactedProductIds) ;;
    let userHashtags :=
      fold_left
        (fun acc p =>
           match Products.hashtags p with
           | Some tags => fold_left (fun s tag => set_add tag s) tags acc
           | None => acc
           end)
        interactedProducts [] in
    if (List.length userHashtags =? 0)%nat
    then getTrendingProducts (Some limit)
    else
      operand <- array_operand userHashtags ;;
      sql_limit limit
        (select_order_by productsT
           (and_ (eq_b Products.isAvailable true)
                 (overlaps Products.hashtags operand))
           (by_desc Products.likesCount)).
End Facade.

Definition getTrendingHashtags (limit : option Z) : M (list (string * Z)) :=
  let limit := default_arg limit 10 in
  productsWithHashtags <- select productsT (eq_b Products.isAvailable true) ;;
  let hashtagCount :=
    fold_left
      (fun acc p =>
         match Products.hashtags p with
         | Some tags =>
             fold_left
               (fun m hashtag => map_set hashtag (get_or_0 hashtag m + 1)%Z m)
               tags acc
         | None => acc
         end)
      productsWithHashtags [] in
  ret (slice0 limit
         (array_sort (fun a b => (snd b - snd a)%Z) hashtagCount)).

(** * More of the facade

    The remaining methods of [DatabaseStorage].  Those that only touch the
    tables above stay in [M]. *)

(** ** Joins *)

(** [a.leftJoin(b, on)]: every left row once per matching right row, and
    once with NULL when none matches. *)
Definition left_join {A B} (on : A -> B -> bool) (l : list A) (r : list B)
  : list (A * option B) :=
  flat_map
    (fun a =>
       match filter (on a) r with
       | [] => [(a, None)]
       | ms => map (fun b => (a, Some b)) ms
       end)
    l.

(** The ON condition of a second left join, whose left side may be NULL. *)
Definition on_some {A B} (on : A -> B -> bool) (a : option A) (b : B) : bool :=
  match a with
  | Some x => on x b
  | None => false
  end.

(** [eq(col, v)] on a nullable text column. *)
Definition eq_os {R} (col : R -> option string) (v : string) : R -> bool :=
  fun r => match col r with
           | Some x => String.eqb x v
           | None => false
           end.

(** [asc(col)]: ascending order puts NULL after every value. *)
Definition asc (a b : option Z) : comparison :=
  match a, b with
  | None, None => Eq
  | None, Some _ => Gt
  | Some _, None => Lt
  | Some x, Some y => Z.compare x y
  end.

Definition by_asc {R} (col : R -> option Z) : R -> R -> comparison :=
  fun r1 r2 => asc (col r1) (col r2).

(** [.set({ viewsCount })] and [.set({ commentsCount })] on a product row. *)
Definition set_viewsCount (v : option Z) (r : Products.row) : Products.row :=
  Products.mk (Products.id r) (Products.userId r) (Products.title r)
    (Products.description r) (Products.price r) (Products.imageUrl r)
    (Products.imageUrls r) (Products.hashtags r) (Products.category r)
    (Products.stock r) (Products.isAvailable r) (Products.likesCount r)
    (Products.sharesCount r) (Products.commentsCount r) v
    (Products.createdAt r) (Products.updatedAt r).

Definition set_commentsCount (v : option Z) (r : Products.row)
  : Products.row :=
  Products.mk (Products.id r) (Products.userId r) (Products.title r)
    (Products.description r) (Products.price r) (Products.imageUrl r)
    (Products.imageUrls r) (Products.hashtags r) (Products.category r)
    (Products.stock r) (Products.isAvailable r) (Products.likesCount r)
    (Products.sharesCount r) v (Products.viewsCount r)
    (Products.createdAt r) (Products.updatedAt r).

(** ** Users *)

Definition getUser (id : string) : M (option Users.row) :=
  found <- select usersT (eq_s Users.id id) ;;
  ret (first found).

Definition getUserByUsername (username : string) : M (option Users.row) :=
  found <- select usersT (eq_os Users.username username) ;;
  ret (first found).

(** [select({user: users}).from(follows).leftJoin(users, on).where(c)] and
    [result.map(r => r.user!)]: the joined user, NULL when there is none. *)
Definition getUserFollowers (userId : string) : M (list (option Users.row)) :=
  fun d =>
    let joined :=
      left_join (fun f u => String.eqb (Follows.followerId f) (Users.id u))
                (follows d) (users d) in
    let result :=
      filter (fun r => eq_s Follows.followingId userId (fst r)) joined in
    (Ok (map snd result), d).

Definition getUserFollowing (userId : string) : M (list (option Users.row)) :=
  fun d =>
    let joined :=
      left_join (fun f u => String.eqb (Follows.followingId f) (Users.id u))
                (follows d) (users d) in
    let result :=
      filter (fun r => eq_s Follows.followerId userId (fst r)) joined in
    (Ok (map snd result), d).

(** ** Products *)

(** [.set({ viewsCount: sql`${products.viewsCount} + 1` })] on one row. *)
Definition add_view (p : Products.row) : option Products.row :=
  option_map (fun v => set_viewsCount v p)
             (sql_add (Products.viewsCount p) 1).

Definition incrementProductViews {E : Engine} (productId : nat) : M unit :=
  update productsT add_view (eq_n Products.id productId) ;;;
  ret tt.

(** [{ ...product, user: user! }] *)
Definition getProductWithUser (id : nat)
  : M (option (Products.row * option Users.row)) :=
  fun d =>
    let joined :=
      left_join (fun p u => String.eqb (Products.userId p) (Users.id u))
                (products d) (users d) in
    let result := filter (fun r => eq_n Products.id id (fst r)) joined in
    match result with
    | [] => (Ok None, d)
    | r :: _ => (Ok (Some r), d)
    end.

(** ** Bookmarks *)

Definition insert_productBookmarks (userId : string) (productId : nat)
  : M (list ProductBookmarks.row) :=
  references usersT (eq_s Users.id userId) ;;;
  references productsT (eq_n Products.id productId) ;;;
  i <- gen_random_uuid ;;
  t <- now ;;
  let r := ProductBookmarks.mk i userId productId (Some t) in
  append productBookmarksT r ;;;
  ret [r].

Definition bookmarkProduct (userId : string) (productId : nat)
  : M (option ProductBookmarks.row) :=
  inserted <- insert_productBookmarks userId productId ;;
  ret (first inserted).

Definition unbookmarkProduct (userId : string) (productId : nat) : M unit :=
  delete productBookmarksT
    (and_ (eq_s ProductBookmarks.userId userId)
          (eq_n ProductBookmarks.productId productId)).

(** ** Cart *)

Definition updateCartItem {E : Engine} (id : nat) (quantity : Z)
  : M (option CartItems.row) :=
  t <- now ;;
  quantity <- int4_param (Some quantity) ;;
  updated <- update cartItemsT
               (fun r => Some (CartItems.set_quantity quantity (Some t) r))
               (eq_n CartItems.id id) ;;
  ret (first updated).

Definition removeFromCart (id : nat) : M unit :=
  delete cartItemsT (eq_n CartItems.id id).

Definition clearCart (userId : string) : M unit :=
  delete cartItemsT (eq_s CartItems.userId userId).

(** One element of [getCartItems]:
    [{ ...r.cart_items!, product: { ...r.products!, user: r.users! } }]. *)
Record CartLine := {
  cart_items : CartItems.row;
  line_products : option Products.row;
  line_users : option Users.row
}.


Section JoinedQueries.
Context {E : Engine}.

Definition getProductsByUser (userId : string) : M (list Products.row) :=
  select_order_by productsT
    (and_ (eq_s Products.userId userId) (eq_b Products.isAvailable true))
    (by_desc Products.createdAt).

Definition getUserBookmarks (userId : string)
  : M (list (option Products.row)) :=
  fun d =>
    let joined :=
      left_join (fun b p => Nat.eqb (ProductBookmarks.productId b)
                                    (Products.id p))
                (productBookmarks d) (products d) in
    let result :=
      sort_rows
        (may_precede (fun r1 r2 => desc (ProductBookmarks.createdAt (fst r1))
                                        (ProductBookmarks.createdAt (fst r2))))
        (filter (fun r => eq_s ProductBookmarks.userId userId (fst r)) joined)
    in
    (Ok (map snd result), d).

Definition getCartItems (userId : string) : M (list CartLine) :=
  fun d =>
    let joined :=
      left_join (fun c p => Nat.eqb (CartItems.productId c) (Products.id p))
                (cartItems d) (products d) in
    let joined :=
      left_join
        (fun cp u =>
           on_some (fun p u => String.eqb (Products.userId p) (Users.id u))
                   (snd cp) u)
        joined (users d) in
    let result :=
      sort_rows
        (may_precede (fun r1 r2 => desc (CartItems.createdAt (fst (fst r1)))
                                        (CartItems.createdAt (fst (fst r2)))))
        (filter (fun r => eq_s CartItems.userId userId (fst (fst r))) joined)
    in
    (Ok (map (fun r => {| cart_items := fst (fst r);
                          line_products := snd (fst r);
                          line_users := snd r |}) result), d).

End JoinedQueries.


(** ** The rest of the schema

    Vrooms, vroom follows, comments and messages live beside the tables
    above.  Methods that touch them, or that the store can reject for its
    text or its decimal numbers, run in [MS]. *)

Module Vrooms.
Record row := mk {
  id : nat;
  userId : string;
  name : string;
  description : option string;
  bannerImageUrl : option string;
  followersCount : option Z;
  viewsCount : option Z;
  isActive : option bool;
  createdAt : option Z;
  updatedAt : option Z
}.

(* .set({ followersCount }) *)
Definition set_followersCount (v : option Z) (r : row) : row :=
  mk (id r) (userId r) (name r) (description r) (bannerImageUrl r)
     v (viewsCount r) (isActive r) (createdAt r) (updatedAt r).
End Vrooms.

Module VroomFollows.
Record row := mk {
  id : nat;
  userId : string;
  vroomId : nat;
  createdAt : option Z
}.
End VroomFollows.

Module Comments.
Record row := mk {
  id : nat;
  userId : string;
  productId : nat;
  content : string;
  parentId : option nat;
  createdAt : option Z
}.
End Comments.

Module Messages.
Record row := mk {
  id : nat;
  senderId : string;
  receiverId : string;
  content : string;
  orderId : option nat;
  isRead : option bool;
  createdAt : option Z
}.

(* .set({ isRead }) *)
Definition set_isRead (v : option bool) (r : row) : row :=
  mk (id r) (senderId r) (receiverId r) (content r) (orderId r) v
     (createdAt r).
End Messages.

(** The insert schemas: generated and counter columns are omitted, columns
    with a default or without NOT NULL are optional. *)
Module InsertProduct.
Record t := mk {
  userId : string;
  title : string;
  description : string;
  price : string;
  imageUrl : Field string;
  imageUrls : Field (list string);
  hashtags : Field (list string);
  category : Field string;
  stock : Field Z;
  isAvailable : Field bool
}.
End InsertProduct.

Module InsertVroom.
Record t := mk {
  userId : string;
  name : string;
  description : Field string;
  bannerImageUrl : Field string;
  isActive : Field bool
}.
End InsertVroom.

Module InsertComment.
Record t := mk {
  userId : string;
  productId : nat;
  content : string;
  parentId : Field nat
}.
End InsertComment.

Module InsertOrder.
Record t := mk {
  buyerId : string;
  sellerId : string;
  productId : nat;
  quantity : Field Z;
  totalAmount : string;
  status : Field string;
  paymentMethod : Field string;
  shippingAddress : Field string
}.
End InsertOrder.

Module InsertMessage.
Record t := mk {
  senderId : string;
  receiverId : string;
  content : string;
  orderId : Field nat;
  isRead : Field bool
}.
End InsertMessage.

Record Store := {
  core : Db;
  vrooms : list Vrooms.row;
  vroomFollows : list VroomFollows.row;
  comments : list Comments.row;
  messages : list Messages.row
}.

Definition with_core (v : Db) (s : Store) : Store :=
  {| core := v; vrooms := vrooms s; vroomFollows := vroomFollows s;
     comments := comments s; messages := messages s |}.

Definition with_vrooms (v : list Vrooms.row) (s : Store) : Store :=
  {| core := core s; vrooms := v; vroomFollows := vroomFollows s;
     comments := comments s; messages := messages s |}.

Definition with_vroomFollows (v : list VroomFollows.row) (s : Store) : Store :=
  {| core := core s; vrooms := vrooms s; vroomFollows := v;
     comments := comments s; messages := messages s |}.

Definition with_comments (v : list Comments.row) (s : Store) : Store :=
  {| core := core s; vrooms := vrooms s; vroomFollows := vroomFollows s;
     comments := v; messages := messages s |}.

Definition with_messages (v : list Messages.row) (s : Store) : Store :=
  {| core := core s; vrooms := vrooms s; vroomFollows := vroomFollows s;
     comments := comments s; messages := v |}.

(** What the store can reject a statement for. *)
Inductive Rejection : Type :=
| Core (e : StorageError)
| NegativeOffset      (* OFFSET with a negative row count *)
| ValueTooLong        (* more than 255 characters for a varchar(255) *)
| InvalidNumeric.     (* text that is no decimal(10, 2) *)

Inductive Result (A : Type) : Type :=
| Returned (a : A)
| Thrown (e : Rejection).
Arguments Thrown {A} e.

Definition MS (A : Type) : Type := Store -> Result A * Store.

Definition retS {A} (a : A) : MS A := fun s => (Returned a, s).

Definition throwS {A} (e : Rejection) : MS A := fun s => (Thrown e, s).

Definition bindS {A B} (m : MS A) (k : A -> MS B) : MS B :=
  fun s =>
    match m s with
    | (Returned a, s') => k a s'
    | (Thrown e, s') => (Thrown e, s')
    end.

(** A method or statement on the tables above, run on the whole store. *)
Definition lift {A} (m : M A) : MS A :=
  fun s =>
    match m (core s) with
    | (Ok a, d') => (Returned a, with_core d' s)
    | (Fail e, d') => (Thrown (Core e), with_core d' s)
    end.

Declare Scope store_scope.
Delimit Scope store_scope with store.
Notation "x <- m ;; k" := (bindS m (fun x => k))
  (at level 61, m at next level, right associativity) : store_scope.
Notation "m ;;; k" := (bindS m (fun _ => k))
  (at level 61, right associativity) : store_scope.

Record STable (R : Type) := {
  srows : Store -> list R;
  sput : list R -> Store -> Store
}.

Definition vroomsS : STable Vrooms.row :=
  {| srows := vrooms; sput := with_vrooms |}.
Definition vroomFollowsS : STable VroomFollows.row :=
  {| srows := vroomFollows; sput := with_vroomFollows |}.
Definition commentsS : STable Comments.row :=
  {| srows := comments; sput := with_comments |}.
Definition messagesS : STable Messages.row :=
  {| srows := messages; sput := with_messages |}.

Definition selectS {R} (t : STable R) (c : R -> bool) : MS (list R) :=
  fun s => (Returned (filter c (srows t s)), s).

Definition select_countS {R} (t : STable R) (c : R -> bool) : MS Z :=
  fun s => (Returned (Z.of_nat (List.length (filter c (srows t s)))), s).

Definition updateS {E : Engine} {R} (t : STable R) (f : R -> option R)
    (c : R -> bool) : MS (list R) :=
  fun s =>
    match all_some (map f (filter c (srows t s))) with
    | Some new =>
        (Returned new,
         sput t (place_rows (filter (fun r => negb (c r)) (srows t s)) new) s)
    | None => (Thrown (Core IntegerOutOfRange), s)
    end.

Definition deleteS {R} (t : STable R) (c : R -> bool) : MS unit :=
  fun s => (Returned tt, sput t (filter (fun r => negb (c r)) (srows t s)) s).

Definition appendS {R} (t : STable R) (r : R) : MS unit :=
  fun s => (Returned tt, sput t (srows t s ++ [r]) s).

Definition referencesS {R} (t : STable R) (c : R -> bool) : MS unit :=
  fun s =>
    if existsb c (srows t s) then (Returned tt, s)
    else (Thrown (Core ForeignKeyViolation), s).

(** A nullable foreign key: NULL references nothing. *)
Definition references_if {K} (k : option K) (check : K -> MS unit) : MS unit :=
  match k with
  | Some v => check v
  | None => retS tt
  end.

(** Text is stored as the bytes of its UTF-8 encoding, and a character is a
    byte that starts one followed by the bytes that continue it. *)
Definition continuation (c : ascii) : bool :=
  let n := nat_of_ascii c in (128 <=? n)%nat && (n <? 192)%nat.

Definition char_count (s : string) : nat :=
  List.length (filter (fun c => negb (continuation c))
                      (list_ascii_of_string s)).

Fixpoint skip_continuations (bs : list ascii) : list ascii :=
  match bs with
  | c :: bs' => if continuation c then skip_continuations bs' else bs
  | [] => []
  end.

(** The bytes after the first [n] characters. *)
Fixpoint skip_chars (n : nat) (bs : list ascii) : list ascii :=
  match n with
  | 0 => bs
  | S n' =>
      match bs with
      | [] => []
      | _ :: bs' => skip_chars n' (skip_continuations bs')
      end
  end.

(** The first [n] characters. *)
Definition take_chars (n : nat) (bs : list ascii) : list ascii :=
  firstn (List.length bs - List.length (skip_chars n bs)) bs.

(** [varchar(255)]: text of more than 255 characters is rejected, unless
    all the characters in excess are spaces, which the store cuts off. *)
Definition varchar_255 (v : string) : MS string :=
  if (char_count v <=? 255)%nat then retS v
  else if forallb (Ascii.eqb " ") (skip_chars 255 (list_ascii_of_string v))
       then retS (string_of_list_ascii
                    (take_chars 255 (list_ascii_of_string v)))
       else throwS ValueTooLong.

(** [decimal(10, 2)]: the store parses the text it is given and keeps the
    value rounded to two places, or rejects it.  The conversion is the
    store's own. *)
Class Numeric : Type := {
  numeric_10_2 : string -> option string
}.

Definition decimal_10_2 {N : Numeric} (v : string) : MS string :=
  match numeric_10_2 v with
  | Some stored => retS stored
  | None => throwS InvalidNumeric
  end.

(** [q.limit(n).offset(k)]: the OFFSET is applied before the LIMIT.  A
    negative [n] limits nothing (see [sql_limit]); the query builder writes
    the OFFSET clause for any number but 0; the store rejects a number that
    does not fit 64 bits, and a negative OFFSET. *)
Definition sql_limit_offset {R} (n k : Z) (q : MS (list R)) : MS (list R) :=
  if (int8_max <? n)%Z || (int8_max <? k)%Z
  then throwS (Core IntegerOutOfRange)
  else if (k <? 0)%Z then throwS NegativeOffset
  else if (n <? 0)%Z
       then bindS q (fun rs => retS (skipn (Z.to_nat k) rs))
       else bindS q (fun rs =>
                       retS (firstn (Z.to_nat n) (skipn (Z.to_nat k) rs))).
Local Open Scope store_scope.

(** ** INSERT statements of the remaining tables

    A statement is rejected for text that does not fit its column, for a
    number that is none, or for a foreign key without a target.  When more
    than one of these applies the store reports one of them; the properties
    below do not depend on which. *)

Section StoreFacade.
Context {E : Engine} {N : Numeric}.

(** [db.select().from(t).where(c).orderBy(k)] on a table of [Store]. *)
Definition select_order_byS {R} (t : STable R) (c : R -> bool)
    (k : R -> R -> comparison) : MS (list R) :=
  fun s => (Returned (sort_rows (may_precede k) (filter c (srows t s))), s).

Definition insert_products (product : InsertProduct.t)
  : MS (list Products.row) :=
  title <- varchar_255 (InsertProduct.title product) ;;
  price <- decimal_10_2 (InsertProduct.price product) ;;
  lift (references usersT (eq_s Users.id (InsertProduct.userId product))) ;;;
  i <- lift gen_random_uuid ;;
  t <- lift now ;;
  let r :=
    Products.mk i (InsertProduct.userId product) title
      (InsertProduct.description product) price
      (column_value None (InsertProduct.imageUrl product))
      (column_value None (InsertProduct.imageUrls product))
      (column_value None (InsertProduct.hashtags product))
      (column_value None (InsertProduct.category product))
      (column_value (Some 1%Z) (InsertProduct.stock product))
      (column_value (Some true) (InsertProduct.isAvailable product))
      (Some 0%Z) (Some 0%Z) (Some 0%Z) (Some 0%Z) (Some t) (Some t) in
  lift (append productsT r) ;;;
  retS [r].


Definition insert_vrooms (vroom : InsertVroom.t) : MS (list Vrooms.row) :=
  name <- varchar_255 (InsertVroom.name vroom) ;;
  lift (references usersT (eq_s Users.id (InsertVroom.userId vroom))) ;;;
  i <- lift gen_random_uuid ;;
  t <- lift now ;;
  let r :=
    Vrooms.mk i (InsertVroom.userId vroom) name
      (column_value None (InsertVroom.description vroom))
      (column_value None (InsertVroom.bannerImageUrl vroom))
      (Some 0%Z) (Some 0%Z)
      (column_value (Some true) (InsertVroom.isActive vroom))
      (Some t) (Some t) in
  appendS vroomsS r ;;;
  retS [r].

Definition insert_vroomFollows (userId : string) (vroomId : nat)
  : MS (list VroomFollows.row) :=
  lift (references usersT (eq_s Users.id userId)) ;;;
  referencesS vroomsS (eq_n Vrooms.id vroomId) ;;;
  i <- lift gen_random_uuid ;;
  t <- lift now ;;
  let r := VroomFollows.mk i userId vroomId (Some t) in
  appendS vroomFollowsS r ;;;
  retS [r].

Definition insert_comments (comment : InsertComment.t)
  : MS (list Comments.row) :=
  let parent := column_value None (InsertComment.parentId comment) in
  lift (references usersT (eq_s Users.id (InsertComment.userId comment))) ;;;
  lift (references productsT
          (eq_n Products.id (InsertComment.productId comment))) ;;;
  references_if parent (fun c => referencesS commentsS (eq_n Comments.id c)) ;;;
  i <- lift gen_random_uuid ;;
  t <- lift now ;;
  let r :=
    Comments.mk i (InsertComment.userId comment)
      (InsertComment.productId comment) (InsertComment.content comment)
      parent (Some t) in
  appendS commentsS r ;;;
  retS [r].

Definition insert_messages (message : InsertMessage.t)
  : MS (list Messages.row) :=
  let order := column_value None (InsertMessage.orderId message) in
  lift (references usersT (eq_s Users.id (InsertMessage.senderId message))) ;;;
  lift (references usersT
          (eq_s Users.id (InsertMessage.receiverId message))) ;;;
  references_if order
    (fun o => lift (references ordersT (eq_n Orders.id o))) ;;;
  i <- lift gen_random_uuid ;;
  t <- lift now ;;
  let r :=
    Messages.mk i (InsertMessage.senderId message)
      (InsertMessage.receiverId message) (InsertMessage.content message)
      order (column_value (Some false) (InsertMessage.isRead message))
      (Some t) in
  appendS messagesS r ;;;
  retS [r].

(** ** Products and orders *)

Definition createProduct (product : InsertProduct.t)
  : MS (option Products.row) :=
  inserted <- insert_products product ;;
  retS (first inserted).

Definition getProducts (limit offset : option Z) : MS (list Products.row) :=
  let limit := default_arg limit 20 in
  let offset := default_arg offset 0 in
  sql_limit_offset limit offset
    (lift (select_order_by productsT (eq_b Products.isAvailable true)
             (by_desc Products.createdAt))).


(** ** Vrooms *)

Definition createVroom (vroom : InsertVroom.t) : MS (option Vrooms.row) :=
  inserted <- insert_vrooms vroom ;;
  retS (first inserted).

Definition getVroom (id : nat) : MS (option Vrooms.row) :=
  found <- selectS vroomsS (eq_n Vrooms.id id) ;;
  retS (first found).

Definition getVroomsByUser (userId : string) : MS (list Vrooms.row) :=
  select_order_byS vroomsS
    (and_ (eq_s Vrooms.userId userId) (eq_b Vrooms.isActive true))
    (by_desc Vrooms.createdAt).

(** [{ ...vroom!, user: user!, products: vroomProducts }] *)
Definition getVroomWithProducts (id : nat)
  : MS (option (Vrooms.row * option Users.row * list Products.row)) :=
  fun s =>
    let joined :=
      left_join (fun v u => String.eqb (Vrooms.userId v) (Users.id u))
                (vrooms s) (users (core s)) in
    let vroomResult := filter (fun r => eq_n Vrooms.id id (fst r)) joined in
    match vroomResult with
    | [] => (Returned None, s)
    | r :: _ =>
        (vroomProducts <-
           lift (select_order_by productsT
                   (and_ (eq_s Products.userId (Vrooms.userId (fst r)))
                         (eq_b Products.isAvailable true))
                   (by_desc Products.createdAt)) ;;
         retS (Some (fst r, snd r, vroomProducts))) s
    end.

Definition getTrendingVrooms (limit : option Z) : MS (list Vrooms.row) :=
  let limit := default_arg limit 10 in
  sql_limit_offset limit 0
    (select_order_byS vroomsS (eq_b Vrooms.isActive true)
       (then_by (by_desc Vrooms.followersCount)
                (by_desc Vrooms.viewsCount))).

(** [.set({ followersCount: sql`${vrooms.followersCount} + k` })] on one
    row. *)
Definition add_followers (k : Z) (v : Vrooms.row) : option Vrooms.row :=
  option_map (fun c => Vrooms.set_followersCount c v)
             (sql_add (Vrooms.followersCount v) k).

Definition followVroom (userId : string) (vroomId : nat)
  : MS (option VroomFollows.row) :=
  inserted <- insert_vroomFollows userId vroomId ;;
  updateS vroomsS (add_followers 1) (eq_n Vrooms.id vroomId) ;;;
  retS (first inserted).

Definition unfollowVroom (userId : string) (vroomId : nat) : MS unit :=
  deleteS vroomFollowsS (and_ (eq_s VroomFollows.userId userId)
                              (eq_n VroomFollows.vroomId vroomId)) ;;;
  updateS vroomsS (add_followers (-1)) (eq_n Vrooms.id vroomId) ;;;
  retS tt.

Definition isFollowingVroom (userId : string) (vroomId : nat) : MS bool :=
  result <- selectS vroomFollowsS
              (and_ (eq_s VroomFollows.userId userId)
                    (eq_n VroomFollows.vroomId vroomId)) ;;
  retS (0 <? List.length result)%nat.

(** ** Comments *)

(** [sql`${comments.parentId} IS NULL`] *)
Definition is_null {R A} (col : R -> option A) : R -> bool :=
  fun r => match col r with
           | Some _ => false
           | None => true
           end.

(** [eq(comments.parentId, commentId)] on the nullable key. *)
Definition eq_on {R} (col : R -> option nat) (v : nat) : R -> bool :=
  fun r => match col r with
           | Some x => Nat.eqb x v
           | None => false
           end.

(** [.set({ commentsCount: sql`${products.commentsCount} + 1` })] on one
    row. *)
Definition add_comment (p : Products.row) : option Products.row :=
  option_map (fun c => set_commentsCount c p)
             (sql_add (Products.commentsCount p) 1).

Definition createComment (comment : InsertComment.t)
  : MS (option Comments.row) :=
  inserted <- insert_comments comment ;;
  lift (update productsT add_comment
          (eq_n Products.id (InsertComment.productId comment))) ;;;
  retS (first inserted).

Definition getProductComments (productId : nat) : MS (list Comments.row) :=
  select_order_byS commentsS
    (and_ (eq_n Comments.productId productId) (is_null Comments.parentId))
    (by_desc Comments.createdAt).

Definition getCommentReplies (commentId : nat) : MS (list Comments.row) :=
  select_order_byS commentsS (eq_on Comments.parentId commentId)
    (by_asc Comments.createdAt).

(** ** Messages *)

(** One element of [getConversation]:
    [{ ...r.messages!, sender: r.users!, receiver: receiver! }]. *)
Record MessageView := {
  view_message : Messages.row;
  sender : option Users.row;
  receiver : option Users.row
}.

(** One value of the conversation map. *)
Record Conversation := {
  user : option Users.row;
  lastMessage : Messages.row;
  unreadCount : Z
}.

Definition sendMessage (message : InsertMessage.t)
  : MS (option Messages.row) :=
  inserted <- insert_messages message ;;
  retS (first inserted).

Definition getConversation (userId1 userId2 : string)
  : MS (list MessageView) :=
  fun s =>
    let joined :=
      left_join (fun m u => String.eqb (Messages.senderId m) (Users.id u))
                (messages s) (users (core s)) in
    let result :=
      sort_rows
        (may_precede (fun r1 r2 => asc (Messages.createdAt (fst r1))
                                       (Messages.createdAt (fst r2))))
        (filter
           (fun r =>
              or_ (and_ (eq_s Messages.senderId userId1)
                        (eq_s Messages.receiverId userId2))
                  (and_ (eq_s Messages.senderId userId2)
                        (eq_s Messages.receiverId userId1))
                  (fst r))
           joined) in
    (Returned
       (map (fun r =>
               {| view_message := fst r;
                  sender := snd r;
                  receiver :=
                    first (filter (eq_s Users.id (Messages.receiverId (fst r)))
                                  (users (core s))) |})
            result), s).

(** [conversationMap.has(key)] *)
Definition map_has {V} (k : string) (m : list (string * V)) : bool :=
  existsb (fun e => String.eqb (fst e) k) m.

(** [message.senderId === userId ? message.receiverId : message.senderId] *)
Definition counterpart (userId : string) (message : Messages.row) : string :=
  if String.eqb (Messages.senderId message) userId
  then Messages.receiverId message
  else Messages.senderId message.

Definition getUserConversations (userId : string) : MS (list Conversation) :=
  fun s =>
    let conversations :=
      sort_rows (may_precede (by_desc Messages.createdAt))
        (filter (or_ (eq_s Messages.senderId userId)
                     (eq_s Messages.receiverId userId))
                (messages s)) in
    let conversationMap :=
      fold_left
        (fun m message =>
           let otherUserId := counterpart userId message in
           if map_has otherUserId m then m
           else
             let otherUser :=
               first (filter (eq_s Users.id otherUserId) (users (core s))) in
             let unread :=
               Z.of_nat
                 (List.length
                    (filter
                       (and_ (eq_s Messages.senderId otherUserId)
                             (and_ (eq_s Messages.receiverId userId)
                                   (eq_b Messages.isRead false)))
                       (messages s))) in
             m ++ [(otherUserId, {| user := otherUser;
                                    lastMessage := message;
                                    unreadCount := unread |})])
        conversations [] in
    (Returned (map snd conversationMap), s).

Definition markMessageAsRead (messageId : nat) : MS unit :=
  updateS messagesS (fun m => Some (Messages.set_isRead (Some true) m))
    (eq_n Messages.id messageId) ;;;
  retS tt.

Definition markConversationAsRead (userId otherUserId : string) : MS unit :=
  updateS messagesS (fun m => Some (Messages.set_isRead (Some true) m))
    (and_ (eq_s Messages.senderId otherUserId)
          (eq_s Messages.receiverId userId)) ;;;
  retS tt.
End StoreFacade.

(** ** Deleting a product

    Every foreign key of the schema is declared [onDelete: 'cascade']: the
    rows that reference a deleted row go with it, and so do the rows that
    reference those. *)

(** A nullable key points into [dead]. *)
Definition refers_to (dead : list nat) (k : option nat) : bool :=
  match k with
  | Some x => existsb (Nat.eqb x) dead
  | None => false
  end.

(** Replies go with their parent comment, round after round; every round
    that deletes nothing ends the cascade, so as many rounds as there are
    comments always suffice. *)
Fixpoint cascade_replies (rounds : nat) (dead : list nat)
    (cs : list Comments.row) : list Comments.row :=
  match rounds with
  | 0 => cs
  | S rounds' =>
      let hit := fun c => refers_to dead (Comments.parentId c) in
      match filter hit cs with
      | [] => cs
      | gone =>
          cascade_replies rounds' (map Comments.id gone)
            (filter (fun c => negb (hit c)) cs)
      end
  end.

Definition deleteProduct (id : nat) : MS unit :=
  fun s =>
    let d := core s in
    match filter (eq_n Products.id id) (products d) with
    | [] => (Returned tt, s)
    | _ :: _ =>
        let keep {R} (col : R -> nat) := fun r : R => negb (eq_n col id r) in
        let gone_orders :=
          map Orders.id (filter (eq_n Orders.productId id) (orders d)) in
        let gone_comments :=
          map Comments.id (filter (eq_n Comments.productId id) (comments s)) in
        let d' :=
          with_products (filter (keep Products.id) (products d))
            (with_productLikes
               (filter (keep ProductLikes.productId) (productLikes d))
               (with_productBookmarks
                  (filter (keep ProductBookmarks.productId)
                          (productBookmarks d))
                  (with_cartItems
                     (filter (keep CartItems.productId) (cartItems d))
                     (with_orders
                        (filter (keep Orders.productId) (orders d)) d)))) in
        let comments' :=
          cascade_replies (List.length (comments s)) gone_comments
            (filter (keep Comments.productId) (comments s)) in
        let messages' :=
          filter (fun m => negb (refers_to gone_orders (Messages.orderId m)))
                 (messages s) in
        (Returned tt,
         with_messages messages' (with_comments comments' (with_core d' s)))
    end.

(** ** Route handlers (server/routes.ts)

    A handler gets the authenticated user's id and the path parameters
    (row ids are taken as well-formed uuids), calls the facade inside
    [try]/[catch] and answers with a status and a body. *)

Inductive ResponseBody (A : Type) : Type :=
| Json (a : A)                 (* res.json(a) *)
| JsonMessage (message : string)   (* res.json({ message }) *)
| NoContent.                   (* res.send() *)
Arguments JsonMessage {A} message.
Arguments NoContent {A}.

Record Response (A : Type) := {
  status : nat;
  body : ResponseBody A
}.

(** [try { ... } catch (error) { res.status(code).json({ message }) }] *)
Definition try_catch {A} (handler : MS (Response A)) (code : nat)
    (message : string) : Store -> Response A * Store :=
  fun s =>
    match handler s with
    | (Returned r, s') => (r, s')
    | (Thrown _, s') =>
        ({| status := code; body := JsonMessage message |}, s')
    end.

Section Routes.
Context {E : Engine}.

(** [POST /api/users/:id/follow] *)
Definition post_follow (followerId followingId : string)
  : Store -> Response (option Follows.row) * Store :=
  try_catch
    (if String.eqb followerId followingId
     then retS {| status := 400;
                  body := JsonMessage "Cannot follow yourself" |}
     else
       follow <- lift (followUser followerId followingId) ;;
       retS {| status := 201; body := Json follow |})
    500 "Failed to follow user".

(** [GET /api/products/:id] *)
Definition get_product (productId : nat)
  : Store -> Response (Products.row * option Users.row) * Store :=
  try_catch
    (found <- lift (getProductWithUser productId) ;;
     match found with
     | None => retS {| status := 404;
                       body := JsonMessage "Product not found" |}
     | Some product =>
         lift (incrementProductViews productId) ;;;
         retS {| status := 200; body := Json product |}
     end)
    500 "Failed to fetch product".

(** [DELETE /api/products/:id] *)
Definition delete_product (userId : string) (productId : nat)
  : Store -> Response unit * Store :=
  try_catch
    (existingProduct <- lift (getProduct productId) ;;
     match existingProduct with
     | None =>
         retS {| status := 403;
                 body := JsonMessage "Not authorized to delete this product" |}
     | Some existing =>
         if negb (String.eqb (Products.userId existing) userId)
         then
           retS {| status := 403;
                   body :=
                     JsonMessage "Not authorized to delete this product" |}
         else
           deleteProduct productId ;;;
           retS {| status := 204; body := NoContent |}
     end)
    500 "Failed to delete product".

(** [DELETE /api/cart/:id] *)
Definition delete_cart_item (userId : string) (cartItemId : nat)
  : Store -> Response unit * Store :=
  try_catch
    (lift (removeFromCart cartItemId) ;;;
     retS {| status := 204; body := NoContent |})
    500 "Failed to remove from cart".

(** [DELETE /api/cart] *)
Definition delete_cart (userId : string) : Store -> Response unit * Store :=
  try_catch
    (lift (clearCart userId) ;;;
     retS {| status := 204; body := NoContent |})
    500 "Failed to clear cart".

End Routes.

Local Close Scope store_scope.

(** ** Two stores that meet the contract

    [scan_engine] sorts the rows as scanned and keeps equal rows in scan
    order, and writes new row versions after the rows an UPDATE leaves
    alone; [backward_engine] reads the scan backwards before it sorts, and
    writes new row versions before the others.  Both read as an array the
    literals of the examples, a brace around plain elements as in
    [{vintage,home}], and no other text. *)

Definition double_quote : ascii := ascii_of_nat 34.

Definition plain_element_char (c : ascii) : bool :=
  negb (blank c || Ascii.eqb c "{" || Ascii.eqb c "}" || Ascii.eqb c ","
        || Ascii.eqb c double_quote || Ascii.eqb c (ascii_of_nat 92)).

Definition is_null_word (cs : list ascii) : bool :=
  match map lower cs with
  | [a; b; c; d] =>
      Ascii.eqb a "n" && Ascii.eqb b "u" && Ascii.eqb c "l" && Ascii.eqb d "l"
  | _ => false
  end.

(** The elements up to the closing brace, [cur] holding the characters of
    the element being read, last first. *)
Fixpoint plain_elements (cur : list ascii) (cs : list ascii)
  : option (list string) :=
  match cs with
  | [] => None
  | c :: cs' =>
      if Ascii.eqb c "}" then
        match cs', cur with
        | [], _ :: _ =>
            if is_null_word (rev cur) then None
            else Some [string_of_list_ascii (rev cur)]
        | _, _ => None
        end
      else if Ascii.eqb c "," then
        match cur with
        | [] => None
        | _ :: _ =>
            if is_null_word (rev cur) then None
            else option_map (cons (string_of_list_ascii (rev cur)))
                            (plain_elements [] cs')
        end
      else if plain_element_char c then plain_elements (c :: cur) cs'
      else None
  end.

Definition plain_array_in (s : string) : option (list string) :=
  match list_ascii_of_string s with
  | c :: cs =>
      if Ascii.eqb c "{" then
        match cs with
        | [e] => if Ascii.eqb e "}" then Some [] else None
        | _ => plain_elements [] cs
        end
      else None
  | [] => None
  end.

Definition scan_engine : Engine.
Proof.
  refine {| sort_rows := fun R le l => stable_sort le l;
            placement := fun R keep new => [];
            array_in := plain_array_in |}.
  - intros R le l.
    assert (Hins : forall x l0, Permutation (insert_before le x l0) (x :: l0)).
    { intros x l0. induction l0 as [|y l0 IH]; simpl.
      - apply Permutation_refl.
      - destruct (le x y); [apply Permutation_refl|].
        eapply perm_trans; [apply perm_skip, IH | apply perm_swap]. }
    induction l as [|x l IH]; simpl; [apply perm_nil|].
    eapply perm_trans; [apply Hins | apply perm_skip, IH].
  - intros R le l Htotal Htrans.
    assert (Hins : forall x l0,
              StronglySorted (fun a b => le a b = true) l0 ->
              StronglySorted (fun a b => le a b = true) (insert_before le x l0)
              /\ forall z, le z x = true ->
                           Forall (fun b => le z b = true) l0 ->
                           Forall (fun b => le z b = true)
                                  (insert_before le x l0)).
    { intros x l0 Hs. induction Hs as [|y l0 Hs [IH1 IH2] Hall]; simpl.
      - split; [repeat constructor|].
        intros z Hz _. repeat constructor. exact Hz.
      - destruct (le x y) eqn:Hxy.
        + split.
          * constructor; [constructor; assumption|].
            constructor; [exact Hxy|].
            eapply Forall_impl; [|exact Hall].
            intros b Hb. eapply Htrans; eassumption.
          * intros z Hz Hzl. constructor; assumption.
        + split.
          * constructor; [exact IH1|].
            apply IH2; [|exact Hall].
            destruct (Htotal x y) as [H|H]; [congruence | exact H].
          * intros z Hz Hzl. inversion Hzl as [|? ? Hzy Hzl0]; subst.
            constructor; [exact Hzy | apply IH2; assumption]. }
    induction l as [|x l IH]; simpl; [constructor|].
    apply Hins, IH.
  - intros s. unfold opens_array, plain_array_in.
    destruct (list_ascii_of_string s) as [|c cs]; [reflexivity|].
    simpl. destruct (Ascii.eqb c "{") eqn:Hc; [|reflexivity].
    apply Ascii.eqb_eq in Hc. subst c. simpl. discriminate.
Defined.

Definition backward_engine : Engine :=
  {| sort_rows := fun R le l => stable_sort le (rev l);
     sort_rows_perm :=
       fun R le l =>
         perm_trans (@sort_rows_perm scan_engine R le (rev l))
                    (Permutation_sym (Permutation_rev l));
     sort_rows_sorted :=
       fun R le l Ht Htr =>
         @sort_rows_sorted scan_engine R le (rev l) Ht Htr;
     placement := fun R keep new => map (fun _ => true) new;
     array_in := plain_array_in;
     array_in_opens := @array_in_opens scan_engine |}.

(** * Vocabulary of the properties *)

(** ** Tables after an UPDATE *)

(** The table an UPDATE leaves when it gives the rows that satisfy [c] the
    new version [g]. *)
Definition rewritten {E : Engine} {R} (c : R -> bool) (g : R -> R)
    (l : list R) : list R :=
  place_rows (filter (fun r => negb (c r)) l) (map g (filter c l)).

(** The same rows with each new version at the place of the old one: what
    the table holds, whatever place the store chose. *)
Definition in_place {R} (c : R -> bool) (g : R -> R) (l : list R) : list R :=
  map (fun r => if c r then g r else r) l.

(** The store a method leaves behind. *)
Definition after {A} (m : M A) (d : Db) : Db := snd (m d).

(** ** Users, follow edges and counters *)

(** A row of [users] has id [u]: the target of the foreign keys. *)
Definition is_user (d : Db) (u : string) : bool :=
  existsb (eq_s Users.id u) (users d).

(** The live counts that [updateUserStats] queries. *)
Definition live_followers (d : Db) (u : string) : Z :=
  Z.of_nat (List.length (filter (eq_s Follows.followingId u) (follows d))).

Definition live_following (d : Db) (u : string) : Z :=
  Z.of_nat (List.length (filter (eq_s Follows.followerId u) (follows d))).

(** Every stored row of user [u] carries the live counts. *)
Definition stats_match (d : Db) (u : string) : Prop :=
  forall r, In r (users d) -> Users.id r = u ->
    Users.followersCount r = Some (live_followers d u) /\
    Users.followingCount r = Some (live_following d u).

(** What [updateUserStats u] does to one row of [users]. *)
Definition recount (d : Db) (u : string) (r : Users.row) : Users.row :=
  if eq_s Users.id u r
  then Users.set_stats (Some (live_followers d u)) (Some (live_following d u))
         (Some (clock d)) r
  else r.

(** ** A small store used to instantiate the statements *)

Local Open Scope string_scope.

Definition alice : Users.row :=
  Users.mk "alice" (Some "alice@example.org") (Some "Alice") None None
           (Some "alice") None None None
           (Some 5%Z) (Some 7%Z) (Some 1%Z) (Some 1%Z).

Definition bob : Users.row :=
  Users.mk "bob" None None None None (Some "bob") None None None
           (Some 0%Z) (Some 0%Z) (Some 2%Z) (Some 2%Z).

Definition lamp : Products.row :=
  Products.mk 1 "alice" "Vintage Lamp" "A brass desk lamp" "35.00" None None
              (Some ["vintage"; "home"]) (Some "home") (Some 1%Z) (Some true)
              (Some 3%Z) (Some 0%Z) (Some 0%Z) (Some 10%Z)
              (Some 10%Z) (Some 10%Z).

Definition shoes : Products.row :=
  Products.mk 2 "bob" "Running SHOES" "Barely used" "19.90" None None
              (Some ["sport"; "vintage"]) (Some "sport") (Some 4%Z) (Some true)
              (Some 3%Z) (Some 0%Z) (Some 0%Z) (Some 10%Z)
              (Some 20%Z) (Some 20%Z).

Definition sold_out : Products.row :=
  Products.mk 3 "bob" "Old shoe rack" "shoe storage" "5.00" None None
              (Some ["home"]) None (Some 0%Z) (Some false)
              (Some 9%Z) (Some 0%Z) (Some 0%Z) (Some 90%Z)
              (Some 30%Z) (Some 30%Z).

Definition mug : Products.row :=
  Products.mk 6 "alice" "Plain mug" "Holds 30% more tea" "4.50" None None
              None None (Some 12%Z) (Some true)
              (Some 0%Z) (Some 0%Z) (Some 0%Z) (Some 0%Z)
              (Some 35%Z) (Some 35%Z).

Definition order7 : Orders.row :=
  Orders.mk 7 "alice" "bob" 2 (Some 1%Z) "19.90" (Some "delivered")
            (Some "pay_on_delivery") None (Some 40%Z) (Some 41%Z).

Definition shop : Db :=
  {| users := [alice; bob];
     products := [lamp; shoes; sold_out; mug];
     follows := [Follows.mk 4 "bob" "alice" (Some 3%Z)];
     productLikes := [];
     productBookmarks := [];
     cartItems := [CartItems.mk 5 "alice" 2 (Some 2%Z) (Some 4%Z) (Some 4%Z)];
     orders := [order7];
     nextUuid := 8;
     clock := 100%Z |}.

Local Close Scope string_scope.

(** ** Products, likes and orders *)

(** A row of [products] has id [p]. *)
Definition is_product (d : Db) (p : nat) : bool :=
  existsb (eq_n Products.id p) (products d).

(** The live number of like edges on product [p]. *)
Definition live_likes (d : Db) (p : nat) : Z :=
  Z.of_nat (List.length (filter (eq_n ProductLikes.productId p)
                                (productLikes d))).

(** [.set({ likesCount: sql`likesCount + k` }).where(eq(products.id, p))]
    on one row, when the sum fits. *)
Definition bump (p : nat) (k : Z) (r : Products.row) : Products.row :=
  if eq_n Products.id p r
  then Products.set_likesCount (plus (Products.likesCount r) k) r
  else r.

(** The stored row of order [id], as
    [select().from(orders).where(eq(orders.id, id))] reads it. *)
Definition order_row (id : nat) (d : Db) : option Orders.row :=
  first (filter (eq_n Orders.id id) (orders d)).

(** ** Trending products *)

(** The keys of [getTrendingProducts]: likes descending, then views
    descending. *)
Definition trending_key : Products.row -> Products.row -> comparison :=
  then_by (by_desc Products.likesCount) (by_desc Products.viewsCount).

(** [p] may stand before [q] in a trending list. *)
Definition ranks_before (p q : Products.row) : Prop :=
  may_precede trending_key p q = true.

(** ** Trending hashtags *)

(** One iteration of the counting loop:
    [hashtagCount.set(hashtag, (hashtagCount.get(hashtag) || 0) + 1)]. *)
Definition count_step (m : list (string * Z)) (hashtag : string)
  : list (string * Z) :=
  map_set hashtag (get_or_0 hashtag m + 1)%Z m.

(** The hashtag list the loop reads from a row; none when the column is NULL. *)
Definition tags_of (p : Products.row) : list string :=
  match Products.hashtags p with
  | Some tags => tags
  | None => []
  end.

(** All hashtag occurrences on available products, in scan order. *)
Definition available_tags (d : Db) : list string :=
  flat_map tags_of (filter (eq_b Products.isAvailable true) (products d)).

(** The keys of a [Map], in insertion order. *)
Definition keys (m : list (string * Z)) : list string := map fst m.

(** The comparator [(a, b) => b.count - a.count]. *)
Definition by_count_desc (a b : string * Z) : Z := (snd b - snd a)%Z.

(** The catalog of the example: a on ten products, b and c on seven, d on
    three. *)
Definition tagged (i : nat) (tags : list string) : Products.row :=
  Products.mk i "alice" "item" "an item" "1.00" None None
              (Some tags) None (Some 1%Z) (Some true)
              (Some 0%Z) (Some 0%Z) (Some 0%Z) (Some 0%Z)
              (Some (Z.of_nat i)) (Some (Z.of_nat i)).

Definition catalog : Db :=
  with_products
    (map (fun i => tagged i ["a"; "b"; "c"; "d"]%string) [1; 2; 3]
     ++ map (fun i => tagged i ["a"; "b"; "c"]%string) [4; 5; 6; 7]
     ++ map (fun i => tagged i ["a"]%string) [8; 9; 10])
    shop.

(** ** The cart *)

(** The cart rows of user [u] for product [p], as the first statement of
    [addToCart] selects them. *)
Definition cart_rows (d : Db) (u : string) (p : nat) : list CartItems.row :=
  filter (and_ (eq_s CartItems.userId u) (eq_n CartItems.productId p))
         (cartItems d).

(** The primary key of [cart_items]: ids are distinct, and all of them were
    drawn from the uuid supply, so the next generated id is new. *)
Definition cart_keys_ok (d : Db) : Prop :=
  NoDup (map CartItems.id (cartItems d)) /\
  Forall (fun r => CartItems.id r < nextUuid d) (cartItems d).

(** The invariant that [addToCart] maintains: at most one row per pair. *)
Definition one_row_per_pair (d : Db) : Prop :=
  forall u p, List.length (cart_rows d u p) <= 1.

(** ** Search *)

(** The WHERE clause that [searchProducts] builds from the query text. *)
Definition text_condition (query : string) : Products.row -> bool :=
  and_ (eq_b Products.isAvailable true)
       (or_ (ilike Products.title (contains_pattern query))
            (ilike Products.description (contains_pattern query))).

(** [s] contains [q] when letter case is ignored: the reading of the search
    contract, independent of patterns. *)
Fixpoint starts_with_ci (q s : list ascii) : bool :=
  match q, s with
  | [], _ => true
  | _ :: _, [] => false
  | c :: q', d :: s' => same_letter c d && starts_with_ci q' s'
  end.

Fixpoint contains_ci (q s : list ascii) : bool :=
  starts_with_ci q s ||
  match s with
  | [] => false
  | _ :: s' => contains_ci q s'
  end.

Definition mentions (query : string) (text : string) : bool :=
  contains_ci (list_ascii_of_string query) (list_ascii_of_string text).

(** The contract of the search as worded: available, the query occurs in
    title or description, and the hashtags meet the supplied ones if any. *)
Definition search_contract (query : string) (hashtags : option (list string))
    (p : Products.row) : bool :=
  sql_eq_bool (Products.isAvailable p) true
  && (mentions query (Products.title p)
      || mentions query (Products.description p))
  && match hashtags with
     | Some (h :: hs) => overlaps Products.hashtags (h :: hs) p
     | _ => true
     end.

(** A query without pattern characters. *)
Definition plain (q : list ascii) : bool :=
  forallb (fun c => negb (Ascii.eqb c backslash || Ascii.eqb c percent
                          || Ascii.eqb c underscore)) q.

(** Newest first; a NULL creation time sorts before every value. *)
Definition newer_first (p q : Products.row) : Prop :=
  may_precede (by_desc Products.createdAt) p q = true.


(** The calls a client can make on the cart. *)
Inductive CartCall : Type :=
| AddToCart (cartItem : InsertCartItem.t)
| UpdateCartItem (id : nat) (quantity : Z)
| RemoveFromCart (id : nat)
| ClearCart (userId : string).

Definition cart_call {E : Engine} (c : CartCall) (d : Db) : Db :=
  match c with
  | AddToCart cartItem => after (addToCart cartItem) d
  | UpdateCartItem id quantity => after (updateCartItem id quantity) d
  | RemoveFromCart id => after (removeFromCart id) d
  | ClearCart userId => after (clearCart userId) d
  end.

Definition cart_calls {E : Engine} (cs : list CartCall) (d : Db) : Db :=
  fold_left (fun d c => cart_call c d) cs d.

(** The primary keys of [users] and [products]. *)
Definition user_keys_ok (d : Db) : Prop := NoDup (map Users.id (users d)).

Definition product_keys_ok (d : Db) : Prop :=
  NoDup (map Products.id (products d)).

(** The row of a key, as a join on that key finds it. *)
Definition user_of (d : Db) (id : string) : option Users.row :=
  first (filter (eq_s Users.id id) (users d)).

Definition product_of (d : Db) (id : nat) : option Products.row :=
  first (filter (eq_n Products.id id) (products d)).

(** The product and the owner that the two joins of [getCartItems] attach
    to a cart row. *)
Definition line_of (d : Db) (c : CartItems.row)
  : CartItems.row * option Products.row * option Users.row :=
  (c, product_of d (CartItems.productId c),
   match product_of d (CartItems.productId c) with
   | Some p => user_of d (Products.userId p)
   | None => None
   end).

(** ** Recommendations *)

(** The ids of the products a user has liked or bookmarked. *)
Definition interacted_ids (d : Db) (u : string) : list nat :=
  map ProductLikes.productId
      (filter (eq_s ProductLikes.userId u) (productLikes d))
  ++ map ProductBookmarks.productId
         (filter (eq_s ProductBookmarks.userId u) (productBookmarks d)).

(** The set of hashtags [getRecommendedProducts] gathers from them. *)
Definition user_hashtags (d : Db) (u : string) : list string :=
  fold_left
    (fun acc p =>
       match Products.hashtags p with
       | Some tags => fold_left (fun s tag => set_add tag s) tags acc
       | None => acc
       end)
    (filter (inArray Products.id (interacted_ids d u)) (products d)) [].

(** ** Foreign keys *)

(** Some row of a table carries the key [k]. *)
Definition has_key {R} (col : R -> nat) (rows : list R) (k : nat) : Prop :=
  exists r, In r rows /\ col r = k.

(** The foreign keys on products, orders and comments hold: every like,
    bookmark, cart row, order and comment points at a stored product, every
    reply at a stored comment, every message with an order at a stored
    order. *)
Definition refs_ok (s : Store) : Prop :=
  let d := core s in
  Forall (fun l => has_key Products.id (products d)
                           (ProductLikes.productId l)) (productLikes d) /\
  Forall (fun b => has_key Products.id (products d)
                           (ProductBookmarks.productId b))
         (productBookmarks d) /\
  Forall (fun c => has_key Products.id (products d)
                           (CartItems.productId c)) (cartItems d) /\
  Forall (fun o => has_key Products.id (products d) (Orders.productId o))
         (orders d) /\
  Forall (fun c => has_key Products.id (products d) (Comments.productId c))
         (comments s) /\
  Forall (fun c => forall k, Comments.parentId c = Some k ->
                             has_key Comments.id (comments s) k)
         (comments s) /\
  Forall (fun m => forall k, Messages.orderId m = Some k ->
                             has_key Orders.id (orders d) k)
         (messages s).

(** ** A sample store with all its tables *)

Local Open Scope string_scope.

Definition corner : Vrooms.row :=
  Vrooms.mk 8 "alice" "Alice's corner" None None (Some 1%Z) (Some 4%Z)
            (Some true) (Some 50%Z) (Some 50%Z).

Definition attic : Vrooms.row :=
  Vrooms.mk 9 "alice" "Attic" None None (Some 0%Z) (Some 0%Z)
            (Some false) (Some 51%Z) (Some 51%Z).

Definition market : Store :=
  {| core := with_nextUuid 20 shop;
     vrooms := [corner; attic];
     vroomFollows := [VroomFollows.mk 10 "bob" 8 (Some 52%Z)];
     comments :=
       [Comments.mk 11 "bob" 1 "Nice lamp" None (Some 53%Z);
        Comments.mk 12 "alice" 1 "Thanks" (Some 11) (Some 54%Z);
        Comments.mk 13 "alice" 2 "See the lamp thread" (Some 12) (Some 55%Z);
        Comments.mk 14 "bob" 2 "Which size?" None (Some 56%Z)];
     messages :=
       [Messages.mk 15 "alice" "bob" "Still there?" (Some 7) (Some false)
                    (Some 60%Z);
        Messages.mk 16 "bob" "alice" "Yes" None (Some false) (Some 61%Z);
        Messages.mk 17 "bob" "alice" "Hello" None (Some true) (Some 62%Z)] |}.

Local Close Scope string_scope.

(** ** Views, follows and the routes *)

(** A product row after one more view. *)
Definition viewed (p : Products.row) : Products.row :=
  set_viewsCount (plus (Products.viewsCount p) 1) p.

(** No follow edge leads from a user to that same user. *)
Definition no_self_follow (d : Db) : Prop :=
  Forall (fun f => Follows.followerId f <> Follows.followingId f) (follows d).

(** ** Listings *)

(** The queries of the facade that list products. *)
Inductive Listing : Type :=
| AllProducts (limit offset : option Z)
| ProductsByUser (userId : string)
| SearchFor (query : string) (hashtags : option (list string))
| Trending (limit : option Z)
| Recommended (userId : string) (limit : option Z)
| VroomProducts (id : nat).

(** The products a listing returns; none when the store rejects it. *)
Definition listed {E : Engine} (q : Listing) (s : Store)
  : list Products.row :=
  match q with
  | AllProducts limit offset =>
      match getProducts limit offset s with
      | (Returned l, _) => l
      | (Thrown _, _) => []
      end
  | ProductsByUser userId =>
      match getProductsByUser userId (core s) with
      | (Ok l, _) => l
      | (Fail _, _) => []
      end
  | SearchFor query hashtags =>
      match searchProducts query hashtags (core s) with
      | (Ok l, _) => l
      | (Fail _, _) => []
      end
  | Trending limit =>
      match getTrendingProducts limit (core s) with
      | (Ok l, _) => l
      | (Fail _, _) => []
      end
  | Recommended userId limit =>
      match getRecommendedProducts userId limit (core s) with
      | (Ok l, _) => l
      | (Fail _, _) => []
      end
  | VroomProducts id =>
      match getVroomWithProducts id s with
      | (Returned (Some (_, _, l)), _) => l
      | _ => []
      end
  end.

(** ** Messages *)

(** User [u] sent or received the message. *)
Definition involves (u : string) : Messages.row -> bool :=
  or_ (eq_s Messages.senderId u) (eq_s Messages.receiverId u).

(** The number of unread messages from [other] to [u]. *)
Definition unread_from (s : Store) (other u : string) : Z :=
  Z.of_nat
    (List.length
       (filter (and_ (eq_s Messages.senderId other)
                     (and_ (eq_s Messages.receiverId u)
                           (eq_b Messages.isRead false)))
               (messages s))).

(** The entry that [getUserConversations] stores for a message. *)
Definition conversation_of (s : Store) (u : string) (message : Messages.row)
  : Conversation :=
  {| user := user_of (core s) (counterpart u message);
     lastMessage := message;
     unreadCount := unread_from s (counterpart u message) u |}.

(** No message sorts strictly before [m] when the newest come first. *)
Definition no_newer (m m' : Messages.row) : Prop :=
  may_precede (by_desc Messages.createdAt) m m' = true.

(** The order a new message names, if any, is stored. *)
Definition order_known (d : Db) (orderId : Field nat) : Prop :=
  forall o, column_value None orderId = Some o ->
            existsb (eq_n Orders.id o) (orders d) = true.

(** ** Vrooms and comments *)

Definition is_vroom (s : Store) (v : nat) : bool :=
  existsb (eq_n Vrooms.id v) (vrooms s).

(** The stored row of a vroom, as [getVroom] reads it. *)
Definition vroom_of (s : Store) (v : nat) : option Vrooms.row :=
  first (filter (eq_n Vrooms.id v) (vrooms s)).

(** A product row after one more comment. *)
Definition commented (p : Products.row) : Products.row :=
  set_commentsCount (plus (Products.commentsCount p) 1) p.

(** The comment a new reply names as its parent, if any, is stored. *)
Definition parent_known (s : Store) (parentId : Field nat) : Prop :=
  forall c, column_value None parentId = Some c ->
            existsb (eq_n Comments.id c) (comments s) = true.

(** The keys of [getTrendingVrooms]: followers descending, then views
    descending. *)
Definition vroom_key : Vrooms.row -> Vrooms.row -> comparison :=
  then_by (by_desc Vrooms.followersCount) (by_desc Vrooms.viewsCount).

Definition vroom_ranks_before (v w : Vrooms.row) : Prop :=
  may_precede vroom_key v w = true.

(** ** New products and orders *)




(** A conversion for the examples: an amount written as one to eight
    digits without a leading zero, a point and two digits is kept as
    written.  The examples use no other text. *)
Definition is_digit (c : ascii) : bool :=
  (48 <=? nat_of_ascii c)%nat && (nat_of_ascii c <=? 57)%nat.

Fixpoint two_places (cs : list ascii) : bool :=
  match cs with
  | [] => false
  | c :: rest =>
      if Ascii.eqb c "."
      then match rest with
           | [a; b] => is_digit a && is_digit b
           | _ => false
           end
      else is_digit c && two_places rest
  end.

Definition plain_amount (v : string) : bool :=
  match list_ascii_of_string v with
  | [] => false
  | c :: _ =>
      negb (Ascii.eqb c "0") && negb (Ascii.eqb c ".")
      && two_places (list_ascii_of_string v)
      && (String.length v <=? 11)%nat
  end.

Definition sample_numeric : Numeric :=
  {| numeric_10_2 := fun v => if plain_amount v then Some v else None |}.

Definition vroom_keys_fresh (s : Store) : Prop :=
  Forall (fun v => Vrooms.id v < nextUuid (core s)) (vrooms s).

(** ** Row versions *)

(** The version of a user row that [updateUserStats u] writes. *)
Definition recounted (d : Db) (u : string) : Users.row -> Users.row :=
  Users.set_stats (Some (live_followers d u)) (Some (live_following d u))
                  (Some (clock d)).

(** The version of a product row with [k] more likes, when the sum fits. *)
Definition with_likes (k : Z) (r : Products.row) : Products.row :=
  Products.set_likesCount (plus (Products.likesCount r) k) r.

(** The sample store with a product at the largest, and one at the
    smallest, like counter the column holds. *)
Definition full_lamp : Products.row :=
  Products.set_likesCount (Some int4_max) lamp.

Definition drained_mug : Products.row :=
  Products.set_likesCount (Some int4_min) mug.

Definition shop_at_bounds : Db :=
  with_products [full_lamp; shoes; sold_out; drained_mug] shop.

(** The quantity that [addToCart] writes on the row [e] it found, and the
    new version of a row with it. *)
Definition merged_quantity (e : CartItems.row) (q : Field Z) : Z :=
  js_add (CartItems.quantity e) (js_or q 1).

Definition merged (e : CartItems.row) (q : Field Z) (t : Z)
  : CartItems.row -> CartItems.row :=
  CartItems.set_quantity (Some (merged_quantity e q)) (Some t).

(** A column value that a 32-bit column holds. *)
Definition fits (v : option Z) : bool :=
  match int4 v with Some _ => true | None => false end.

(** A search without a (non-empty) hashtag list. *)
Definition without_hashtags (hashtags : option (list string)) : bool :=
  match hashtags with
  | Some (_ :: _) => false
  | _ => true
  end.

(** The version of a vroom row with [k] more followers, when the sum
    fits. *)
Definition with_followers (k : Z) (r : Vrooms.row) : Vrooms.row :=
  Vrooms.set_followersCount (plus (Vrooms.followersCount r) k) r.

(** The primary key of [vrooms]. *)
Definition vroom_keys_ok (s : Store) : Prop :=
  NoDup (map Vrooms.id (vrooms s)).

(** Text that a [varchar(255)] column does not take: more than 255
    characters, and not only spaces after the 255th. *)
Definition too_long (v : string) : bool :=
  negb (char_count v <=? 255)%nat
  && negb (forallb (Ascii.eqb " ")
             (skip_chars 255 (list_ascii_of_string v))).

(** A title of 128 accented letters, two bytes each. *)
Definition accented_title : string :=
  string_of_list_ascii
    (flat_map (fun _ => [ascii_of_nat 195; ascii_of_nat 169]) (seq 0 128)).
(** * Properties of the statements *)

(** ** The place of rewritten rows *)

Lemma merge_by_perm R (plan : list bool) : forall keep new : list R,
  Permutation (merge_by plan keep new) (keep ++ new).
Proof.
  induction plan as [|b plan IH]; intros keep new; simpl;
    [apply Permutation_refl|].
  destruct b.
  - destruct new as [|n new].
    + rewrite app_nil_r. apply Permutation_refl.
    + eapply perm_trans; [apply perm_skip, IH|]. apply Permutation_middle.
  - destruct keep as [|k keep]; [apply Permutation_refl|].
    simpl. apply perm_skip, IH.
Qed.

Lemma merge_by_none R (plan : list bool) : forall keep : list R,
  merge_by plan keep [] = keep.
Proof.
  induction plan as [|b plan IH]; intros keep; simpl;
    [apply app_nil_r|].
  destruct b; [reflexivity|].
  destruct keep as [|k keep]; [reflexivity|]. rewrite IH. reflexivity.
Qed.

Lemma filter_all_false A (c : A -> bool) l :
  (forall x, In x l -> c x = false) -> filter c l = [].
Proof.
  induction l as [|x l IH]; intros H; simpl; [reflexivity|].
  rewrite (H x (or_introl eq_refl)). apply IH.
  intros y Hy. apply H. right. exact Hy.
Qed.

Lemma merge_by_filter_new R (c : R -> bool) (plan : list bool) :
  forall keep new : list R,
    (forall r, In r keep -> c r = false) ->
    filter c (merge_by plan keep new) = filter c new.
Proof.
  induction plan as [|b plan IH]; intros keep new Hkeep; simpl.
  - rewrite filter_app, (filter_all_false c keep Hkeep). reflexivity.
  - destruct b.
    + destruct new as [|n new].
      * apply filter_all_false, Hkeep.
      * simpl. rewrite (IH keep new Hkeep). reflexivity.
    + destruct keep as [|k keep]; [reflexivity|].
      simpl. rewrite (Hkeep k (or_introl eq_refl)).
      apply IH. intros r Hr. apply Hkeep. right. exact Hr.
Qed.

Lemma merge_by_filter_keep R (c : R -> bool) (plan : list bool) :
  forall keep new : list R,
    (forall r, In r new -> c r = false) ->
    filter c (merge_by plan keep new) = filter c keep.
Proof.
  induction plan as [|b plan IH]; intros keep new Hnew; simpl.
  - rewrite filter_app, (filter_all_false c new Hnew). apply app_nil_r.
  - destruct b.
    + destruct new as [|n new]; [reflexivity|].
      simpl. rewrite (Hnew n (or_introl eq_refl)).
      apply IH. intros r Hr. apply Hnew. right. exact Hr.
    + destruct keep as [|k keep].
      * apply filter_all_false, Hnew.
      * simpl. rewrite (IH keep new Hnew). reflexivity.
Qed.

Lemma filter_nothing_to_delete A (c : A -> bool) l :
  filter c l = [] -> filter (fun r => negb (c r)) l = l.
Proof.
  induction l as [|x l IH]; simpl; [reflexivity|].
  destruct (c x); simpl; [discriminate|]. intros H. f_equal. exact (IH H).
Qed.

Lemma filter_delete_none A (c : A -> bool) l :
  filter c (filter (fun r => negb (c r)) l) = [].
Proof.
  induction l as [|x l IH]; simpl; [reflexivity|].
  destruct (c x) eqn:Hc; simpl; [exact IH|]. rewrite Hc. exact IH.
Qed.

Lemma filter_map_comm A (c : A -> bool) (g : A -> A) l :
  (forall x, c (g x) = c x) -> filter c (map g l) = map g (filter c l).
Proof.
  intros Hc. induction l as [|x l IH]; simpl; [reflexivity|].
  rewrite Hc. destruct (c x); simpl; rewrite IH; reflexivity.
Qed.

Lemma filter_filter_implied A (c c' : A -> bool) l :
  (forall x, c' x = true -> c x = true) ->
  filter c' (filter c l) = filter c' l.
Proof.
  intros H. induction l as [|x l IH]; simpl; [reflexivity|].
  destruct (c x) eqn:Hc; simpl.
  - rewrite IH. reflexivity.
  - destruct (c' x) eqn:Hc'; [|exact IH].
    rewrite (H x Hc') in Hc. discriminate.
Qed.

Lemma Permutation_filter_same A (c : A -> bool) (l l' : list A) :
  Permutation l l' -> Permutation (filter c l) (filter c l').
Proof.
  induction 1 as [|x l l' _ IH|x y l|l l' l'' _ IH1 _ IH2]; simpl.
  - apply perm_nil.
  - destruct (c x); [apply perm_skip|]; exact IH.
  - destruct (c x), (c y); try apply Permutation_refl. apply perm_swap.
  - eapply perm_trans; eassumption.
Qed.

(** Whatever place the store chose, the table holds the rows it would hold
    had every new version taken the place of the old one. *)
Lemma rewritten_perm (E : Engine) R (c : R -> bool) (g : R -> R) l :
  Permutation (rewritten c g l) (in_place c g l).
Proof.
  unfold rewritten, place_rows, in_place.
  eapply perm_trans; [apply merge_by_perm|].
  induction l as [|x l IH]; simpl; [apply perm_nil|].
  destruct (c x); simpl.
  - apply Permutation_sym.
    eapply perm_trans; [apply perm_skip, Permutation_sym, IH|].
    apply Permutation_middle.
  - apply perm_skip, IH.
Qed.

Lemma rewritten_In (E : Engine) R (c : R -> bool) (g : R -> R) l r :
  In r (rewritten c g l) <-> In r (in_place c g l).
Proof.
  split; apply Permutation_in;
    [|apply Permutation_sym]; apply rewritten_perm.
Qed.

(** An UPDATE that finds no row leaves the table as it is. *)
Lemma rewritten_none (E : Engine) R (c : R -> bool) (g : R -> R) l :
  filter c l = [] -> rewritten c g l = l.
Proof.
  intros H. unfold rewritten, place_rows. rewrite H. simpl.
  rewrite merge_by_none. apply filter_nothing_to_delete, H.
Qed.

(** Reading back, by a condition that only rewritten rows meet and that the
    new version keeps: the new versions, in the order of the old ones. *)
Lemma rewritten_filter_hit (E : Engine) R (c c' : R -> bool) (g : R -> R) l :
  (forall x, c' x = true -> c x = true) ->
  (forall x, c' (g x) = c' x) ->
  filter c' (rewritten c g l) = map g (filter c' l).
Proof.
  intros Himp Hg. unfold rewritten, place_rows.
  rewrite merge_by_filter_new.
  - rewrite (filter_map_comm c' g _ Hg).
    rewrite (filter_filter_implied c c' l Himp). reflexivity.
  - intros r Hr. apply filter_In in Hr. destruct Hr as [_ Hr].
    destruct (c' r) eqn:Hc'; [|reflexivity].
    rewrite (Himp r Hc') in Hr. discriminate.
Qed.

(** Reading back by a condition that no rewritten row meets, before or
    after: the rows are as they were. *)
Lemma rewritten_filter_miss (E : Engine) R (c c' : R -> bool) (g : R -> R) l :
  (forall x, c x = true -> c' x = false /\ c' (g x) = false) ->
  filter c' (rewritten c g l) = filter c' l.
Proof.
  intros Hmiss. unfold rewritten, place_rows.
  rewrite merge_by_filter_keep.
  - induction l as [|x l IH]; simpl; [reflexivity|].
    destruct (c x) eqn:Hc; simpl.
    + destruct (Hmiss x Hc) as [-> _]. exact IH.
    + destruct (c' x); [f_equal|]; exact IH.
  - intros r Hr. apply in_map_iff in Hr. destruct Hr as [x [<- Hx]].
    apply filter_In in Hx. apply (Hmiss x), Hx.
Qed.

Lemma rewritten_length (E : Engine) R (c : R -> bool) (g : R -> R) l :
  List.length (rewritten c g l) = List.length l.
Proof.
  rewrite (Permutation_length (rewritten_perm E c g l)).
  apply length_map.
Qed.

(** ** UPDATE *)

Lemma all_some_total A B (g : A -> B) (l : list A) :
  all_some (map (fun r => Some (g r)) l) = Some (map g l).
Proof.
  induction l as [|x l IH]; simpl; [reflexivity|]. rewrite IH. reflexivity.
Qed.

Lemma all_some_fits A B (s : A -> option B) (g : A -> B) (l : list A) :
  (forall r, In r l -> s r = Some (g r)) ->
  all_some (map s l) = Some (map g l).
Proof.
  induction l as [|x l IH]; intros H; simpl; [reflexivity|].
  rewrite (H x (or_introl eq_refl)), IH; [reflexivity|].
  intros r Hr. apply H. right. exact Hr.
Qed.

Lemma all_some_overflow A B (s : A -> option B) (l : list A) r :
  In r l -> s r = None -> all_some (map s l) = None.
Proof.
  induction l as [|x l IH]; intros Hin Hr; [destruct Hin|]. simpl.
  destruct Hin as [->|Hin].
  - rewrite Hr. reflexivity.
  - destruct (s x); [|reflexivity]. rewrite (IH Hin Hr). reflexivity.
Qed.

(** An UPDATE all of whose new versions fit. *)
Lemma update_fits (E : Engine) R (t : Table R) (s : R -> option R)
    (g : R -> R) c d :
  (forall r, In r (rows t d) -> c r = true -> s r = Some (g r)) ->
  update t s c d
  = (Ok (map g (filter c (rows t d))), put t (rewritten c g (rows t d)) d).
Proof.
  intros H. unfold update. rewrite (all_some_fits s g).
  - reflexivity.
  - intros r Hr. apply filter_In in Hr. apply H; apply Hr.
Qed.

(** An UPDATE one of whose new versions does not fit changes nothing. *)
Lemma update_overflow (E : Engine) R (t : Table R) (s : R -> option R)
    c d r :
  In r (rows t d) -> c r = true -> s r = None ->
  update t s c d = (Fail IntegerOutOfRange, d).
Proof.
  intros Hin Hc Hr. unfold update.
  rewrite (all_some_overflow s (filter c (rows t d)) r); [reflexivity| |exact Hr].
  apply filter_In. auto.
Qed.

(** ** Sorted lists and first rows *)

Lemma first_map A B (g : A -> B) l : first (map g l) = option_map g (first l).
Proof. destruct l; reflexivity. Qed.

Lemma first_filter_existsb A (c : A -> bool) l x :
  first (filter c l) = Some x -> existsb c l = true.
Proof.
  induction l as [|y l IH]; simpl; [discriminate|].
  destruct (c y); simpl; auto.
Qed.

Lemma filter_In_first A (c : A -> bool) l x rest :
  filter c l = x :: rest -> In x l /\ c x = true.
Proof.
  intros H. apply filter_In. rewrite H. left. reflexivity.
Qed.

Lemma first_filter_Some A (c : A -> bool) l x :
  first (filter c l) = Some x -> In x l /\ c x = true.
Proof.
  intros H. destruct (filter c l) as [|y ys] eqn:Hf; [discriminate|].
  injection H as ->. exact (filter_In_first _ _ Hf).
Qed.

Lemma firstn_In_self A n (l : list A) x : In x (firstn n l) -> In x l.
Proof.
  revert n. induction l as [|y l IH]; intros [|n]; simpl; try tauto.
  intros [H|H]; [left; exact H | right; exact (IH _ H)].
Qed.

Lemma firstn_StronglySorted A (R : A -> A -> Prop) n l :
  StronglySorted R l -> StronglySorted R (firstn n l).
Proof.
  intros H. revert n. induction H as [|x l Hs IH Hall]; intros [|n]; simpl;
    try constructor.
  - apply IH.
  - apply Forall_forall. intros y Hy.
    apply (proj1 (Forall_forall _ _) Hall). eapply firstn_In_self, Hy.
Qed.

Lemma StronglySorted_app_cross A (R : A -> A -> Prop) l1 l2 :
  StronglySorted R (l1 ++ l2) ->
  forall x y, In x l1 -> In y l2 -> R x y.
Proof.
  induction l1 as [|a l1 IH]; simpl; intros Hs x y Hx Hy; [contradiction|].
  inversion Hs as [|? ? Hs' Hall]; subst.
  destruct Hx as [<-|Hx].
  - apply (proj1 (Forall_forall _ _) Hall). apply in_or_app. right. exact Hy.
  - apply (IH Hs' x y Hx Hy).
Qed.

(** ** The stable sort *)

Lemma stable_sort_perm A (le : A -> A -> bool) l :
  Permutation (stable_sort le l) l.
Proof. exact (@sort_rows_perm scan_engine A le l). Qed.

Lemma stable_sort_sorted A (le : A -> A -> bool) l :
  (forall x y, le x y = true \/ le y x = true) ->
  (forall x y z, le x y = true -> le y z = true -> le x z = true) ->
  StronglySorted (fun x y => le x y = true) (stable_sort le l).
Proof. exact (@sort_rows_sorted scan_engine A le l). Qed.


(** ** UPDATE on the wider store *)

Lemma updateS_fits (E : Engine) R (t : STable R) (f : R -> option R)
    (g : R -> R) c s :
  (forall r, In r (srows t s) -> c r = true -> f r = Some (g r)) ->
  updateS t f c s
  = (Returned (map g (filter c (srows t s))),
     sput t (rewritten c g (srows t s)) s).
Proof.
  intros H. unfold updateS. rewrite (all_some_fits f g).
  - reflexivity.
  - intros r Hr. apply filter_In in Hr. apply H; apply Hr.
Qed.

Lemma updateS_overflow (E : Engine) R (t : STable R) (f : R -> option R)
    c s r :
  In r (srows t s) -> c r = true -> f r = None ->
  updateS t f c s = (Thrown (Core IntegerOutOfRange), s).
Proof.
  intros Hin Hc Hr. unfold updateS.
  rewrite (all_some_overflow f (filter c (srows t s)) r);
    [reflexivity| |exact Hr].
  apply filter_In. auto.
Qed.

(** The number of rows that meet a condition, after an UPDATE. *)
Lemma rewritten_filter_length (E : Engine) R (c c' : R -> bool) (g : R -> R)
    l :
  List.length (filter c' (rewritten c g l))
  = List.length (filter c' (in_place c g l)).
Proof.
  apply Permutation_length, Permutation_filter_same, rewritten_perm.
Qed.
(** * Properties of the facade *)

(** ** Follow edges and the users' counters *)

Lemma existsb_Permutation A (c : A -> bool) l l' :
  Permutation l l' -> existsb c l = existsb c l'.
Proof.
  induction 1 as [|x l l' _ IH|x y l|l l' l'' _ IH1 _ IH2]; simpl.
  - reflexivity.
  - rewrite IH. reflexivity.
  - destruct (c x), (c y); reflexivity.
  - congruence.
Qed.

Lemma updateUserStats_run (E : Engine) u d :
  updateUserStats u d
  = (Ok tt,
     with_users (rewritten (eq_s Users.id u) (recounted d u) (users d)) d).
Proof.
  unfold updateUserStats, select_count, now, bind, update. simpl.
  rewrite all_some_total. reflexivity.
Qed.

Lemma recount_in_place d u l :
  in_place (eq_s Users.id u) (recounted d u) l = map (recount d u) l.
Proof. reflexivity. Qed.

Lemma recount_id d u r : Users.id (recount d u r) = Users.id r.
Proof. unfold recount. destruct (eq_s Users.id u r); reflexivity. Qed.

Lemma is_user_map d (g : Users.row -> Users.row) u :
  (forall r, Users.id (g r) = Users.id r) ->
  existsb (eq_s Users.id u) (map g (users d)) = is_user d u.
Proof.
  intros Hg. unfold is_user.
  induction (users d) as [|r l IH]; simpl; [reflexivity|].
  rewrite IH. unfold eq_s. rewrite Hg. reflexivity.
Qed.

(** The users table after two recounts in a row, over the same follow
    table: every row went through both. *)
Lemma recount_twice_rows (E : Engine) (d0 : Db) a b :
  let d1 := with_users
              (rewritten (eq_s Users.id a) (recounted d0 a) (users d0)) d0 in
  let d2 := with_users
              (rewritten (eq_s Users.id b) (recounted d1 b) (users d1)) d1 in
  Permutation (users d2)
              (map (fun r => recount d1 b (recount d0 a r)) (users d0)).
Proof.
  intros d1 d2. simpl.
  eapply perm_trans; [apply rewritten_perm|].
  rewrite recount_in_place.
  rewrite <- (map_map (recount d0 a) (recount d1 b)).
  apply Permutation_map. apply rewritten_perm.
Qed.

(** Two recounts in a row over the same follow table leave both users'
    rows equal to the live counts. *)
Lemma recount_twice_match (E : Engine) (d0 : Db) a b :
  let d1 := with_users
              (rewritten (eq_s Users.id a) (recounted d0 a) (users d0)) d0 in
  let d2 := with_users
              (rewritten (eq_s Users.id b) (recounted d1 b) (users d1)) d1 in
  stats_match d2 a /\ stats_match d2 b.
Proof.
  intros d1 d2.
  assert (Hrows : forall r, In r (users d2) ->
            exists r0, r = recount d1 b (recount d0 a r0)).
  { intros r Hr.
    apply (Permutation_in _ (recount_twice_rows E d0 a b)) in Hr.
    apply in_map_iff in Hr. destruct Hr as [r0 [<- _]].
    exists r0. reflexivity. }
  split; intros r Hr Hid; destruct (Hrows r Hr) as [r0 ->]; clear Hrows Hr;
    change (live_followers d2) with (live_followers d0);
    change (live_following d2) with (live_following d0);
    rewrite !recount_id in Hid;
    unfold recount at 1 3, eq_s; rewrite recount_id, Hid.
  - destruct (String.eqb a b) eqn:Hab.
    + apply String.eqb_eq in Hab. subst b. simpl. auto.
    + unfold recount, eq_s. rewrite Hid, String.eqb_refl. simpl. auto.
  - rewrite String.eqb_refl. simpl. auto.
Qed.

Lemma is_user_recount_twice (E : Engine) d0 a b u :
  let d1 := with_users
              (rewritten (eq_s Users.id a) (recounted d0 a) (users d0)) d0 in
  let d2 := with_users
              (rewritten (eq_s Users.id b) (recounted d1 b) (users d1)) d1 in
  is_user d2 u = is_user d0 u.
Proof.
  intros d1 d2. unfold is_user at 1.
  rewrite (existsb_Permutation _ (recount_twice_rows E d0 a b)).
  apply is_user_map. intros r. rewrite !recount_id. reflexivity.
Qed.

(** [followUser] on two existing users: the statements it runs. *)
Lemma followUser_run (E : Engine) a b d :
  is_user d a = true -> is_user d b = true ->
  let r := Follows.mk (nextUuid d) a b (Some (clock d)) in
  let d0 := with_follows (follows d ++ [r])
              (with_nextUuid (S (nextUuid d)) d) in
  let d1 := with_users
              (rewritten (eq_s Users.id a) (recounted d0 a) (users d0)) d0 in
  let d2 := with_users
              (rewritten (eq_s Users.id b) (recounted d1 b) (users d1)) d1 in
  followUser a b d = (Ok (Some r), d2).
Proof.
  intros Ha Hb. unfold is_user in Ha, Hb.
  unfold followUser, insert_follows, references.
  unfold bind at 1 2 3. simpl. rewrite Ha, Hb. simpl.
  unfold bind at 1. rewrite updateUserStats_run.
  unfold bind at 1. rewrite updateUserStats_run. reflexivity.
Qed.

(** A follow whose follower or followee is no user is rejected by the
    foreign key, and nothing is written. *)
Lemma followUser_unknown_user (E : Engine) a b d :
  is_user d a && is_user d b = false ->
  followUser a b d = (Fail ForeignKeyViolation, d).
Proof.
  unfold is_user, followUser, insert_follows, bind, references. simpl.
  destruct (existsb (eq_s Users.id a) (users d)); simpl.
  - intros ->. reflexivity.
  - reflexivity.
Qed.

Lemma unfollowUser_run (E : Engine) a b d :
  let c := and_ (eq_s Follows.followerId a) (eq_s Follows.followingId b) in
  let d0 := with_follows (filter (fun r => negb (c r)) (follows d)) d in
  let d1 := with_users
              (rewritten (eq_s Users.id a) (recounted d0 a) (users d0)) d0 in
  let d2 := with_users
              (rewritten (eq_s Users.id b) (recounted d1 b) (users d1)) d1 in
  unfollowUser a b d = (Ok tt, d2).
Proof.
  unfold unfollowUser, delete. unfold bind at 1. simpl.
  unfold bind at 1. rewrite updateUserStats_run.
  rewrite updateUserStats_run. reflexivity.
Qed.

(** C2: after [followUser a b] and after [unfollowUser a b], the stored
    followersCount and followingCount of both users equal the live counts of
    follow rows pointing at, respectively leaving, that user; the counters
    held before the call play no part. *)
Theorem follow_counters_recomputed :
  forall (E : Engine) (a b : string) (d : Db),
    is_user d a = true -> is_user d b = true ->
    (exists f d', followUser a b d = (Ok f, d') /\
       is_user d' a = true /\ is_user d' b = true /\
       stats_match d' a /\ stats_match d' b) /\
    (exists d', unfollowUser a b d = (Ok tt, d') /\
       is_user d' a = true /\ is_user d' b = true /\
       stats_match d' a /\ stats_match d' b).
Proof.
  intros E a b d Ha Hb. split.
  - eexists. eexists. split; [apply followUser_run; assumption|].
    rewrite !is_user_recount_twice.
    split; [exact Ha|]. split; [exact Hb|]. apply recount_twice_match.
  - eexists. split; [apply unfollowUser_run|].
    rewrite !is_user_recount_twice.
    split; [exact Ha|]. split; [exact Hb|]. apply recount_twice_match.
Qed.

Lemma follow_counters_recomputed_witness :
  (is_user shop "alice" = true /\ is_user shop "bob" = true) /\
  ((exists f d', @followUser scan_engine "alice" "bob" shop = (Ok f, d') /\
      is_user d' "alice" = true /\ is_user d' "bob" = true /\
      stats_match d' "alice" /\ stats_match d' "bob") /\
   (exists d', @unfollowUser scan_engine "alice" "bob" shop = (Ok tt, d') /\
      is_user d' "alice" = true /\ is_user d' "bob" = true /\
      stats_match d' "alice" /\ stats_match d' "bob")).
Proof.
  split.
  - split; reflexivity.
  - apply (@follow_counters_recomputed scan_engine "alice" "bob" shop);
      reflexivity.
Defined.

(** C8: for users [a] and [b], [isFollowingUser a b] answers true in the
    state left by [followUser a b] and false in the state left by
    [unfollowUser a b]. *)
Theorem isFollowingUser_after_follow_and_unfollow :
  forall (E : Engine) (a b : string) (d : Db),
    is_user d a = true -> is_user d b = true ->
    (exists f d', followUser a b d = (Ok f, d') /\
       isFollowingUser a b d' = (Ok true, d')) /\
    (exists d', unfollowUser a b d = (Ok tt, d') /\
       isFollowingUser a b d' = (Ok false, d')).
Proof.
  intros E a b d Ha Hb. split.
  - eexists. eexists. split; [apply followUser_run; assumption|].
    unfold isFollowingUser, select, bind, ret. simpl.
    rewrite filter_app. simpl. unfold and_ at 2, eq_s at 3 4. simpl.
    rewrite !String.eqb_refl. simpl.
    rewrite length_app. simpl.
    replace (0 <? _ + 1)%nat with true; [reflexivity|].
    symmetry. apply Nat.ltb_lt. lia.
  - eexists. split; [apply unfollowUser_run|].
    unfold isFollowingUser, select, bind, ret. simpl.
    rewrite filter_delete_none. reflexivity.
Qed.

Lemma isFollowingUser_after_follow_and_unfollow_witness :
  (is_user shop "alice" = true /\ is_user shop "bob" = true) /\
  ((exists f d', @followUser scan_engine "alice" "bob" shop = (Ok f, d') /\
      isFollowingUser "alice" "bob" d' = (Ok true, d')) /\
   (exists d', @unfollowUser scan_engine "alice" "bob" shop = (Ok tt, d') /\
      isFollowingUser "alice" "bob" d' = (Ok false, d'))).
Proof.
  split.
  - split; reflexivity.
  - apply (@isFollowingUser_after_follow_and_unfollow
             scan_engine "alice" "bob" shop); reflexivity.
Defined.

(** ** Likes and the products' like counter *)

Lemma getProduct_run p d :
  getProduct p d = (Ok (first (filter (eq_n Products.id p) (products d))), d).
Proof. reflexivity. Qed.

Lemma getProduct_first p d r :
  getProduct p d = (Ok (Some r), d) ->
  first (filter (eq_n Products.id p) (products d)) = Some r.
Proof. rewrite getProduct_run. intros H. injection H as H. exact H. Qed.

Lemma getProduct_is_product p d r :
  getProduct p d = (Ok (Some r), d) -> is_product d p = true.
Proof.
  unfold getProduct, select, bind, ret. intros H.
  injection H as H. eapply first_filter_existsb, H.
Qed.

(** With distinct keys, the rows of a key are one row. *)
Lemma filter_by_nat_key A (key : A -> nat) (l : list A) k r :
  NoDup (map key l) -> first (filter (eq_n key k) l) = Some r ->
  filter (eq_n key k) l = [r].
Proof.
  induction l as [|x l IH]; simpl; intros Hnd Hr; [discriminate|].
  inversion Hnd as [|? ? Hnotin Hnd']; subst.
  destruct (eq_n key k x) eqn:Hx.
  - simpl in Hr. injection Hr as ->. f_equal.
    apply filter_all_false. intros y Hy.
    unfold eq_n in *. apply Nat.eqb_eq in Hx. apply Nat.eqb_neq.
    intros E. apply Hnotin. rewrite Hx, <- E. apply in_map, Hy.
  - apply IH; assumption.
Qed.

Lemma bump_in_place p k l :
  in_place (eq_n Products.id p) (with_likes k) l = map (bump p k) l.
Proof. reflexivity. Qed.

Lemma bump_id p k r : Products.id (bump p k r) = Products.id r.
Proof. unfold bump. destruct (eq_n Products.id p r); reflexivity. Qed.

(** The counter update on a row whose new counter fits, and on one whose
    new counter does not. *)
Lemma add_likes_fits k r c :
  Products.likesCount r = Some c -> in_int4 (c + k) = true ->
  add_likes k r = Some (with_likes k r).
Proof.
  intros Hc Hfit. unfold add_likes, with_likes, sql_add, int4, plus.
  rewrite Hc. simpl. rewrite Hfit. reflexivity.
Qed.

Lemma add_likes_overflow k r c :
  Products.likesCount r = Some c -> in_int4 (c + k) = false ->
  add_likes k r = None.
Proof.
  intros Hc Hfit. unfold add_likes, sql_add, int4, plus.
  rewrite Hc. simpl. rewrite Hfit. reflexivity.
Qed.

(** The two statements of [likeProduct] on a stored user and the one row
    of a stored product, when the new counter fits. *)
Lemma likeProduct_run (E : Engine) u p d prod c :
  is_user d u = true -> product_keys_ok d ->
  first (filter (eq_n Products.id p) (products d)) = Some prod ->
  Products.likesCount prod = Some c -> in_int4 (c + 1) = true ->
  let r := ProductLikes.mk (nextUuid d) u p (Some (clock d)) in
  likeProduct u p d =
    (Ok (Some r),
     with_products
       (rewritten (eq_n Products.id p) (with_likes 1) (products d))
       (with_productLikes (productLikes d ++ [r])
          (with_nextUuid (S (nextUuid d)) d))).
Proof.
  intros Hu Hkeys Hfirst Hc Hfit r.
  pose proof (first_filter_existsb _ _ Hfirst) as Hp.
  pose proof (@filter_by_nat_key _ Products.id _ p _ Hkeys Hfirst) as Hone.
  unfold is_user in Hu.
  unfold likeProduct, insert_productLikes, references.
  unfold bind at 1 2 3. simpl. rewrite Hu, Hp. simpl.
  unfold bind at 1.
  rewrite (update_fits E productsT (add_likes 1) (with_likes 1)).
  - reflexivity.
  - simpl. intros x Hx Hid.
    assert (Hin : In x (filter (eq_n Products.id p) (products d)))
      by (apply filter_In; auto).
    rewrite Hone in Hin. destruct Hin as [<-|[]].
    exact (@add_likes_fits 1 prod c Hc Hfit).
Qed.

(** A like by a missing user or on a missing product is rejected by the
    foreign keys: no edge is written and the counter stays. *)
Lemma likeProduct_unknown (E : Engine) u p d :
  is_user d u && is_product d p = false ->
  likeProduct u p d = (Fail ForeignKeyViolation, d).
Proof.
  unfold is_user, is_product, likeProduct, insert_productLikes, bind,
    references. simpl.
  destruct (existsb (eq_s Users.id u) (users d)); simpl.
  - intros ->. reflexivity.
  - reflexivity.
Qed.

(** A like on a product whose counter is full: the edge is written, the
    counter update is rejected. *)
Lemma likeProduct_overflow (E : Engine) u p d prod c :
  is_user d u = true ->
  first (filter (eq_n Products.id p) (products d)) = Some prod ->
  Products.likesCount prod = Some c -> in_int4 (c + 1) = false ->
  let r := ProductLikes.mk (nextUuid d) u p (Some (clock d)) in
  likeProduct u p d =
    (Fail IntegerOutOfRange,
     with_productLikes (productLikes d ++ [r])
       (with_nextUuid (S (nextUuid d)) d)).
Proof.
  intros Hu Hfirst Hc Hfit r.
  pose proof (first_filter_existsb _ _ Hfirst) as Hp.
  destruct (first_filter_Some _ _ Hfirst) as [Hin Hid].
  unfold is_user in Hu.
  unfold likeProduct, insert_productLikes, references.
  unfold bind at 1 2 3. simpl. rewrite Hu, Hp. simpl.
  unfold bind at 1.
  rewrite (update_overflow E productsT (add_likes 1) _ _ prod);
    [reflexivity | exact Hin | exact Hid |].
  exact (@add_likes_overflow 1 prod c Hc Hfit).
Qed.

(** The two statements of [unlikeProduct], when the new counter fits. *)
Lemma unlikeProduct_run (E : Engine) u p d prod c :
  product_keys_ok d ->
  first (filter (eq_n Products.id p) (products d)) = Some prod ->
  Products.likesCount prod = Some c -> in_int4 (c - 1) = true ->
  let e := and_ (eq_s ProductLikes.userId u) (eq_n ProductLikes.productId p) in
  unlikeProduct u p d =
    (Ok tt,
     with_products
       (rewritten (eq_n Products.id p) (with_likes (-1)) (products d))
       (with_productLikes (filter (fun r => negb (e r)) (productLikes d)) d)).
Proof.
  intros Hkeys Hfirst Hc Hfit e.
  pose proof (@filter_by_nat_key _ Products.id _ p _ Hkeys Hfirst) as Hone.
  unfold unlikeProduct, delete. unfold bind at 1. simpl.
  unfold bind at 1.
  rewrite (update_fits E productsT (add_likes (-1)) (with_likes (-1))).
  - reflexivity.
  - simpl. intros x Hx Hid.
    assert (Hin : In x (filter (eq_n Products.id p) (products d)))
      by (apply filter_In; auto).
    rewrite Hone in Hin. destruct Hin as [<-|[]].
    exact (@add_likes_fits (-1) prod c Hc Hfit).
Qed.

(** An unlike on a product whose counter is at the bottom: the edges are
    deleted, the counter update is rejected. *)
Lemma unlikeProduct_overflow (E : Engine) u p d prod c :
  first (filter (eq_n Products.id p) (products d)) = Some prod ->
  Products.likesCount prod = Some c -> in_int4 (c - 1) = false ->
  let e := and_ (eq_s ProductLikes.userId u) (eq_n ProductLikes.productId p) in
  unlikeProduct u p d =
    (Fail IntegerOutOfRange,
     with_productLikes (filter (fun r => negb (e r)) (productLikes d)) d).
Proof.
  intros Hfirst Hc Hfit e.
  destruct (first_filter_Some _ _ Hfirst) as [Hin Hid].
  unfold unlikeProduct, delete. unfold bind at 1. simpl.
  unfold bind at 1.
  rewrite (update_overflow E productsT (add_likes (-1)) _ _ prod);
    [reflexivity | exact Hin | exact Hid |].
  exact (@add_likes_overflow (-1) prod c Hc Hfit).
Qed.

(** Reading product [p] back after its counter was moved by [k]. *)
Lemma first_product_rewritten (E : Engine) p k l r :
  first (filter (eq_n Products.id p) l) = Some r ->
  first (filter (eq_n Products.id p)
                (rewritten (eq_n Products.id p) (with_likes k) l))
  = Some (with_likes k r).
Proof.
  intros Hr. rewrite rewritten_filter_hit.
  - rewrite first_map, Hr. reflexivity.
  - auto.
  - intros x. reflexivity.
Qed.

Lemma with_likes_cancel r c :
  Products.likesCount r = Some c ->
  with_likes (-1) (with_likes 1 r) = r.
Proof.
  intros Hc. destruct r. unfold with_likes, plus. simpl in *. subst.
  simpl. replace (c + 1 + -1)%Z with c by lia. reflexivity.
Qed.

Lemma product_keys_rewritten (E : Engine) p k (d : Db) :
  product_keys_ok d ->
  NoDup (map Products.id
             (rewritten (eq_n Products.id p) (with_likes k) (products d))).
Proof.
  intros Hk. unfold product_keys_ok in Hk.
  eapply Permutation_NoDup; [|exact Hk].
  apply Permutation_sym.
  eapply perm_trans; [apply Permutation_map, rewritten_perm|].
  rewrite bump_in_place, map_map.
  erewrite map_ext; [apply Permutation_refl|].
  intros x. apply bump_id.
Qed.

(** C3, as the code has it: for a stored user [u] and the row of product
    [p], with product ids distinct and the like counter [c] of [p] a 32-bit
    integer below the largest one, [likeProduct u p] stores [c + 1] and
    [unlikeProduct u p] right after it stores [c] again: the row of [p] is
    as it was, and the products table holds the rows it held before, in an
    order the store chooses.  At the largest 32-bit integer the like writes
    its edge and is then rejected, the counter unchanged. *)
Theorem like_then_unlike_restores_counter :
  forall (E : Engine) (u : string) (p : nat) (d : Db)
         (prod : Products.row) (c : Z),
    is_user d u = true -> product_keys_ok d ->
    getProduct p d = (Ok (Some prod), d) ->
    Products.likesCount prod = Some c -> in_int4 c = true ->
    ((c < int4_max)%Z ->
     exists l d1 d2 liked,
       likeProduct u p d = (Ok l, d1) /\
       getProduct p d1 = (Ok (Some liked), d1) /\
       Products.likesCount liked = Some (c + 1)%Z /\
       unlikeProduct u p d1 = (Ok tt, d2) /\
       getProduct p d2 = (Ok (Some prod), d2) /\
       Permutation (products d2) (products d)) /\
    (c = int4_max ->
     exists d1 edge,
       likeProduct u p d = (Fail IntegerOutOfRange, d1) /\
       productLikes d1 = productLikes d ++ [edge] /\
       ProductLikes.userId edge = u /\ ProductLikes.productId edge = p /\
       products d1 = products d).
Proof.
  intros E u p d prod c Hu Hkeys Hget Hc Hin4.
  pose proof (getProduct_first Hget) as Hfirst.
  unfold in_int4 in Hin4. apply andb_prop in Hin4.
  destruct Hin4 as [Hlo Hhi]. apply Z.leb_le in Hlo, Hhi.
  split.
  - intros Hlt.
    assert (Hfit : in_int4 (c + 1) = true).
    { unfold in_int4. apply andb_true_intro.
      split; apply Z.leb_le; unfold int4_min, int4_max in *; lia. }
    assert (Hback : in_int4 (c + 1 - 1) = true).
    { replace (c + 1 - 1)%Z with c by lia. unfold in_int4.
      apply andb_true_intro. split; apply Z.leb_le; assumption. }
    pose proof (@likeProduct_run E u p d prod c Hu Hkeys Hfirst Hc Hfit) as Hlike.
    cbv zeta in Hlike.
    set (d1 := with_products _ _) in Hlike.
    assert (Hfirst1 : first (filter (eq_n Products.id p) (products d1))
                      = Some (with_likes 1 prod))
      by (apply first_product_rewritten; exact Hfirst).
    assert (Hc1 : Products.likesCount (with_likes 1 prod) = Some (c + 1)%Z)
      by (unfold with_likes, plus; simpl; rewrite Hc; reflexivity).
    assert (Hkeys1 : product_keys_ok d1)
      by (apply product_keys_rewritten; exact Hkeys).
    pose proof (@unlikeProduct_run E u p d1 _ _ Hkeys1 Hfirst1 Hc1 Hback)
      as Hunlike.
    cbv zeta in Hunlike.
    eexists. exists d1. eexists. exists (with_likes 1 prod).
    split; [exact Hlike|].
    split; [rewrite getProduct_run, Hfirst1; reflexivity|].
    split; [exact Hc1|].
    split; [exact Hunlike|]. split.
    + rewrite getProduct_run.
      replace (products (with_products
                 (rewritten (eq_n Products.id p) (with_likes (-1)) (products d1))
                 (with_productLikes
                    (filter (fun r => negb (and_ (eq_s ProductLikes.userId u)
                                (eq_n ProductLikes.productId p) r))
                       (productLikes d1)) d1)))
        with (rewritten (eq_n Products.id p) (with_likes (-1)) (products d1))
        by reflexivity.
      rewrite (@first_product_rewritten E p (-1) _ _ Hfirst1).
      rewrite (@with_likes_cancel prod c Hc). reflexivity.
    + simpl.
      eapply perm_trans; [apply rewritten_perm|].
      rewrite bump_in_place.
      eapply perm_trans; [apply Permutation_map, rewritten_perm|].
      rewrite bump_in_place, map_map.
      rewrite <- (map_id (products d)) at 2.
      erewrite map_ext_in; [apply Permutation_refl|].
      intros x Hx. unfold bump at 1. unfold eq_n. rewrite bump_id.
      unfold bump, eq_n.
      destruct (Products.id x =? p)%nat eqn:Hid; [|reflexivity].
      assert (Hxin : In x (filter (eq_n Products.id p) (products d)))
        by (apply filter_In; auto).
      rewrite (@filter_by_nat_key _ Products.id _ p _ Hkeys Hfirst) in Hxin.
      destruct Hxin as [<-|[]]. apply (@with_likes_cancel prod c Hc).
  - intros ->.
    assert (Hfit : in_int4 (int4_max + 1) = false) by reflexivity.
    pose proof (@likeProduct_overflow E u p d prod _ Hu Hfirst Hc Hfit) as Hlike.
    cbv zeta in Hlike.
    eexists. eexists. split; [exact Hlike|]. simpl.
    repeat split.
Qed.

Lemma like_then_unlike_restores_counter_witness :
  (is_user shop "bob" = true /\ product_keys_ok shop /\
   getProduct 1 shop = (Ok (Some lamp), shop) /\
   Products.likesCount lamp = Some 3%Z /\ in_int4 3 = true /\
   (3 < int4_max)%Z) /\
  exists l d1 d2 liked,
    @likeProduct scan_engine "bob" 1 shop = (Ok l, d1) /\
    getProduct 1 d1 = (Ok (Some liked), d1) /\
    Products.likesCount liked = Some (3 + 1)%Z /\
    @unlikeProduct scan_engine "bob" 1 d1 = (Ok tt, d2) /\
    getProduct 1 d2 = (Ok (Some lamp), d2) /\
    Permutation (products d2) (products shop).
Proof.
  assert (Hk : product_keys_ok shop).
  { unfold product_keys_ok. simpl.
    repeat constructor; simpl; intuition discriminate. }
  assert (Hlt : (3 < int4_max)%Z) by reflexivity.
  split.
  - repeat split; try reflexivity; exact Hk.
  - apply (proj1 (@like_then_unlike_restores_counter scan_engine "bob" 1
                    shop lamp 3 eq_refl Hk eq_refl eq_refl eq_refl) Hlt).
Defined.

(** The round trip has an end: at 2147483647 likes the like is rejected
    after its edge is written, and the counter stays where it was. *)
Lemma like_at_the_top_is_rejected :
  exists d1,
    getProduct 1 shop_at_bounds = (Ok (Some full_lamp), shop_at_bounds) /\
    Products.likesCount full_lamp = Some 2147483647%Z /\
    @likeProduct scan_engine "bob" 1 shop_at_bounds
    = (Fail IntegerOutOfRange, d1) /\
    productLikes d1 = [ProductLikes.mk 8 "bob" 1 (Some 100%Z)] /\
    getProduct 1 d1 = (Ok (Some full_lamp), d1).
Proof. eexists. repeat split; reflexivity. Qed.

Lemma isProductLiked_false u p d :
  isProductLiked u p d = (Ok false, d) ->
  filter (and_ (eq_s ProductLikes.userId u) (eq_n ProductLikes.productId p))
         (productLikes d) = [].
Proof.
  unfold isProductLiked, select, bind, ret. intros H. injection H as H.
  destruct (filter _ (productLikes d)); [reflexivity | discriminate].
Qed.

(** C10, as the code has it: [unlikeProduct u p] when [u] holds no like on
    [p], product ids being distinct and the counter [c] of [p] a 32-bit
    integer: the delete removes nothing; above the smallest 32-bit integer
    the counter is still lowered by one, from [c] to [c - 1], so that a
    counter that did not exceed the live number of like edges is afterwards
    strictly below it, and a counter at zero becomes negative
    ([unlike_makes_counter_negative]); at the smallest 32-bit integer the
    update is rejected and the counter stays. *)
Theorem unlike_without_like_still_decrements :
  forall (E : Engine) (u : string) (p : nat) (d : Db)
         (prod : Products.row) (c : Z),
    isProductLiked u p d = (Ok false, d) ->
    product_keys_ok d ->
    getProduct p d = (Ok (Some prod), d) ->
    Products.likesCount prod = Some c -> in_int4 c = true ->
    ((int4_min < c)%Z ->
     exists d' prod',
       unlikeProduct u p d = (Ok tt, d') /\
       productLikes d' = productLikes d /\
       getProduct p d' = (Ok (Some prod'), d') /\
       Products.likesCount prod' = Some (c - 1)%Z /\
       live_likes d' p = live_likes d p /\
       ((c <= live_likes d p)%Z -> (c - 1 < live_likes d' p)%Z)) /\
    (c = int4_min ->
     exists d',
       unlikeProduct u p d = (Fail IntegerOutOfRange, d') /\
       productLikes d' = productLikes d /\
       products d' = products d /\
       getProduct p d' = (Ok (Some prod), d')).
Proof.
  intros E u p d prod c Hno Hkeys Hget Hc Hin4.
  apply isProductLiked_false in Hno.
  pose proof (getProduct_first Hget) as Hfirst.
  unfold in_int4 in Hin4. apply andb_prop in Hin4.
  destruct Hin4 as [Hlo Hhi]. apply Z.leb_le in Hlo, Hhi.
  split.
  - intros Hgt.
    assert (Hfit : in_int4 (c - 1) = true).
    { unfold in_int4. apply andb_true_intro.
      split; apply Z.leb_le; unfold int4_min, int4_max in *; lia. }
    pose proof (@unlikeProduct_run E u p d prod c Hkeys Hfirst Hc Hfit)
      as Hrun.
    cbv zeta in Hrun. rewrite (filter_nothing_to_delete _ _ Hno) in Hrun.
    eexists. exists (with_likes (-1) prod).
    split; [exact Hrun|].
    split; [reflexivity|].
    split.
    { rewrite getProduct_run.
      replace (products (with_products
                 (rewritten (eq_n Products.id p) (with_likes (-1)) (products d))
                 (with_productLikes (productLikes d) d)))
        with (rewritten (eq_n Products.id p) (with_likes (-1)) (products d))
        by reflexivity.
      rewrite (@first_product_rewritten E p (-1) _ _ Hfirst). reflexivity. }
    split.
    { unfold with_likes, plus. simpl. rewrite Hc. reflexivity. }
    split; [reflexivity|].
    intros Hle.
    replace (live_likes (with_products
               (rewritten (eq_n Products.id p) (with_likes (-1)) (products d))
               (with_productLikes (productLikes d) d)) p)
      with (live_likes d p) by reflexivity.
    lia.
  - intros ->.
    assert (Hfit : in_int4 (int4_min - 1) = false) by reflexivity.
    pose proof (@unlikeProduct_overflow E u p d prod _ Hfirst Hc Hfit)
      as Hrun.
    cbv zeta in Hrun. rewrite (filter_nothing_to_delete _ _ Hno) in Hrun.
    eexists. split; [exact Hrun|].
    split; [reflexivity|]. split; [reflexivity|].
    rewrite getProduct_run. simpl. rewrite Hfirst. reflexivity.
Qed.

Lemma unlike_without_like_still_decrements_witness :
  (isProductLiked "bob" 6 shop = (Ok false, shop) /\
   product_keys_ok shop /\
   getProduct 6 shop = (Ok (Some mug), shop) /\
   Products.likesCount mug = Some 0%Z /\ in_int4 0 = true /\
   (int4_min < 0)%Z) /\
  exists d' prod',
    @unlikeProduct scan_engine "bob" 6 shop = (Ok tt, d') /\
    productLikes d' = productLikes shop /\
    getProduct 6 d' = (Ok (Some prod'), d') /\
    Products.likesCount prod' = Some (0 - 1)%Z /\
    live_likes d' 6 = live_likes shop 6 /\
    ((0 <= live_likes shop 6)%Z -> (0 - 1 < live_likes d' 6)%Z).
Proof.
  assert (Hk : product_keys_ok shop).
  { unfold product_keys_ok. simpl.
    repeat constructor; simpl; intuition discriminate. }
  assert (Hgt : (int4_min < 0)%Z) by reflexivity.
  split.
  - repeat split; try reflexivity; exact Hk.
  - apply (proj1 (@unlike_without_like_still_decrements scan_engine "bob" 6
                    shop mug 0 eq_refl Hk eq_refl eq_refl eq_refl) Hgt).
Defined.

(** The counter of a product nobody likes goes from 0 to -1. *)
Example unlike_makes_counter_negative :
  exists d' prod',
    @unlikeProduct scan_engine "bob" 6 shop = (Ok tt, d') /\
    live_likes d' 6 = 0%Z /\
    getProduct 6 d' = (Ok (Some prod'), d') /\
    Products.likesCount prod' = Some (-1)%Z.
Proof. eexists. eexists. repeat split; reflexivity. Qed.

(** At -2147483648 the unlike of a product the user does not like is
    rejected: nothing is decremented. *)
Lemma unlike_at_the_bottom_is_rejected :
  exists d',
    isProductLiked "bob" 6 shop_at_bounds = (Ok false, shop_at_bounds) /\
    getProduct 6 shop_at_bounds = (Ok (Some drained_mug), shop_at_bounds) /\
    Products.likesCount drained_mug = Some (-2147483648)%Z /\
    @unlikeProduct scan_engine "bob" 6 shop_at_bounds
    = (Fail IntegerOutOfRange, d') /\
    getProduct 6 d' = (Ok (Some drained_mug), d').
Proof. eexists. repeat split; reflexivity. Qed.

(** ** Orders *)

(** C9: for an existing order and any status string [s], whatever the
    order's current status, [updateOrderStatus id s] stores [s] as its status
    and returns the updated row; nothing is checked against the transition
    graph. *)
Theorem updateOrderStatus_accepts_any_status :
  forall (E : Engine) (id : nat) (s : string) (d : Db) (o : Orders.row),
    order_row id d = Some o ->
    exists d' o',
      updateOrderStatus id s d = (Ok (Some o'), d') /\
      o' = Orders.set_status (Some s) (Some (clock d)) o /\
      Orders.status o' = Some s /\
      order_row id d' = Some o' /\
      (forall r, In r (orders d') -> Orders.id r = id ->
                 Orders.status r = Some s).
Proof.
  intros E id s d o Ho. unfold order_row in *.
  set (g := Orders.set_status (Some s) (Some (clock d))).
  assert (Hrun : updateOrderStatus id s d
                 = (Ok (Some (g o)),
                    with_orders (rewritten (eq_n Orders.id id) g (orders d)) d)).
  { unfold updateOrderStatus, now. unfold bind at 1. unfold bind at 1.
    rewrite (update_fits E ordersT
               (fun o0 => Some (Orders.set_status (Some s) (Some (clock d)) o0))
               g) by reflexivity.
    unfold ret. simpl. rewrite first_map, Ho. reflexivity. }
  eexists. exists (g o).
  split; [exact Hrun|].
  split; [reflexivity|]. split; [reflexivity|].
  split.
  - replace (orders (with_orders
                       (rewritten (eq_n Orders.id id) g (orders d)) d))
      with (rewritten (eq_n Orders.id id) g (orders d)) by reflexivity.
    rewrite rewritten_filter_hit.
    + rewrite first_map, Ho. reflexivity.
    + auto.
    + intros x. reflexivity.
  - intros r Hr Hid.
    replace (orders (with_orders
                       (rewritten (eq_n Orders.id id) g (orders d)) d))
      with (rewritten (eq_n Orders.id id) g (orders d)) in Hr by reflexivity.
    apply rewritten_In in Hr. unfold in_place in Hr.
    apply in_map_iff in Hr. destruct Hr as [r0 [<- _]].
    destruct (eq_n Orders.id id r0) eqn:H0; [reflexivity|].
    unfold eq_n in H0. apply Nat.eqb_neq in H0. contradiction.
Qed.

(** A delivered order is put back to pending. *)
Lemma updateOrderStatus_accepts_any_status_witness :
  order_row 7 shop = Some order7 /\
  Orders.status order7 = Some "delivered"%string /\
  exists d' o',
    @updateOrderStatus scan_engine 7 "pending" shop = (Ok (Some o'), d') /\
    o' = Orders.set_status (Some "pending"%string) (Some (clock shop)) order7 /\
    Orders.status o' = Some "pending"%string /\
    order_row 7 d' = Some o' /\
    (forall r, In r (orders d') -> Orders.id r = 7 ->
               Orders.status r = Some "pending"%string).
Proof.
  split; [reflexivity|]. split; [reflexivity|].
  apply (@updateOrderStatus_accepts_any_status scan_engine 7 "pending" shop
           order7).
  reflexivity.
Defined.

(** ** Trending products and recommendations *)

Lemma desc_flip a b : desc b a = CompOpp (desc a b).
Proof.
  destruct a as [x|], b as [y|]; simpl; try reflexivity.
  apply Z.compare_antisym.
Qed.

Lemma desc_Eq a b : desc a b = Eq -> a = b.
Proof.
  destruct a as [x|], b as [y|]; simpl; try discriminate; try reflexivity.
  intros H. apply Z.compare_eq in H. congruence.
Qed.

Lemma desc_refl a : desc a a = Eq.
Proof. destruct a; simpl; [apply Z.compare_refl | reflexivity]. Qed.

Lemma desc_Lt_trans a b c : desc a b = Lt -> desc b c = Lt -> desc a c = Lt.
Proof.
  destruct a as [x|], b as [y|], c as [z|]; simpl; try discriminate; auto.
  rewrite !Z.compare_lt_iff. lia.
Qed.

Lemma may_precede_desc_total R (col : R -> option Z) x y :
  may_precede (by_desc col) x y = true \/ may_precede (by_desc col) y x = true.
Proof.
  unfold may_precede, by_desc. rewrite (desc_flip (col x) (col y)).
  destruct (desc (col x) (col y)); simpl; auto.
Qed.

Lemma may_precede_desc_trans R (col : R -> option Z) x y z :
  may_precede (by_desc col) x y = true ->
  may_precede (by_desc col) y z = true ->
  may_precede (by_desc col) x z = true.
Proof.
  unfold may_precede, by_desc.
  destruct (desc (col x) (col y)) eqn:Hxy; try discriminate;
    destruct (desc (col y) (col z)) eqn:Hyz; try discriminate; intros _ _.
  - apply desc_Eq in Hxy. rewrite Hxy, Hyz. reflexivity.
  - apply desc_Eq in Hxy. rewrite Hxy, Hyz. reflexivity.
  - apply desc_Eq in Hyz. rewrite <- Hyz, Hxy. reflexivity.
  - rewrite (desc_Lt_trans _ _ _ Hxy Hyz). reflexivity.
Qed.

Lemma ranks_before_total x y :
  may_precede trending_key x y = true \/ may_precede trending_key y x = true.
Proof.
  unfold may_precede, trending_key, then_by, by_desc.
  rewrite (desc_flip (Products.likesCount x) (Products.likesCount y)).
  rewrite (desc_flip (Products.viewsCount x) (Products.viewsCount y)).
  destruct (desc (Products.likesCount x) (Products.likesCount y)); simpl; auto.
  destruct (desc (Products.viewsCount x) (Products.viewsCount y)); simpl; auto.
Qed.

Lemma ranks_before_trans x y z :
  may_precede trending_key x y = true ->
  may_precede trending_key y z = true ->
  may_precede trending_key x z = true.
Proof.
  unfold may_precede, trending_key, then_by, by_desc.
  destruct (desc (Products.likesCount x) (Products.likesCount y)) eqn:Lxy;
    destruct (desc (Products.likesCount y) (Products.likesCount z)) eqn:Lyz;
    try discriminate.
  - apply desc_Eq in Lxy. apply desc_Eq in Lyz.
    rewrite Lxy, Lyz, desc_refl.
    intros H1 H2.
    exact (@may_precede_desc_trans _ Products.viewsCount x y z H1 H2).
  - apply desc_Eq in Lxy. rewrite Lxy, Lyz. reflexivity.
  - apply desc_Eq in Lyz. rewrite <- Lyz, Lxy. reflexivity.
  - rewrite (desc_Lt_trans _ _ _ Lxy Lyz). reflexivity.
Qed.

(** On rows whose counters are not NULL, [ranks_before] is the numeric order
    on (likes, views), larger first. *)
Lemma ranks_before_counts p q (a b x y : Z) :
  Products.likesCount p = Some a -> Products.viewsCount p = Some x ->
  Products.likesCount q = Some b -> Products.viewsCount q = Some y ->
  (ranks_before p q <-> (b < a)%Z \/ (a = b /\ (y <= x)%Z)).
Proof.
  intros Ha Hx Hb Hy.
  unfold ranks_before, may_precede, trending_key, then_by, by_desc.
  rewrite Ha, Hx, Hb, Hy. simpl.
  destruct (Z.compare_spec b a); destruct (Z.compare_spec y x);
    split; intros Hr; try reflexivity; try discriminate; try lia.
Qed.

Lemma select_order_by_run (E : Engine) R (t : Table R) c k d :
  select_order_by t c k d
  = (Ok (sort_rows (may_precede k) (filter c (rows t d))), d).
Proof. reflexivity. Qed.

Lemma sql_limit_run R (n : Z) (q : M (list R)) d l :
  (0 <= n <= int8_max)%Z -> q d = (Ok l, d) ->
  sql_limit n q d = (Ok (firstn (Z.to_nat n) l), d).
Proof.
  intros [Hn Hm] Hq. unfold sql_limit.
  destruct (n <? 0)%Z eqn:Hlt; [apply Z.ltb_lt in Hlt; lia|].
  destruct (int8_max <? n)%Z eqn:Hgt; [apply Z.ltb_lt in Hgt; lia|].
  unfold bind, ret. rewrite Hq. reflexivity.
Qed.

(** A negative limit writes no LIMIT clause. *)
Lemma sql_limit_negative R (n : Z) (q : M (list R)) :
  (n < 0)%Z -> sql_limit n q = q.
Proof.
  intros Hn. unfold sql_limit. apply Z.ltb_lt in Hn. rewrite Hn. reflexivity.
Qed.

Lemma sql_limit_too_large R (n : Z) (q : M (list R)) d :
  (int8_max < n)%Z -> sql_limit n q d = (Fail IntegerOutOfRange, d).
Proof.
  intros Hn. unfold sql_limit.
  destruct (n <? 0)%Z eqn:Hlt;
    [apply Z.ltb_lt in Hlt; unfold int8_max in Hn; lia|].
  apply Z.ltb_lt in Hn. rewrite Hn. reflexivity.
Qed.

Lemma trending_sorted (E : Engine) (d : Db) :
  StronglySorted ranks_before
    (sort_rows (may_precede trending_key)
       (filter (eq_b Products.isAvailable true) (products d))).
Proof.
  apply (@sort_rows_sorted E _ (may_precede trending_key)).
  - apply ranks_before_total.
  - apply ranks_before_trans.
Qed.

Lemma available_row (d : Db) p :
  In p (filter (eq_b Products.isAvailable true) (products d)) ->
  In p (products d) /\ Products.isAvailable p = Some true.
Proof.
  intros Hp. apply filter_In in Hp. destruct Hp as [Hin Hav].
  split; [exact Hin|].
  unfold eq_b, sql_eq_bool in Hav.
  destruct (Products.isAvailable p) as [[|]|]; try discriminate.
  reflexivity.
Qed.

(** C6, as the code has it: for a limit [n] from 0 to the largest 64-bit
    row count, [getTrendingProducts n] returns the smaller of [n] and the
    number of available products many rows, so at most [n], all of them
    available products of the store, each row ranking before all later ones
    by (likes descending, views descending), and before every available
    product that was cut off.  For a negative [n] the query carries no
    limit: every available product is returned, ranked the same way.  A
    larger [n] is rejected by the store.  Rows equal on both keys come in an
    order the store chooses, so two stores that both honour ORDER BY can
    return different lists for the same limit other than 0. *)
Theorem trending_products_limited_available_sorted :
  forall (E : Engine) (n : Z) (d : Db),
    ((0 <= n <= int8_max)%Z ->
     exists l,
       getTrendingProducts (Some n) d = (Ok l, d) /\
       List.length l
       = Nat.min (Z.to_nat n)
           (List.length
              (filter (eq_b Products.isAvailable true) (products d))) /\
       (Z.of_nat (List.length l) <= n)%Z /\
       Forall (fun p => In p (products d) /\
                        Products.isAvailable p = Some true) l /\
       StronglySorted ranks_before l /\
       exists rest,
         Permutation (l ++ rest)
           (filter (eq_b Products.isAvailable true) (products d)) /\
         forall p q, In p l -> In q rest -> ranks_before p q) /\
    ((n < 0)%Z ->
     exists l,
       getTrendingProducts (Some n) d = (Ok l, d) /\
       Permutation l
         (filter (eq_b Products.isAvailable true) (products d)) /\
       StronglySorted ranks_before l) /\
    ((int8_max < n)%Z ->
     exists e, getTrendingProducts (Some n) d = (Fail e, d)) /\
    (n <> 0%Z -> (n <= int8_max)%Z ->
     exists (E1 E2 : Engine) (d0 : Db) (p q : Products.row) l1 l2,
       ranks_before p q /\ ranks_before q p /\
       @getTrendingProducts E1 (Some n) d0 = (Ok l1, d0) /\
       @getTrendingProducts E2 (Some n) d0 = (Ok l2, d0) /\
       first l1 = Some p /\ first l2 = Some q /\ p <> q).
Proof.
  intros E n d. split; [|split; [|split]].
  - intros Hn. eexists. split.
    { unfold getTrendingProducts. simpl default_arg.
      apply sql_limit_run; [exact Hn | apply select_order_by_run]. }
    pose proof (trending_sorted E d) as Hsorted.
    split; [|split; [|split; [|split]]].
    + rewrite length_firstn.
      rewrite (Permutation_length (sort_rows_perm _ _)). reflexivity.
    + rewrite length_firstn. lia.
    + apply Forall_forall. intros p Hp. apply firstn_In_self in Hp.
      apply (Permutation_in _ (sort_rows_perm _ _)) in Hp.
      apply available_row, Hp.
    + apply firstn_StronglySorted. exact Hsorted.
    + eexists. split.
      * rewrite firstn_skipn. apply sort_rows_perm.
      * apply StronglySorted_app_cross. rewrite firstn_skipn. exact Hsorted.
  - intros Hn. eexists. split.
    { unfold getTrendingProducts. simpl default_arg.
      rewrite (sql_limit_negative _ Hn). apply select_order_by_run. }
    split; [apply sort_rows_perm | apply trending_sorted].
  - intros Hn. eexists. unfold getTrendingProducts. simpl default_arg.
    apply sql_limit_too_large, Hn.
  - intros Hn0 Hmax.
    exists scan_engine, backward_engine.
    exists (with_products [lamp; shoes] shop), lamp, shoes.
    destruct (Z.ltb_spec n 0) as [Hneg|Hpos].
    + exists [lamp; shoes], [shoes; lamp].
      split; [reflexivity|]. split; [reflexivity|].
      unfold getTrendingProducts. simpl default_arg.
      rewrite !(sql_limit_negative _ Hneg).
      repeat split; try reflexivity. discriminate.
    + exists (firstn (Z.to_nat n) [lamp; shoes]),
             (firstn (Z.to_nat n) [shoes; lamp]).
      split; [reflexivity|]. split; [reflexivity|].
      split; [apply sql_limit_run; [lia | reflexivity]|].
      split; [apply sql_limit_run; [lia | reflexivity]|].
      destruct (Z.to_nat n) as [|m] eqn:Hm; [lia|].
      repeat split; try reflexivity. discriminate.
Qed.

(** The two trending products of the sample store are tied at (3, 10). *)
Example getTrendingProducts_shop :
  @getTrendingProducts scan_engine (Some 2%Z) shop = (Ok [lamp; shoes], shop) /\
  @getTrendingProducts backward_engine (Some 2%Z) shop
  = (Ok [shoes; lamp], shop).
Proof. split; reflexivity. Qed.

(** With the limit -1, which the route passes on from [?limit=-1], the three
    available products of the sample store are returned: more than the
    limit. *)
Lemma getTrendingProducts_negative_limit_returns_all :
  exists l,
    @getTrendingProducts scan_engine (Some (-1)%Z) shop = (Ok l, shop) /\
    l = [lamp; shoes; mug] /\
    List.length l = 3 /\
    (-1 < Z.of_nat (List.length l))%Z.
Proof. eexists. repeat split; reflexivity. Qed.

(** C4: a user with no product-like row and no bookmark row gets from
    [getRecommendedProducts] exactly what [getTrendingProducts] returns for
    the same limit on the same state. *)
Theorem recommended_without_interactions_is_trending :
  forall (E : Engine) (userId : string) (n : option Z) (d : Db),
    filter (eq_s ProductLikes.userId userId) (productLikes d) = [] ->
    filter (eq_s ProductBookmarks.userId userId) (productBookmarks d) = [] ->
    getRecommendedProducts userId n d = getTrendingProducts n d.
Proof.
  intros E u n d Hl Hb.
  unfold getRecommendedProducts, select, bind. simpl.
  rewrite Hl, Hb. simpl. destruct n; reflexivity.
Qed.

Lemma recommended_without_interactions_is_trending_witness :
  (filter (eq_s ProductLikes.userId "bob") (productLikes shop) = [] /\
   filter (eq_s ProductBookmarks.userId "bob") (productBookmarks shop) = []) /\
  @getRecommendedProducts scan_engine "bob" (Some 3%Z) shop
    = @getTrendingProducts scan_engine (Some 3%Z) shop.
Proof.
  split; [split; reflexivity|].
  apply (@recommended_without_interactions_is_trending
           scan_engine "bob" (Some 3%Z) shop); reflexivity.
Defined.

(** ** Trending hashtags *)

Lemma count_loop_flat (ps : list Products.row) (acc : list (string * Z)) :
  fold_left
    (fun acc p =>
       match Products.hashtags p with
       | Some tags =>
           fold_left
             (fun m hashtag => map_set hashtag (get_or_0 hashtag m + 1)%Z m)
             tags acc
       | None => acc
       end) ps acc
  = fold_left count_step (flat_map tags_of ps) acc.
Proof.
  revert acc. induction ps as [|p ps IH]; intros acc; simpl; [reflexivity|].
  rewrite IH, fold_left_app. f_equal.
  unfold tags_of. destruct (Products.hashtags p); reflexivity.
Qed.

Lemma map_get_map_set k v m h :
  map_get h (map_set k v m) = if String.eqb k h then Some v else map_get h m.
Proof.
  induction m as [|[k' v'] m IH]; simpl.
  - reflexivity.
  - destruct (String.eqb k' k) eqn:Hk; simpl.
    + apply String.eqb_eq in Hk. subst k'.
      destruct (String.eqb k h); reflexivity.
    + rewrite IH. destruct (String.eqb k' h) eqn:Hh; [|reflexivity].
      apply String.eqb_eq in Hh. subst k'.
      rewrite String.eqb_sym, Hk. reflexivity.
Qed.

Lemma keys_map_set k v m h :
  In h (keys (map_set k v m)) <-> h = k \/ In h (keys m).
Proof.
  induction m as [|[k' v'] m IH]; simpl.
  - intuition.
  - destruct (String.eqb k' k) eqn:Hk; simpl.
    + apply String.eqb_eq in Hk. subst k'. intuition.
    + rewrite IH. intuition.
Qed.

Lemma keys_map_set_NoDup k v m :
  NoDup (keys m) -> NoDup (keys (map_set k v m)).
Proof.
  induction m as [|[k' v'] m IH]; simpl; intros Hnd.
  - constructor; [intros [] | constructor].
  - inversion Hnd as [|? ? Hnotin Hnd']; subst.
    destruct (String.eqb k' k) eqn:Hk; simpl.
    + apply String.eqb_eq in Hk. subst k'. constructor; assumption.
    + constructor; [|apply IH; exact Hnd'].
      intros Hin. apply keys_map_set in Hin. destruct Hin as [->|Hin].
      * rewrite String.eqb_refl in Hk. discriminate.
      * contradiction.
Qed.

Lemma map_get_entry h c m :
  NoDup (keys m) -> In (h, c) m -> map_get h m = Some c.
Proof.
  induction m as [|[k' v'] m IH]; simpl; intros Hnd Hin; [contradiction|].
  inversion Hnd as [|? ? Hnotin Hnd']; subst.
  destruct Hin as [Heq|Hin].
  - injection Heq as -> ->. rewrite String.eqb_refl. reflexivity.
  - destruct (String.eqb k' h) eqn:Hk.
    + apply String.eqb_eq in Hk. subst k'.
      exfalso. apply Hnotin. unfold keys.
      change h with (fst (h, c)). apply in_map, Hin.
    + apply IH; assumption.
Qed.

Lemma get_or_0_count_step m k h :
  get_or_0 h (count_step m k)
  = if String.eqb k h then (get_or_0 k m + 1)%Z else get_or_0 h m.
Proof.
  unfold get_or_0 at 1, count_step. rewrite map_get_map_set.
  destruct (String.eqb k h); reflexivity.
Qed.

(** What the counting loop leaves in the map. *)
Lemma count_loop_spec tags :
  forall m, NoDup (keys m) ->
    let m' := fold_left count_step tags m in
    NoDup (keys m') /\
    (forall h, In h (keys m') <-> In h (keys m) \/ In h tags) /\
    (forall h, get_or_0 h m'
               = (get_or_0 h m + Z.of_nat (count_occ string_dec tags h))%Z).
Proof.
  induction tags as [|t tags IH]; intros m Hnd; simpl.
  - split; [exact Hnd|]. split; [intuition | intros h; lia].
  - destruct (IH (count_step m t)) as [H1 [H2 H3]].
    { apply keys_map_set_NoDup, Hnd. }
    split; [exact H1|]. split.
    + intros h. rewrite H2. unfold count_step. rewrite keys_map_set.
      intuition.
    + intros h. rewrite H3, get_or_0_count_step.
      destruct (string_dec t h) as [->|Hne].
      * rewrite String.eqb_refl. lia.
      * apply String.eqb_neq in Hne. rewrite Hne. lia.
Qed.

Lemma getTrendingHashtags_run n d :
  getTrendingHashtags (Some n) d
  = (Ok (slice0 n (array_sort by_count_desc
                     (fold_left count_step (available_tags d) []))), d).
Proof.
  unfold getTrendingHashtags, select, bind, ret. simpl.
  rewrite count_loop_flat. reflexivity.
Qed.

Lemma NoDup_same_length (l1 l2 : list string) :
  NoDup l1 -> NoDup l2 -> (forall x, In x l1 <-> In x l2) ->
  List.length l1 = List.length l2.
Proof.
  intros H1 H2 H. apply Permutation_length, NoDup_Permutation; assumption.
Qed.


(** C7, as the code has it: [getTrendingHashtags n] cuts a list [full] that
    has one entry per distinct hashtag found on available products, each
    with the number of occurrences of that hashtag, ordered by count
    descending.  For a limit [n] that is not negative the result is the
    first [n] entries of [full], so it has [min n #distinct] entries.  A
    negative [n] is handed to [slice] as it is and drops the last [-n]
    entries of [full]: the result has [#distinct - (-n)] entries, or none.
    On the catalog with frequencies a:10, b:7, c:7, d:3 and limit 5 the
    result is a, then b and c, then d: four entries. *)
Theorem trending_hashtags_counted_sorted_truncated :
  forall (n : Z) (d : Db),
    (exists full,
       NoDup (map fst full) /\
       (forall h, In h (map fst full) <-> In h (available_tags d)) /\
       (forall h c, In (h, c) full ->
          c = Z.of_nat (count_occ string_dec (available_tags d) h)) /\
       StronglySorted (fun a b => (snd b <= snd a)%Z) full /\
       List.length full
       = List.length (nodup string_dec (available_tags d)) /\
       ((0 <= n)%Z ->
        getTrendingHashtags (Some n) d
        = (Ok (firstn (Z.to_nat n) full), d) /\
        List.length (firstn (Z.to_nat n) full)
        = Nat.min (Z.to_nat n)
            (List.length (nodup string_dec (available_tags d)))) /\
       ((n < 0)%Z ->
        getTrendingHashtags (Some n) d
        = (Ok (firstn (List.length full - Z.to_nat (- n)) full), d) /\
        List.length (firstn (List.length full - Z.to_nat (- n)) full)
        = List.length (nodup string_dec (available_tags d))
          - Z.to_nat (- n))) /\
    getTrendingHashtags (Some 5%Z) catalog
    = (Ok [("a", 10); ("b", 7); ("c", 7); ("d", 3)]%string%Z, catalog).
Proof.
  intros n d. split; [|reflexivity].
  set (m := fold_left count_step (available_tags d) []).
  destruct (@count_loop_spec (available_tags d) [] (NoDup_nil _))
    as [Hnd [Hkeys Hcnt]].
  fold m in Hnd, Hkeys, Hcnt.
  set (full := array_sort by_count_desc m).
  assert (Hperm : Permutation full m) by apply stable_sort_perm.
  assert (Hpk : Permutation (map fst full) (keys m))
    by (apply Permutation_map, Hperm).
  assert (HndF : NoDup (map fst full)).
  { eapply Permutation_NoDup; [apply Permutation_sym, Hpk | exact Hnd]. }
  assert (HkeysF : forall h, In h (map fst full) <-> In h (available_tags d)).
  { intros h. split; intros Hin.
    - apply (Permutation_in _ Hpk) in Hin. apply Hkeys in Hin.
      destruct Hin as [[]|Hin]. exact Hin.
    - apply (Permutation_in _ (Permutation_sym Hpk)).
      apply Hkeys. right. exact Hin. }
  assert (Hlen : List.length full
                 = List.length (nodup string_dec (available_tags d))).
  { rewrite (@NoDup_same_length (nodup string_dec (available_tags d))
               (map fst full)).
    - rewrite length_map. reflexivity.
    - apply NoDup_nodup.
    - exact HndF.
    - intros x. rewrite nodup_In, HkeysF. reflexivity. }
  exists full.
  split; [exact HndF|]. split; [exact HkeysF|].
  split; [|split; [|split; [exact Hlen|split]]].
  - intros h c Hin.
    apply (Permutation_in _ Hperm) in Hin.
    pose proof (@map_get_entry h c m Hnd Hin) as Hget.
    specialize (Hcnt h). unfold get_or_0 in Hcnt. rewrite Hget in Hcnt.
    simpl in Hcnt. exact Hcnt.
  - assert (Hs : StronglySorted
                   (fun a b => (by_count_desc a b <=? 0)%Z = true) full).
    { apply stable_sort_sorted.
      - intros x y. unfold by_count_desc. rewrite !Z.leb_le. lia.
      - intros x y z. unfold by_count_desc. rewrite !Z.leb_le. lia. }
    clear - Hs. induction Hs as [|x l Hs IH Hall]; constructor; [exact IH|].
    eapply Forall_impl; [|exact Hall].
    intros y Hy. unfold by_count_desc in Hy. apply Z.leb_le in Hy. lia.
  - intros Hn. split.
    + rewrite getTrendingHashtags_run. unfold slice0.
      destruct (n <? 0)%Z eqn:Hlt; [apply Z.ltb_lt in Hlt; lia|].
      reflexivity.
    + rewrite length_firstn, Hlen. reflexivity.
  - intros Hn. split.
    + rewrite getTrendingHashtags_run. unfold slice0. fold m. fold full.
      apply Z.ltb_lt in Hn. rewrite Hn. apply Z.ltb_lt in Hn.
      replace (Z.to_nat (Z.max (Z.of_nat (List.length full) + n) 0))
        with (List.length full - Z.to_nat (- n)) by lia.
      reflexivity.
    + rewrite length_firstn, Hlen. lia.
Qed.

(** With the limit -1, which the route passes on from [?limit=-1], the
    catalog's four hashtags give three entries: not the minimum of the limit
    and the number of distinct hashtags. *)
Lemma getTrendingHashtags_negative_limit :
  exists l,
    getTrendingHashtags (Some (-1)%Z) catalog = (Ok l, catalog) /\
    l = [("a", 10); ("b", 7); ("c", 7)]%string%Z /\
    List.length (nodup string_dec (available_tags catalog)) = 4 /\
    Z.of_nat (List.length l) = 3%Z /\
    Z.min (-1) 4 = (-1)%Z.
Proof. eexists. repeat split; reflexivity. Qed.

(** ** The cart *)

Lemma filter_by_key (l : list CartItems.row) r :
  NoDup (map CartItems.id l) -> In r l ->
  filter (eq_n CartItems.id (CartItems.id r)) l = [r].
Proof.
  induction l as [|x l IH]; simpl; intros Hnd Hin; [contradiction|].
  inversion Hnd as [|? ? Hnotin Hnd']; subst.
  assert (Hrest : forall y, In y l -> CartItems.id y = CartItems.id x ->
                            False).
  { intros y Hy E. apply Hnotin. rewrite <- E. apply in_map, Hy. }
  destruct Hin as [->|Hin].
  - unfold eq_n at 1. rewrite Nat.eqb_refl. f_equal.
    clear - Hrest. induction l as [|y l IH]; simpl; [reflexivity|].
    destruct (eq_n CartItems.id (CartItems.id r) y) eqn:Hy.
    + unfold eq_n in Hy. apply Nat.eqb_eq in Hy.
      exfalso. apply (Hrest y); [left; reflexivity | exact Hy].
    + apply IH. intros z Hz. apply Hrest. right. exact Hz.
  - destruct (eq_n CartItems.id (CartItems.id r) x) eqn:Hx.
    + unfold eq_n in Hx. apply Nat.eqb_eq in Hx.
      exfalso. apply (Hrest r Hin). symmetry. exact Hx.
    + apply IH; assumption.
Qed.

(** The amount added to an existing row: [cartItem.quantity || 1]. *)
Lemma js_or_amount :
  (forall n, n <> 0%Z -> js_or (Val n) 1 = n) /\
  js_or (Val 0%Z) 1 = 1%Z /\ js_or Undefined 1 = 1%Z /\ js_or Null 1 = 1%Z.
Proof.
  repeat split. intros n Hn. unfold js_or.
  destruct (Z.eqb_spec n 0); [contradiction | reflexivity].
Qed.

(** The rows of a pair after an UPDATE that keeps every row's pair. *)
Lemma cart_rows_rewritten (E : Engine) c (g : CartItems.row -> CartItems.row)
    l u p :
  (forall x, CartItems.userId (g x) = CartItems.userId x /\
             CartItems.productId (g x) = CartItems.productId x) ->
  Permutation
    (filter (and_ (eq_s CartItems.userId u) (eq_n CartItems.productId p))
            (rewritten c g l))
    (map (fun r => if c r then g r else r)
       (filter (and_ (eq_s CartItems.userId u) (eq_n CartItems.productId p))
               l)).
Proof.
  intros Hg.
  eapply perm_trans; [apply Permutation_filter_same, rewritten_perm|].
  unfold in_place. rewrite filter_map_comm; [apply Permutation_refl|].
  intros x. unfold and_, eq_s, eq_n.
  destruct (c x); [|reflexivity].
  destruct (Hg x) as [-> ->]. reflexivity.
Qed.

Lemma merged_pair e q t x :
  CartItems.userId (merged e q t x) = CartItems.userId x /\
  CartItems.productId (merged e q t x) = CartItems.productId x.
Proof. split; reflexivity. Qed.

(** The two branches of [addToCart], on any store. *)
Lemma addToCart_run (E : Engine) item d :
  let u := InsertCartItem.userId item in
  let p := InsertCartItem.productId item in
  let q := InsertCartItem.quantity item in
  match cart_rows d u p with
  | existingItem :: _ =>
      if in_int4 (merged_quantity existingItem q)
      then
        addToCart item d
        = (Ok (first (map (merged existingItem q (clock d))
                          (filter (eq_n CartItems.id
                                        (CartItems.id existingItem))
                                  (cartItems d)))),
           with_cartItems
             (rewritten (eq_n CartItems.id (CartItems.id existingItem))
                        (merged existingItem q (clock d)) (cartItems d)) d)
      else addToCart item d = (Fail IntegerOutOfRange, d)
  | [] =>
      if fits (column_value (Some 1%Z) q)
      then
        if is_user d u && is_product d p
        then
          let r := CartItems.mk (nextUuid d) u p (column_value (Some 1%Z) q)
                     (Some (clock d)) (Some (clock d)) in
          addToCart item d
          = (Ok (Some r),
             with_cartItems (cartItems d ++ [r])
               (with_nextUuid (S (nextUuid d)) d))
        else addToCart item d = (Fail ForeignKeyViolation, d)
      else addToCart item d = (Fail IntegerOutOfRange, d)
  end.
Proof.
  cbv zeta. unfold cart_rows.
  remember (addToCart item d) as out eqn:Hout.
  unfold addToCart, select in Hout. unfold bind at 1 in Hout.
  cbn [rows cartItemsT] in Hout. revert Hout.
  destruct (filter _ (cartItems d)) as [|e rest]; intros Hout.
  - change (first (@nil CartItems.row)) with (@None CartItems.row) in Hout.
    cbv beta iota in Hout. unfold bind at 1 in Hout.
    unfold insert_cartItems, int4_param in Hout. unfold fits.
    destruct (int4 (column_value (Some 1%Z) (InsertCartItem.quantity item)))
      as [v|] eqn:Hfit.
    + assert (Hv : v = column_value (Some 1%Z) (InsertCartItem.quantity item)).
      { unfold int4 in Hfit.
        destruct (column_value (Some 1%Z) (InsertCartItem.quantity item))
          as [z|]; [|congruence].
        destruct (in_int4 z); congruence. }
      subst v.
      unfold is_user, is_product.
      unfold references, bind, ret, throw in Hout. simpl in Hout.
      destruct (existsb (eq_s Users.id _) (users d)); simpl in *;
        [|exact Hout].
      destruct (existsb (eq_n Products.id _) (products d)); exact Hout.
    + exact Hout.
  - change (first (e :: rest)) with (Some e) in Hout.
    cbv beta iota in Hout.
    unfold now, int4_param, int4 in Hout.
    fold (merged_quantity e (InsertCartItem.quantity item)) in Hout.
    destruct (in_int4 (merged_quantity e (InsertCartItem.quantity item)))
      eqn:Hfit.
    + unfold bind at 1 in Hout. unfold bind at 1 in Hout.
      unfold ret at 1 in Hout. unfold bind at 1 in Hout.
      rewrite (update_fits E cartItemsT _
                 (merged e (InsertCartItem.quantity item) (clock d)))
        in Hout by reflexivity.
      exact Hout.
    + exact Hout.
Qed.

(** The merge branch of [addToCart]. *)
Lemma addToCart_merges (E : Engine) u p q d r :
  NoDup (map CartItems.id (cartItems d)) ->
  cart_rows d u p = [r] ->
  in_int4 (merged_quantity r q) = true ->
  let r' := merged r q (clock d) r in
  exists d',
    addToCart (InsertCartItem.mk u p q) d = (Ok (Some r'), d') /\
    cart_rows d' u p = [r'] /\
    List.length (cartItems d') = List.length (cartItems d).
Proof.
  intros Hnd Hrows Hfit r'.
  pose proof (addToCart_run E (InsertCartItem.mk u p q) d) as Hrun.
  simpl in Hrun. rewrite Hrows, Hfit in Hrun.
  unfold cart_rows in Hrows.
  destruct (@filter_In_first _ _ _ _ _ Hrows) as [Hin _].
  rewrite (@filter_by_key _ r Hnd Hin) in Hrun. simpl in Hrun.
  eexists. split; [exact Hrun|].
  split; [|apply rewritten_length].
  unfold cart_rows.
  replace (cartItems (with_cartItems
             (rewritten (eq_n CartItems.id (CartItems.id r))
                        (merged r q (clock d)) (cartItems d)) d))
    with (rewritten (eq_n CartItems.id (CartItems.id r))
                    (merged r q (clock d)) (cartItems d)) by reflexivity.
  pose proof (@cart_rows_rewritten E (eq_n CartItems.id (CartItems.id r))
                (merged r q (clock d)) (cartItems d) u p
                (merged_pair r q (clock d))) as Hperm.
  rewrite Hrows in Hperm. cbn [map] in Hperm.
  replace (eq_n CartItems.id (CartItems.id r) r) with true in Hperm
    by (unfold eq_n; symmetry; apply Nat.eqb_refl).
  apply Permutation_sym, Permutation_length_1_inv in Hperm. exact Hperm.
Qed.

(** The merge branch when the sum does not fit the column. *)
Lemma addToCart_overflow (E : Engine) u p q d r rest :
  cart_rows d u p = r :: rest ->
  in_int4 (merged_quantity r q) = false ->
  addToCart (InsertCartItem.mk u p q) d = (Fail IntegerOutOfRange, d).
Proof.
  intros Hrows Hfit.
  pose proof (addToCart_run E (InsertCartItem.mk u p q) d) as Hrun.
  simpl in Hrun. rewrite Hrows, Hfit in Hrun. exact Hrun.
Qed.

(** The insert branch of [addToCart]. *)
Lemma addToCart_inserts (E : Engine) u p q d :
  is_user d u = true -> is_product d p = true ->
  cart_rows d u p = [] ->
  fits (column_value (Some 1%Z) q) = true ->
  let r' := CartItems.mk (nextUuid d) u p (column_value (Some 1%Z) q)
              (Some (clock d)) (Some (clock d)) in
  exists d',
    addToCart (InsertCartItem.mk u p q) d = (Ok (Some r'), d') /\
    cartItems d' = cartItems d ++ [r'] /\
    cart_rows d' u p = [r'] /\
    nextUuid d' = S (nextUuid d).
Proof.
  intros Hu Hp Hrows Hfit r'.
  pose proof (addToCart_run E (InsertCartItem.mk u p q) d) as Hrun.
  simpl in Hrun. rewrite Hrows, Hfit, Hu, Hp in Hrun. simpl in Hrun.
  eexists. split; [exact Hrun|].
  simpl. split; [reflexivity|]. split; [|reflexivity].
  unfold cart_rows in *. simpl. rewrite filter_app, Hrows. simpl.
  unfold and_, eq_s, eq_n. simpl.
  rewrite String.eqb_refl, Nat.eqb_refl. reflexivity.
Qed.

Lemma cart_ids_rewritten (E : Engine) c (g : CartItems.row -> CartItems.row)
    l :
  (forall x, CartItems.id (g x) = CartItems.id x) ->
  Permutation (map CartItems.id (rewritten c g l)) (map CartItems.id l).
Proof.
  intros Hg.
  eapply perm_trans; [apply Permutation_map, rewritten_perm|].
  unfold in_place. rewrite map_map.
  erewrite map_ext; [apply Permutation_refl|].
  intros x. simpl. destruct (c x); [apply Hg | reflexivity].
Qed.

Lemma cart_keys_rewritten (E : Engine) c (g : CartItems.row -> CartItems.row)
    d :
  (forall x, CartItems.id (g x) = CartItems.id x) ->
  cart_keys_ok d ->
  cart_keys_ok (with_cartItems (rewritten c g (cartItems d)) d).
Proof.
  intros Hg [Hnd Hlt]. split.
  - eapply Permutation_NoDup;
      [apply Permutation_sym, (cart_ids_rewritten E c g _ Hg) | exact Hnd].
  - apply Forall_forall. intros r Hr.
    assert (Hid : In (CartItems.id r) (map CartItems.id (cartItems d))).
    { eapply Permutation_in; [apply (cart_ids_rewritten E c g _ Hg)|].
      apply in_map. exact Hr. }
    apply in_map_iff in Hid. destruct Hid as [r0 [Heq Hr0]].
    pose proof (proj1 (Forall_forall _ _) Hlt r0 Hr0) as Hlt0.
    simpl in Hlt0. simpl. rewrite <- Heq. exact Hlt0.
Qed.

Lemma one_row_per_pair_rewritten (E : Engine) c
    (g : CartItems.row -> CartItems.row) d :
  (forall x, CartItems.userId (g x) = CartItems.userId x /\
             CartItems.productId (g x) = CartItems.productId x) ->
  one_row_per_pair d ->
  one_row_per_pair (with_cartItems (rewritten c g (cartItems d)) d).
Proof.
  intros Hg Hone u p. unfold cart_rows.
  replace (cartItems (with_cartItems (rewritten c g (cartItems d)) d))
    with (rewritten c g (cartItems d)) by reflexivity.
  rewrite (Permutation_length
             (@cart_rows_rewritten E c g (cartItems d) u p Hg)).
  rewrite length_map. apply Hone.
Qed.

(** [addToCart] keeps the key of the table intact. *)
Lemma addToCart_keeps_keys (E : Engine) item d out d' :
  cart_keys_ok d -> addToCart item d = (out, d') -> cart_keys_ok d'.
Proof.
  intros [Hnd Hlt] Hadd.
  pose proof (addToCart_run E item d) as Hrun. cbv zeta in Hrun.
  destruct (cart_rows d (InsertCartItem.userId item)
              (InsertCartItem.productId item)) as [|e rest].
  - destruct (fits _).
    + destruct (is_user d (InsertCartItem.userId item)
                && is_product d (InsertCartItem.productId item)).
      * simpl in Hrun. rewrite Hrun in Hadd. injection Hadd as _ <-.
        split; simpl.
        -- rewrite map_app. simpl. apply NoDup_app; [exact Hnd | | ].
           { repeat constructor. intros []. }
           { intros x Hx [<-|[]]. apply in_map_iff in Hx.
             destruct Hx as [r [E0 Hr]].
             pose proof (proj1 (Forall_forall _ _) Hlt r Hr) as Hr'.
             simpl in Hr'. lia. }
        -- apply Forall_app. split.
           { eapply Forall_impl; [|exact Hlt]. simpl. intros r Hr. lia. }
           { repeat constructor. }
      * rewrite Hrun in Hadd. injection Hadd as _ <-. split; assumption.
    + rewrite Hrun in Hadd. injection Hadd as _ <-. split; assumption.
  - destruct (in_int4 _).
    + rewrite Hrun in Hadd. injection Hadd as _ <-.
      apply cart_keys_rewritten; [reflexivity | split; assumption].
    + rewrite Hrun in Hadd. injection Hadd as _ <-. split; assumption.
Qed.

(** [addToCart] never creates a second row for a pair. *)
Lemma addToCart_keeps_one_row_per_pair (E : Engine) item d out d' :
  one_row_per_pair d -> addToCart item d = (out, d') -> one_row_per_pair d'.
Proof.
  intros Hone Hadd u p.
  pose proof (addToCart_run E item d) as Hrun. cbv zeta in Hrun.
  destruct (cart_rows d (InsertCartItem.userId item)
              (InsertCartItem.productId item)) as [|e rest] eqn:Hrows.
  - destruct (fits _).
    + destruct (is_user d (InsertCartItem.userId item)
                && is_product d (InsertCartItem.productId item)).
      * simpl in Hrun. rewrite Hrun in Hadd. injection Hadd as _ <-.
        unfold cart_rows. simpl. rewrite filter_app, length_app. simpl.
        destruct (and_ (eq_s CartItems.userId u) (eq_n CartItems.productId p)
                    _) eqn:Hmatch; simpl.
        -- unfold and_, eq_s, eq_n in Hmatch. simpl in Hmatch.
           apply andb_prop in Hmatch. destruct Hmatch as [Hu Hp].
           apply String.eqb_eq in Hu. apply Nat.eqb_eq in Hp.
           subst u p. unfold cart_rows in Hrows. rewrite Hrows. simpl. lia.
        -- specialize (Hone u p). unfold cart_rows in Hone. lia.
      * rewrite Hrun in Hadd. injection Hadd as _ <-. apply Hone.
    + rewrite Hrun in Hadd. injection Hadd as _ <-. apply Hone.
  - destruct (in_int4 _).
    + rewrite Hrun in Hadd. injection Hadd as _ <-.
      apply one_row_per_pair_rewritten; [apply merged_pair | exact Hone].
    + rewrite Hrun in Hadd. injection Hadd as _ <-. apply Hone.
Qed.

(** C1, as the code has it: with the cart table's key intact, for a user [u]
    and a product [p],
    - if the cart holds exactly one row for (u, p), with quantity [q0], and
      [q0 + (q || 1)] is a 32-bit integer, [addToCart] updates that row to
      [q0 + (q || 1)] (that is [q0 + q] for a non-zero number [q], and
      [q0 + 1] when [q] is 0 or missing), returns the updated row, adds no
      row and leaves exactly one row for (u, p); if the sum is not a 32-bit
      integer the store rejects the update and the cart stays as it was;
    - if the cart holds no row for (u, p), and the given quantity fits the
      column, it appends a single new row with the given quantity (1 when
      missing) and returns it; adding the pair again, the sum fitting the
      column, leaves one row that carries the sum, never two rows; a
      quantity that does not fit the column is rejected. *)
Theorem addToCart_merges_into_one_row :
  forall (E : Engine) (u : string) (p : nat) (q : Field Z) (d : Db),
    cart_keys_ok d ->
    is_user d u = true -> is_product d p = true ->
    let item q := (InsertCartItem.mk u p q) in
    (forall r q0,
       cart_rows d u p = [r] -> CartItems.quantity r = Some q0 ->
       (in_int4 (q0 + js_or q 1) = true ->
        exists d' r',
          addToCart (item q) d = (Ok (Some r'), d') /\
          r' = CartItems.set_quantity (Some (q0 + js_or q 1)%Z)
                 (Some (clock d)) r /\
          cart_rows d' u p = [r'] /\
          List.length (cartItems d') = List.length (cartItems d)) /\
       (in_int4 (q0 + js_or q 1) = false ->
        addToCart (item q) d = (Fail IntegerOutOfRange, d))) /\
    (cart_rows d u p = [] ->
       (fits (column_value (Some 1%Z) q) = true ->
        exists d1 r1,
          addToCart (item q) d = (Ok (Some r1), d1) /\
          cartItems d1 = cartItems d ++ [r1] /\
          cart_rows d1 u p = [r1] /\
          CartItems.quantity r1 = column_value (Some 1%Z) q /\
          forall q2,
            in_int4 (js_add (column_value (Some 1%Z) q) (js_or q2 1)) = true ->
            exists d2 r2,
              addToCart (item q2) d1 = (Ok (Some r2), d2) /\
              cart_rows d2 u p = [r2] /\
              CartItems.quantity r2
              = Some (js_add (column_value (Some 1%Z) q) (js_or q2 1)) /\
              List.length (cartItems d2) = S (List.length (cartItems d))) /\
       (fits (column_value (Some 1%Z) q) = false ->
        addToCart (item q) d = (Fail IntegerOutOfRange, d))) /\
    ((forall n, n <> 0%Z -> js_or (Val n) 1 = n) /\
     js_or (Val 0%Z) 1 = 1%Z /\ js_or Undefined 1 = 1%Z /\ js_or Null 1 = 1%Z).
Proof.
  intros E u p q d Hkeys Hu Hp item. split; [|split].
  - intros r q0 Hrows Hq. split.
    + intros Hfit.
      assert (Hfit' : in_int4 (merged_quantity r q) = true)
        by (unfold merged_quantity; rewrite Hq; exact Hfit).
      destruct (@addToCart_merges E u p q d r (proj1 Hkeys) Hrows Hfit')
        as [d' [H1 [H2 H3]]].
      unfold merged, merged_quantity in H1, H2.
      rewrite Hq in H1, H2. simpl in H1, H2.
      exists d'. eexists. split; [exact H1|]. split; [reflexivity|].
      split; assumption.
    + intros Hfit.
      apply (@addToCart_overflow E u p q d r [] Hrows).
      unfold merged_quantity. rewrite Hq. exact Hfit.
  - intros Hnone. split.
    + intros Hfit.
      destruct (@addToCart_inserts E u p q d Hu Hp Hnone Hfit)
        as [d1 [H1 [H2 [H3 H4]]]].
      exists d1. eexists. split; [exact H1|]. split; [exact H2|].
      split; [exact H3|]. split; [reflexivity|].
      intros q2 Hfit2.
      pose proof (addToCart_keeps_keys E _ Hkeys H1) as [Hnd1 _].
      destruct (@addToCart_merges E u p q2 d1 _ Hnd1 H3 Hfit2)
        as [d2 [G1 [G2 G3]]].
      exists d2. eexists. split; [exact G1|]. split; [exact G2|].
      split; [reflexivity|].
      rewrite G3, H2, length_app. simpl. lia.
    + intros Hfit.
      pose proof (addToCart_run E (InsertCartItem.mk u p q) d) as Hrun.
      simpl in Hrun. rewrite Hnone, Hfit in Hrun. exact Hrun.
  - apply js_or_amount.
Qed.

(** Alice's cart holds two pairs of shoes and gets three more. *)
Lemma addToCart_merges_into_one_row_witness :
  (cart_keys_ok shop /\ is_user shop "alice" = true /\
   is_product shop 2 = true /\
   cart_rows shop "alice" 2
   = [CartItems.mk 5 "alice" 2 (Some 2%Z) (Some 4%Z) (Some 4%Z)] /\
   in_int4 (2 + js_or (Val 3%Z) 1) = true) /\
  exists d' r',
    @addToCart scan_engine (InsertCartItem.mk "alice" 2 (Val 3%Z)) shop
    = (Ok (Some r'), d') /\
    r' = CartItems.set_quantity (Some (2 + js_or (Val 3%Z) 1)%Z)
           (Some (clock shop))
           (CartItems.mk 5 "alice" 2 (Some 2%Z) (Some 4%Z) (Some 4%Z)) /\
    cart_rows d' "alice" 2 = [r'] /\
    List.length (cartItems d') = List.length (cartItems shop).
Proof.
  assert (Hk : cart_keys_ok shop).
  { split; simpl.
    - repeat constructor. intros [].
    - repeat constructor. }
  split.
  - split; [exact Hk|]. repeat split; reflexivity.
  - apply (proj1 (proj1 (@addToCart_merges_into_one_row scan_engine
                    "alice" 2 (Val 3%Z) shop Hk eq_refl eq_refl)
                 (CartItems.mk 5 "alice" 2 (Some 2%Z) (Some 4%Z) (Some 4%Z))
                 2%Z eq_refl eq_refl) eq_refl).
Defined.

(** Bob's empty cart gets a lamp twice, two and then three: one row, five. *)
Example addToCart_twice_sums :
  exists d1 r1 d2 r2,
    @addToCart scan_engine (InsertCartItem.mk "bob" 1 (Val 2%Z)) shop
    = (Ok (Some r1), d1) /\
    @addToCart scan_engine (InsertCartItem.mk "bob" 1 (Val 3%Z)) d1
    = (Ok (Some r2), d2) /\
    cart_rows d2 "bob" 1 = [r2] /\
    CartItems.quantity r2 = Some 5%Z.
Proof. do 4 eexists. repeat split; reflexivity. Qed.

(** The claim as worded fails in three ways.  With quantity 0 the existing
    row goes from 2 to 3, not to 2 + 0.  When the table already holds two
    rows for the pair (nothing in the schema forbids it), only the first is
    updated and two rows remain.  And adding 2147483647 to a row that holds
    2 is rejected: the row keeps its 2. *)
Lemma addToCart_claim_counterexample :
  (exists d' r',
     cart_rows shop "alice" 2
     = [CartItems.mk 5 "alice" 2 (Some 2%Z) (Some 4%Z) (Some 4%Z)] /\
     @addToCart scan_engine (InsertCartItem.mk "alice" 2 (Val 0%Z)) shop
     = (Ok (Some r'), d') /\
     CartItems.quantity r' = Some 3%Z /\
     Some 3%Z <> Some (2 + 0)%Z) /\
  (let twice :=
     with_cartItems
       [CartItems.mk 5 "alice" 2 (Some 2%Z) (Some 4%Z) (Some 4%Z);
        CartItems.mk 3 "alice" 2 (Some 1%Z) (Some 4%Z) (Some 4%Z)] shop in
   exists d' r',
     @addToCart scan_engine (InsertCartItem.mk "alice" 2 (Val 3%Z)) twice
     = (Ok (Some r'), d') /\
     CartItems.quantity r' = Some 5%Z /\
     List.length (cart_rows d' "alice" 2) = 2) /\
  (@addToCart scan_engine
     (InsertCartItem.mk "alice" 2 (Val 2147483647%Z)) shop
   = (Fail IntegerOutOfRange, shop) /\
   cart_rows shop "alice" 2
   = [CartItems.mk 5 "alice" 2 (Some 2%Z) (Some 4%Z) (Some 4%Z)]).
Proof.
  split; [|split].
  - eexists. eexists. split; [reflexivity|]. split; [reflexivity|].
    split; [reflexivity | discriminate].
  - eexists. eexists. split; [reflexivity|]. split; reflexivity.
  - split; reflexivity.
Qed.

(** ** Search *)

Lemma list_ascii_app s t :
  list_ascii_of_string (s ++ t)%string
  = list_ascii_of_string s ++ list_ascii_of_string t.
Proof.
  induction s as [|c s IH]; simpl; [reflexivity | rewrite IH; reflexivity].
Qed.

Lemma contains_pattern_chars q :
  list_ascii_of_string (contains_pattern q)
  = percent :: list_ascii_of_string q ++ [percent].
Proof. unfold contains_pattern. simpl. rewrite list_ascii_app. reflexivity. Qed.

Lemma dangling_before_percent p :
  dangling (p ++ [percent]) = false /\
  forall c, dangling (c :: p ++ [percent]) = false.
Proof.
  induction p as [|a p [IH1 IH2]].
  - split; [reflexivity|]. intros c. simpl.
    destruct (Ascii.eqb c backslash); reflexivity.
  - split; [apply IH2|]. intros c. cbn [app].
    change (dangling (c :: a :: p ++ [percent]))
      with (if Ascii.eqb c backslash then dangling (p ++ [percent])
            else dangling (a :: p ++ [percent])).
    destruct (Ascii.eqb c backslash); [exact IH1 | apply IH2].
Qed.

(** The pattern built from a query never ends in a dangling escape, so the
    store never rejects it. *)
Lemma search_pattern_well_formed q :
  dangling (list_ascii_of_string (contains_pattern q)) = false.
Proof.
  rewrite contains_pattern_chars.
  apply (proj2 (dangling_before_percent (list_ascii_of_string q))).
Qed.

Lemma tokens_plain q rest :
  plain q = true -> tokens (q ++ rest) = map Lit q ++ tokens rest.
Proof.
  induction q as [|c q IH]; simpl; intros Hp; [reflexivity|].
  apply andb_prop in Hp. destruct Hp as [Hc Hq].
  apply negb_true_iff in Hc.
  apply orb_false_elim in Hc. destruct Hc as [Hc Hu].
  apply orb_false_elim in Hc. destruct Hc as [Hb Hpc].
  rewrite Hb, Hpc, Hu. rewrite (IH Hq). reflexivity.
Qed.

Lemma matches_AnyRun ts s :
  matches (AnyRun :: ts) s
  = matches ts s || match s with
                    | [] => false
                    | _ :: s' => matches (AnyRun :: ts) s'
                    end.
Proof. destruct s; reflexivity. Qed.

Lemma matches_trailing_run s : matches [AnyRun] s = true.
Proof.
  induction s as [|c s IH]; [reflexivity|].
  rewrite matches_AnyRun, IH. apply orb_true_r.
Qed.

Lemma matches_literal_prefix q s :
  matches (map Lit q ++ [AnyRun]) s = starts_with_ci q s.
Proof.
  revert s. induction q as [|c q IH]; intros s.
  - simpl map. simpl app. rewrite matches_trailing_run.
    destruct s; reflexivity.
  - destruct s as [|d s]; [reflexivity|].
    simpl. rewrite <- IH. reflexivity.
Qed.

Lemma matches_contains q s :
  matches (AnyRun :: map Lit q ++ [AnyRun]) s = contains_ci q s.
Proof.
  induction s as [|d s IH].
  - rewrite matches_AnyRun, matches_literal_prefix. reflexivity.
  - rewrite matches_AnyRun, matches_literal_prefix, IH. reflexivity.
Qed.

(** For a query without pattern characters, [ilike] with the built pattern
    is containment up to letter case. *)
Lemma ilike_plain_query R (col : R -> string) query r :
  plain (list_ascii_of_string query) = true ->
  ilike col (contains_pattern query) r = mentions query (col r).
Proof.
  intros Hp. unfold ilike, ilike_text, mentions.
  rewrite contains_pattern_chars.
  change (percent :: list_ascii_of_string query ++ [percent])
    with ([percent] ++ (list_ascii_of_string query ++ [percent])).
  change (tokens ([percent] ++ (list_ascii_of_string query ++ [percent])))
    with (AnyRun :: tokens (list_ascii_of_string query ++ [percent])).
  rewrite (@tokens_plain _ [percent] Hp). apply matches_contains.
Qed.

Lemma text_condition_plain query hashtags p :
  plain (list_ascii_of_string query) = true ->
  without_hashtags hashtags = true ->
  text_condition query p = search_contract query hashtags p.
Proof.
  intros Hp Hno. unfold text_condition, search_contract.
  unfold and_, or_, eq_b. rewrite !(@ilike_plain_query _ _ _ _ Hp).
  destruct hashtags as [[|h hs]|]; try discriminate;
    rewrite andb_true_r; reflexivity.
Qed.

Lemma searchProducts_without_hashtags (E : Engine) query hashtags :
  without_hashtags hashtags = true ->
  searchProducts query hashtags
  = select_order_by productsT (text_condition query)
      (by_desc Products.createdAt).
Proof.
  destruct hashtags as [[|h hs]|]; try discriminate; reflexivity.
Qed.

(** What [searchProducts] returns without hashtags, on any store: exactly
    the rows satisfying the WHERE clause it builds, newest first. *)
Lemma searchProducts_rows (E : Engine) query hashtags d :
  without_hashtags hashtags = true ->
  exists l,
    searchProducts query hashtags d = (Ok l, d) /\
    (forall p, In p l <->
               In p (products d) /\ text_condition query p = true) /\
    Permutation l (filter (text_condition query) (products d)) /\
    StronglySorted newer_first l.
Proof.
  intros Hno. rewrite (searchProducts_without_hashtags E query _ Hno).
  eexists. split; [|split; [|split]].
  - apply select_order_by_run.
  - intros p. rewrite <- filter_In. simpl.
    split; apply Permutation_in;
      [|apply Permutation_sym]; apply sort_rows_perm.
  - apply sort_rows_perm.
  - apply (@sort_rows_sorted E _ (may_precede (by_desc Products.createdAt))).
    + apply may_precede_desc_total.
    + apply may_precede_desc_trans.
Qed.

(** For a query without [%], [_] and backslash, and without hashtags, the
    search meets its contract: exactly the available products that mention
    the query, newest first. *)
Lemma searchProducts_plain_query (E : Engine) query hashtags d :
  plain (list_ascii_of_string query) = true ->
  without_hashtags hashtags = true ->
  exists l,
    searchProducts query hashtags d = (Ok l, d) /\
    (forall p, In p l <->
               In p (products d) /\ search_contract query hashtags p = true) /\
    StronglySorted newer_first l.
Proof.
  intros Hp Hno.
  destruct (searchProducts_rows E query hashtags d Hno)
    as [l [H1 [H2 [_ H3]]]].
  exists l. split; [exact H1|]. split; [|exact H3].
  intros p. rewrite H2, (@text_condition_plain _ hashtags p Hp Hno).
  reflexivity.
Qed.

(** When the one hashtag of a search happens to be the text of an array,
    the store searches for the elements of that array. *)
Lemma searchProducts_array_text (E : Engine) query d h xs :
  array_in h = Some xs ->
  searchProducts query (Some [h]) d
  = select_order_by productsT
      (and_ (text_condition query) (overlaps Products.hashtags xs))
      (by_desc Products.createdAt) d.
Proof.
  intros Hh. unfold searchProducts, array_operand. simpl.
  rewrite Hh. reflexivity.
Qed.

(** The pattern language at work: letter case is ignored, [_] stands for one
    character, [%] for a run, and a backslash makes the next one literal. *)
Example ilike_samples :
  ilike_text "Running SHOES" "%shoe%" = true /\
  ilike_text "Vintage Lamp" "%shoe%" = false /\
  ilike_text "Running SHOES" "%sh_e%" = true /\
  ilike_text "Running SHOES" "%sh\_e%" = false /\
  ilike_text "push_event" "%sh\_e%" = true /\
  ilike_text "Holds 30% more tea" "%30\%%" = true /\
  ilike_text "Holds 300 more tea" "%30%%" = true /\
  ilike_text "shoes" "shoe" = false.
Proof. repeat split; reflexivity. Qed.

(** The scenario of the search contract, "shoe" with hashtag "vintage", is
    rejected by the store, as is a search with two hashtags; the text of an
    array in the place of the hashtag is searched for its elements. *)
Example searchProducts_shoe_vintage_rejected :
  @searchProducts scan_engine "shoe" (Some ["vintage"%string]) shop
  = (Fail MalformedArrayLiteral, shop) /\
  @searchProducts scan_engine "shoe" (Some ["vintage"; "sport"]%string) shop
  = (Fail UndefinedOperator, shop) /\
  @searchProducts scan_engine "shoe" (Some ["{vintage}"%string]) shop
  = (Ok [shoes], shop).
Proof. repeat split; reflexivity. Qed.

(** C5 at the query ["_"]: the underscore is taken as the pattern character
    that stands for any one character, so every available product with a
    non-empty title or description is returned, although none of them
    mentions an underscore in its title or description. *)
Theorem searchProducts_underscore_matches_everything :
  @searchProducts scan_engine "_" None shop = (Ok [mug; shoes; lamp], shop) /\
  Forall (fun p => mentions "_" (Products.title p) = false /\
                   mentions "_" (Products.description p) = false /\
                   search_contract "_" None p = false)
         [mug; shoes; lamp].
Proof.
  split; [reflexivity|]. repeat constructor.
Qed.

(** * Further properties *)

(** ** The cart beyond [addToCart] *)

Lemma filter_filter_neg A (c k : A -> bool) l :
  (forall x, c x = true -> k x = false) ->
  filter c (filter k l) = [].
Proof.
  intros H. induction l as [|x l IH]; simpl; [reflexivity|].
  destruct (k x) eqn:Hk; simpl; [|exact IH].
  destruct (c x) eqn:Hc; [|exact IH].
  rewrite (H x Hc) in Hk. discriminate.
Qed.

Lemma filter_filter_keep A (c k : A -> bool) l :
  (forall x, c x = true -> k x = true) ->
  filter c (filter k l) = filter c l.
Proof.
  intros H. induction l as [|x l IH]; simpl; [reflexivity|].
  destruct (k x) eqn:Hk; simpl.
  - rewrite IH. reflexivity.
  - destruct (c x) eqn:Hc; [|exact IH].
    rewrite (H x Hc) in Hk. discriminate.
Qed.

(** X1: [clearCart u] empties the cart of [u] and leaves every row of every
    other user in place, in order. *)
Theorem clearCart_empties_only_that_cart :
  forall (u : string) (d : Db),
    exists d',
      clearCart u d = (Ok tt, d') /\
      (forall p, cart_rows d' u p = []) /\
      (forall v p, v <> u -> cart_rows d' v p = cart_rows d v p) /\
      filter (fun r => negb (eq_s CartItems.userId u r)) (cartItems d')
      = filter (fun r => negb (eq_s CartItems.userId u r)) (cartItems d).
Proof.
  intros u d. eexists. split; [reflexivity|]. simpl.
  split; [|split].
  - intros p. unfold cart_rows. simpl. apply filter_filter_neg.
    intros x Hx. unfold and_ in Hx. apply andb_prop in Hx.
    rewrite (proj1 Hx). reflexivity.
  - intros v p Hv. unfold cart_rows. simpl. apply filter_filter_keep.
    intros x Hx. unfold and_, eq_s in *. apply andb_prop in Hx.
    destruct Hx as [Hx _]. apply String.eqb_eq in Hx.
    apply negb_true_iff. apply String.eqb_neq. congruence.
  - apply filter_filter_keep. intros x Hx. exact Hx.
Qed.

Lemma filter_app_fresh (l : list CartItems.row) r :
  Forall (fun x => CartItems.id x < CartItems.id r) l ->
  filter (fun x => negb (eq_n CartItems.id (CartItems.id r) x)) (l ++ [r]) = l.
Proof.
  intros H. rewrite filter_app. simpl. unfold eq_n at 2.
  rewrite Nat.eqb_refl. simpl. rewrite app_nil_r.
  induction H as [|x l Hx Hl IH]; simpl; [reflexivity|].
  unfold eq_n at 1.
  destruct (Nat.eqb_spec (CartItems.id x) (CartItems.id r)) as [E|_];
    [lia|]. simpl. rewrite IH. reflexivity.
Qed.

(** X2: putting a product, in a quantity that the column holds, into a cart
    that has no row for it appends one row for the pair, with that quantity
    (1 when none is given), to the cart table and returns it; removing the
    returned row by its id gives back the cart table as it was. *)
Theorem addToCart_then_removeFromCart :
  forall (E : Engine) (u : string) (p : nat) (q : Field Z) (d : Db),
    cart_keys_ok d ->
    is_user d u = true -> is_product d p = true ->
    cart_rows d u p = [] ->
    fits (column_value (Some 1%Z) q) = true ->
    exists r d1 d2,
      addToCart (InsertCartItem.mk u p q) d = (Ok (Some r), d1) /\
      cartItems d1 = cartItems d ++ [r] /\
      cart_rows d1 u p = [r] /\
      CartItems.userId r = u /\ CartItems.productId r = p /\
      CartItems.quantity r = column_value (Some 1%Z) q /\
      removeFromCart (CartItems.id r) d1 = (Ok tt, d2) /\
      cartItems d2 = cartItems d /\
      users d2 = users d /\ products d2 = products d.
Proof.
  intros E u p q d [_ Hlt] Hu Hp Hnone Hfit.
  destruct (@addToCart_inserts E u p q d Hu Hp Hnone Hfit)
    as [d1 [Hrun [Hrows [Hpair Hnext]]]].
  pose proof (addToCart_run E (InsertCartItem.mk u p q) d) as Hrun'.
  simpl in Hrun'. rewrite Hnone, Hfit, Hu, Hp in Hrun'. simpl in Hrun'.
  rewrite Hrun' in Hrun. injection Hrun as <-.
  eexists. eexists. eexists.
  split; [exact Hrun'|].
  split; [reflexivity|]. split; [exact Hpair|].
  split; [reflexivity|]. split; [reflexivity|]. split; [reflexivity|].
  split; [reflexivity|]. simpl.
  split; [|split; reflexivity].
  apply (@filter_app_fresh (cartItems d)
           (CartItems.mk (nextUuid d) u p (column_value (Some 1%Z) q)
              (Some (clock d)) (Some (clock d)))).
  exact Hlt.
Qed.

Lemma addToCart_then_removeFromCart_witness :
  (cart_keys_ok shop /\ is_user shop "bob" = true /\
   is_product shop 1 = true /\ cart_rows shop "bob" 1 = [] /\
   fits (column_value (Some 1%Z) (Val 2%Z)) = true) /\
  exists r d1 d2,
    @addToCart scan_engine (InsertCartItem.mk "bob" 1 (Val 2%Z)) shop
    = (Ok (Some r), d1) /\
    cartItems d1 = cartItems shop ++ [r] /\
    cart_rows d1 "bob" 1 = [r] /\
    CartItems.userId r = "bob"%string /\ CartItems.productId r = 1 /\
    CartItems.quantity r = column_value (Some 1%Z) (Val 2%Z) /\
    removeFromCart (CartItems.id r) d1 = (Ok tt, d2) /\
    cartItems d2 = cartItems shop /\
    users d2 = users shop /\ products d2 = products shop.
Proof.
  assert (Hk : cart_keys_ok shop).
  { split; simpl; repeat constructor. intros []. }
  split.
  - split; [exact Hk|]. repeat split; reflexivity.
  - apply (@addToCart_then_removeFromCart scan_engine "bob" 1 (Val 2%Z) shop
             Hk); reflexivity.
Defined.

(** The two outcomes of [updateCartItem]. *)
Lemma updateCartItem_run (E : Engine) id q d :
  in_int4 q = true ->
  updateCartItem id q d
  = (Ok (first (map (CartItems.set_quantity (Some q) (Some (clock d)))
                    (filter (eq_n CartItems.id id) (cartItems d)))),
     with_cartItems
       (rewritten (eq_n CartItems.id id)
          (CartItems.set_quantity (Some q) (Some (clock d))) (cartItems d))
       d).
Proof.
  intros Hq. unfold updateCartItem, now, int4_param, int4. rewrite Hq.
  unfold bind at 1. unfold bind at 1. unfold ret at 1. unfold bind at 1.
  rewrite (update_fits E cartItemsT _
             (CartItems.set_quantity (Some q) (Some (clock d))))
    by reflexivity.
  reflexivity.
Qed.

Lemma updateCartItem_overflow (E : Engine) id q d :
  in_int4 q = false ->
  updateCartItem id q d = (Fail IntegerOutOfRange, d).
Proof.
  intros Hq. unfold updateCartItem, now, int4_param, int4. rewrite Hq.
  reflexivity.
Qed.

Lemma delete_keeps_keys (c : CartItems.row -> bool) d :
  cart_keys_ok d ->
  cart_keys_ok (with_cartItems (filter c (cartItems d)) d).
Proof.
  intros [Hnd Hlt]. split; simpl.
  - clear Hlt. induction (cartItems d) as [|x l IH]; simpl; [constructor|].
    inversion Hnd as [|? ? Hx Hl]; subst.
    destruct (c x); simpl; [|apply IH, Hl].
    constructor; [|apply IH, Hl].
    intros Hin. apply Hx. apply in_map_iff in Hin.
    destruct Hin as [y [E Hy]]. apply filter_In in Hy.
    rewrite <- E. apply in_map, Hy.
  - apply Forall_forall. intros x Hx. apply filter_In in Hx.
    apply (proj1 (Forall_forall _ _) Hlt). apply Hx.
Qed.

Lemma delete_keeps_one_row_per_pair (c : CartItems.row -> bool) d :
  one_row_per_pair d ->
  one_row_per_pair (with_cartItems (filter c (cartItems d)) d).
Proof.
  intros H u p. specialize (H u p). unfold cart_rows in *. simpl.
  assert (Hle : forall (k : CartItems.row -> bool) l,
            List.length (filter k (filter c l)) <= List.length (filter k l)).
  { intros k l. induction l as [|x l IH]; simpl; [lia|].
    destruct (c x); simpl; destruct (k x); simpl; lia. }
  specialize (Hle (and_ (eq_s CartItems.userId u)
                        (eq_n CartItems.productId p)) (cartItems d)).
  lia.
Qed.

Lemma cart_call_keeps (E : Engine) c d :
  cart_keys_ok d /\ one_row_per_pair d ->
  cart_keys_ok (cart_call c d) /\ one_row_per_pair (cart_call c d).
Proof.
  intros [Hk Ho]. destruct c as [item|id q|id|u]; simpl.
  - unfold after. destruct (addToCart item d) as [out d'] eqn:Hadd. simpl.
    split.
    + exact (addToCart_keeps_keys E _ Hk Hadd).
    + exact (addToCart_keeps_one_row_per_pair E _ Ho Hadd).
  - unfold after. destruct (in_int4 q) eqn:Hq.
    + rewrite (@updateCartItem_run E id q d Hq). simpl. split.
      * apply cart_keys_rewritten; [reflexivity | exact Hk].
      * apply one_row_per_pair_rewritten; [split; reflexivity | exact Ho].
    + rewrite (@updateCartItem_overflow E id q d Hq). simpl.
      split; assumption.
  - split; [apply (delete_keeps_keys _ Hk)
           | apply (delete_keeps_one_row_per_pair _ Ho)].
  - split; [apply (delete_keeps_keys _ Hk)
           | apply (delete_keeps_one_row_per_pair _ Ho)].
Qed.

(** X3: whatever sequence of cart calls a store with an intact cart key and
    at most one row per (user, product) receives, it still has an intact key
    and at most one row per pair afterwards: the facade never creates a
    duplicate cart row. *)
Theorem cart_calls_keep_one_row_per_pair :
  forall (E : Engine) (cs : list CartCall) (d : Db),
    cart_keys_ok d -> one_row_per_pair d ->
    cart_keys_ok (cart_calls cs d) /\ one_row_per_pair (cart_calls cs d).
Proof.
  intros E. induction cs as [|c cs IH]; intros d Hk Ho; simpl;
    [split; assumption|].
  destruct (cart_call_keeps E c (conj Hk Ho)) as [Hk' Ho'].
  apply IH; assumption.
Qed.

Lemma shop_one_row_per_pair : one_row_per_pair shop.
Proof.
  intros u p. unfold cart_rows. simpl.
  destruct (and_ _ _ _); simpl; lia.
Qed.

Lemma cart_calls_keep_one_row_per_pair_witness :
  (cart_keys_ok shop /\ one_row_per_pair shop) /\
  let calls :=
    [AddToCart (InsertCartItem.mk "bob" 1 (Val 2%Z));
     AddToCart (InsertCartItem.mk "bob" 1 Undefined);
     UpdateCartItem 5 0%Z;
     AddToCart (InsertCartItem.mk "alice" 2 (Val 0%Z));
     RemoveFromCart 8;
     ClearCart "alice"] in
  cart_keys_ok (@cart_calls scan_engine calls shop) /\
  one_row_per_pair (@cart_calls scan_engine calls shop).
Proof.
  assert (Hk : cart_keys_ok shop).
  { split; simpl; repeat constructor. intros []. }
  split; [split; [exact Hk | exact shop_one_row_per_pair]|].
  apply (@cart_calls_keep_one_row_per_pair scan_engine _ shop Hk
           shop_one_row_per_pair).
Defined.

(** X4: [updateCartItem id q] stores any 32-bit integer [q], zero and
    negative ones included, in every cart row with that id, and never
    removes or adds a row: the table holds the same ids as before, as many
    times.  What it returns, if anything, is a row with that id and
    quantity [q]; for an id that no row has it returns nothing and leaves
    the table as it is.  A [q] that is no 32-bit integer is rejected by the
    store, which is left as it was. *)
Theorem updateCartItem_never_removes :
  forall (E : Engine) (id : nat) (q : Z) (d : Db),
    (in_int4 q = true ->
     exists out d',
       updateCartItem id q d = (Ok out, d') /\
       List.length (cartItems d') = List.length (cartItems d) /\
       Permutation (map CartItems.id (cartItems d'))
                   (map CartItems.id (cartItems d)) /\
       (forall r, In r (cartItems d') -> CartItems.id r = id ->
                  CartItems.quantity r = Some q) /\
       (forall r, out = Some r ->
                  CartItems.id r = id /\ CartItems.quantity r = Some q) /\
       (filter (eq_n CartItems.id id) (cartItems d) = [] ->
        out = None /\ cartItems d' = cartItems d)) /\
    (in_int4 q = false ->
     updateCartItem id q d = (Fail IntegerOutOfRange, d)).
Proof.
  intros E id q d. split; [|apply updateCartItem_overflow].
  intros Hq. eexists. eexists.
  split; [apply (@updateCartItem_run E id q d Hq)|].
  replace (cartItems (with_cartItems
             (rewritten (eq_n CartItems.id id)
                (CartItems.set_quantity (Some q) (Some (clock d)))
                (cartItems d)) d))
    with (rewritten (eq_n CartItems.id id)
            (CartItems.set_quantity (Some q) (Some (clock d))) (cartItems d))
    by reflexivity.
  split; [apply rewritten_length|]. split; [|split; [|split]].
  - apply cart_ids_rewritten. reflexivity.
  - intros r Hr Hid. apply rewritten_In in Hr. unfold in_place in Hr.
    apply in_map_iff in Hr. destruct Hr as [r0 [<- _]].
    destruct (eq_n CartItems.id id r0) eqn:H0; [reflexivity|].
    unfold eq_n in H0. apply Nat.eqb_neq in H0. contradiction.
  - intros r Hr. rewrite first_map in Hr.
    destruct (first (filter (eq_n CartItems.id id) (cartItems d)))
      as [r0|] eqn:Hf; [|discriminate].
    injection Hr as <-. simpl. split; [|reflexivity].
    destruct (first_filter_Some _ _ Hf) as [_ Hx].
    unfold eq_n in Hx. apply Nat.eqb_eq in Hx. exact Hx.
  - intros Hnone. rewrite Hnone. split; [reflexivity|].
    apply rewritten_none, Hnone.
Qed.

(** A quantity of 2147483648 is not stored. *)
Example updateCartItem_rejects_large :
  @updateCartItem scan_engine 5 2147483648%Z shop
  = (Fail IntegerOutOfRange, shop) /\
  exists r d',
    @updateCartItem scan_engine 5 (-3)%Z shop = (Ok (Some r), d') /\
    CartItems.quantity r = Some (-3)%Z.
Proof. split; [reflexivity|]. eexists. eexists. split; reflexivity. Qed.


(** ** Joins on a key *)

Lemma left_join_single A B (on : A -> B -> bool) l r :
  (forall a, List.length (filter (on a) r) <= 1) ->
  left_join on l r = map (fun a => (a, first (filter (on a) r))) l.
Proof.
  intros H. unfold left_join.
  induction l as [|a l IH]; [reflexivity|].
  match goal with
  | |- flat_map ?f (a :: l) = _ =>
      change (flat_map f (a :: l)) with (f a ++ flat_map f l)
  end.
  rewrite IH. simpl. specialize (H a).
  destruct (filter (on a) r) as [|b [|b' m]]; simpl in *;
    [reflexivity | reflexivity | lia].
Qed.

Lemma user_key_single d :
  user_keys_ok d ->
  forall k, List.length (filter (fun u => String.eqb k (Users.id u))
                                (users d)) <= 1.
Proof.
  unfold user_keys_ok. intros Hnd k.
  induction (users d) as [|x l IH]; simpl; [lia|].
  inversion Hnd as [|? ? Hx Hl]; subst. specialize (IH Hl).
  destruct (String.eqb_spec k (Users.id x)) as [E|_]; simpl; [|lia].
  assert (Hnone : filter (fun u => String.eqb k (Users.id u)) l = []).
  { destruct (filter _ l) as [|y m] eqn:Hf; [reflexivity|].
    exfalso. apply Hx.
    destruct (@filter_In_first _ _ _ _ _ Hf) as [Hin Hy].
    apply String.eqb_eq in Hy. rewrite <- E, Hy. apply in_map, Hin. }
  rewrite Hnone. simpl. lia.
Qed.

Lemma product_key_single d :
  product_keys_ok d ->
  forall k, List.length (filter (fun p => Nat.eqb k (Products.id p))
                                (products d)) <= 1.
Proof.
  unfold product_keys_ok. intros Hnd k.
  induction (products d) as [|x l IH]; simpl; [lia|].
  inversion Hnd as [|? ? Hx Hl]; subst. specialize (IH Hl).
  destruct (Nat.eqb_spec k (Products.id x)) as [E|_]; simpl; [|lia].
  assert (Hnone : filter (fun p => Nat.eqb k (Products.id p)) l = []).
  { destruct (filter _ l) as [|y m] eqn:Hf; [reflexivity|].
    exfalso. apply Hx.
    destruct (@filter_In_first _ _ _ _ _ Hf) as [Hin Hy].
    apply Nat.eqb_eq in Hy. rewrite <- E, Hy. apply in_map, Hin. }
  rewrite Hnone. simpl. lia.
Qed.

Lemma user_of_join d k :
  first (filter (fun u => String.eqb k (Users.id u)) (users d)) = user_of d k.
Proof.
  unfold user_of. f_equal. apply filter_ext. intros u.
  unfold eq_s. apply String.eqb_sym.
Qed.

Lemma product_of_join d k :
  first (filter (fun p => Nat.eqb k (Products.id p)) (products d))
  = product_of d k.
Proof.
  unfold product_of. f_equal. apply filter_ext. intros p.
  unfold eq_n. apply Nat.eqb_sym.
Qed.

Lemma filter_map_pre A B (c : B -> bool) (g : A -> B) l :
  filter c (map g l) = map g (filter (fun a => c (g a)) l).
Proof.
  induction l as [|x l IH]; simpl; [reflexivity|].
  destruct (c (g x)); simpl; rewrite IH; reflexivity.
Qed.

(** The follower list, with the users' key intact: one entry per follow
    edge, each the follower's row. *)
Lemma getUserFollowers_run u d :
  user_keys_ok d ->
  getUserFollowers u d
  = (Ok (map (fun f => user_of d (Follows.followerId f))
             (filter (eq_s Follows.followingId u) (follows d))), d).
Proof.
  intros Hk. unfold getUserFollowers.
  rewrite left_join_single
    by (intros f; apply (user_key_single Hk)).
  rewrite filter_map_pre, map_map. simpl.
  f_equal. f_equal. apply map_ext. intros f. apply user_of_join.
Qed.

Lemma getUserFollowing_run u d :
  user_keys_ok d ->
  getUserFollowing u d
  = (Ok (map (fun f => user_of d (Follows.followingId f))
             (filter (eq_s Follows.followerId u) (follows d))), d).
Proof.
  intros Hk. unfold getUserFollowing.
  rewrite left_join_single
    by (intros f; apply (user_key_single Hk)).
  rewrite filter_map_pre, map_map. simpl.
  f_equal. f_equal. apply map_ext. intros f. apply user_of_join.
Qed.

Lemma recount_twice_keys (E : Engine) d0 a b :
  let d1 := with_users
              (rewritten (eq_s Users.id a) (recounted d0 a) (users d0)) d0 in
  let d2 := with_users
              (rewritten (eq_s Users.id b) (recounted d1 b) (users d1)) d1 in
  user_keys_ok d0 -> user_keys_ok d2.
Proof.
  intros d1 d2 Hk. unfold user_keys_ok in *.
  eapply Permutation_NoDup; [|exact Hk].
  apply Permutation_sym.
  eapply perm_trans;
    [apply Permutation_map, (recount_twice_rows E d0 a b)|].
  rewrite map_map. erewrite map_ext; [apply Permutation_refl|].
  intros r. simpl. rewrite !recount_id. reflexivity.
Qed.

(** X5: after [followUser a b] and after [unfollowUser a b] on existing
    users, the list [getUserFollowers b] is as long as the stored
    followersCount of [b] says, and [getUserFollowing a] as long as the
    followingCount of [a] says; after the follow the first list holds the
    row of [a] and the second the row of [b]. *)
Theorem follower_lists_match_counters :
  forall (E : Engine) (a b : string) (d : Db),
    user_keys_ok d ->
    is_user d a = true -> is_user d b = true ->
    (exists f d' followers following,
       followUser a b d = (Ok f, d') /\
       getUserFollowers b d' = (Ok followers, d') /\
       getUserFollowing a d' = (Ok following, d') /\
       (forall r, In r (users d') -> Users.id r = b ->
          Users.followersCount r = Some (Z.of_nat (List.length followers))) /\
       (forall r, In r (users d') -> Users.id r = a ->
          Users.followingCount r = Some (Z.of_nat (List.length following))) /\
       In (user_of d' a) followers /\ In (user_of d' b) following /\
       user_of d' a <> None /\ user_of d' b <> None) /\
    (exists d' followers following,
       unfollowUser a b d = (Ok tt, d') /\
       getUserFollowers b d' = (Ok followers, d') /\
       getUserFollowing a d' = (Ok following, d') /\
       (forall r, In r (users d') -> Users.id r = b ->
          Users.followersCount r = Some (Z.of_nat (List.length followers))) /\
       (forall r, In r (users d') -> Users.id r = a ->
          Users.followingCount r = Some (Z.of_nat (List.length following))) /\
       ~ In (user_of d' a) followers).
Proof.
  intros E a b d Hk Ha Hb.
  assert (Hsome : forall d0 u, is_user d0 u = true -> user_of d0 u <> None).
  { intros d0 u Hu. unfold user_of, is_user in *.
    apply existsb_exists in Hu. destruct Hu as [x [Hin Hx]].
    destruct (filter (eq_s Users.id u) (users d0)) as [|y l] eqn:Hf.
    - assert (Hin' : In x (filter (eq_s Users.id u) (users d0)))
        by (apply filter_In; split; assumption).
      rewrite Hf in Hin'. contradiction.
    - discriminate. }
  split.
  - pose proof (@followUser_run E a b d Ha Hb) as Hrun. cbv zeta in Hrun.
    match type of Hrun with _ = (_, ?s) => set (d' := s) in * end.
    assert (Hk' : user_keys_ok d').
    { apply (@recount_twice_keys E
               (with_follows _ (with_nextUuid (S (nextUuid d)) d)) a b).
      exact Hk. }
    destruct (recount_twice_match E
                (with_follows (follows d ++
                                 [Follows.mk (nextUuid d) a b (Some (clock d))])
                   (with_nextUuid (S (nextUuid d)) d)) a b) as [Hsa Hsb].
    fold d' in Hsa, Hsb.
    eexists. exists d'. eexists. eexists.
    split; [exact Hrun|].
    rewrite (getUserFollowers_run b Hk'), (getUserFollowing_run a Hk').
    split; [reflexivity|]. split; [reflexivity|].
    rewrite !length_map.
    split; [intros r Hr Hid; apply (Hsb r Hr Hid)|].
    split; [intros r Hr Hid; apply (Hsa r Hr Hid)|].
    assert (Hedge : In (Follows.mk (nextUuid d) a b (Some (clock d)))
                       (follows d')).
    { simpl. apply in_or_app. right. left. reflexivity. }
    split; [|split; [|split]].
    + apply in_map_iff.
      exists (Follows.mk (nextUuid d) a b (Some (clock d))).
      split; [reflexivity|]. apply filter_In. split; [exact Hedge|].
      unfold eq_s. simpl. apply String.eqb_refl.
    + apply in_map_iff.
      exists (Follows.mk (nextUuid d) a b (Some (clock d))).
      split; [reflexivity|]. apply filter_In. split; [exact Hedge|].
      unfold eq_s. simpl. apply String.eqb_refl.
    + apply Hsome. unfold d'. rewrite is_user_recount_twice. exact Ha.
    + apply Hsome. unfold d'. rewrite is_user_recount_twice. exact Hb.
  - pose proof (@unfollowUser_run E a b d) as Hrun. cbv zeta in Hrun.
    match type of Hrun with _ = (_, ?s) => set (d' := s) in * end.
    assert (Hk' : user_keys_ok d').
    { apply (@recount_twice_keys E (with_follows _ d) a b). exact Hk. }
    destruct (recount_twice_match E
                (with_follows
                   (filter (fun r => negb (and_ (eq_s Follows.followerId a)
                                             (eq_s Follows.followingId b) r))
                           (follows d)) d) a b) as [Hsa Hsb].
    fold d' in Hsa, Hsb.
    exists d'. eexists. eexists.
    split; [exact Hrun|].
    rewrite (getUserFollowers_run b Hk'), (getUserFollowing_run a Hk').
    split; [reflexivity|]. split; [reflexivity|].
    rewrite !length_map.
    split; [intros r Hr Hid; apply (Hsb r Hr Hid)|].
    split; [intros r Hr Hid; apply (Hsa r Hr Hid)|].
    intros Hin. apply in_map_iff in Hin. destruct Hin as [f [Hf Hin]].
    apply filter_In in Hin. destruct Hin as [Hin Hfb].
    simpl in Hin. apply filter_In in Hin. destruct Hin as [_ Hneg].
    assert (Hfa : Follows.followerId f = a).
    { assert (Hua : is_user d' a = true)
        by (unfold d'; rewrite is_user_recount_twice; exact Ha).
      pose proof (Hsome d' a Hua) as Hne.
      unfold user_of in Hf, Hne.
      destruct (filter (eq_s Users.id (Follows.followerId f)) (users d'))
        as [|x l] eqn:E1; [rewrite <- Hf in Hne; contradiction (Hne eq_refl)|].
      destruct (filter (eq_s Users.id a) (users d')) as [|y m] eqn:E2;
        [contradiction (Hne eq_refl)|].
      simpl in Hf. injection Hf as ->.
      destruct (@filter_In_first _ _ _ _ _ E1) as [_ H1].
      destruct (@filter_In_first _ _ _ _ _ E2) as [_ H2].
      unfold eq_s in H1, H2.
      apply String.eqb_eq in H1. apply String.eqb_eq in H2. congruence. }
    unfold and_, eq_s in Hneg, Hfb. rewrite Hfa, String.eqb_refl in Hneg.
    rewrite Hfb in Hneg. discriminate.
Qed.

Lemma follower_lists_match_counters_witness :
  (user_keys_ok shop /\
   is_user shop "alice" = true /\ is_user shop "bob" = true) /\
  exists f d' followers following,
    @followUser scan_engine "alice" "bob" shop = (Ok f, d') /\
    getUserFollowers "bob" d' = (Ok followers, d') /\
    getUserFollowing "alice" d' = (Ok following, d') /\
    (forall r, In r (users d') -> Users.id r = "bob"%string ->
       Users.followersCount r = Some (Z.of_nat (List.length followers))) /\
    (forall r, In r (users d') -> Users.id r = "alice"%string ->
       Users.followingCount r = Some (Z.of_nat (List.length following))) /\
    In (user_of d' "alice") followers /\ In (user_of d' "bob") following /\
    user_of d' "alice" <> None /\ user_of d' "bob" <> None.
Proof.
  assert (Hk : user_keys_ok shop).
  { unfold user_keys_ok. simpl. repeat constructor.
    - intros [H|[]]. discriminate.
    - intros []. }
  split; [split; [exact Hk | split; reflexivity]|].
  apply (proj1 (@follower_lists_match_counters scan_engine "alice" "bob" shop
                  Hk
                  eq_refl eq_refl)).
Defined.

(** ** Cart lines and bookmarks *)

Lemma filter_none A (l : list A) : filter (fun _ => false) l = [].
Proof. induction l; simpl; auto. Qed.

Lemma StronglySorted_map_rel A B (g : A -> B) (R : B -> B -> Prop) l :
  StronglySorted (fun a b => R (g a) (g b)) l -> StronglySorted R (map g l).
Proof.
  induction 1 as [|x l Hs IH Hall]; simpl; constructor; [exact IH|].
  apply Forall_map. exact Hall.
Qed.

Lemma cart_joins d :
  product_keys_ok d -> user_keys_ok d ->
  left_join
    (fun cp u =>
       on_some (fun p u => String.eqb (Products.userId p) (Users.id u))
               (snd cp) u)
    (left_join (fun c p => Nat.eqb (CartItems.productId c) (Products.id p))
               (cartItems d) (products d))
    (users d)
  = map (line_of d) (cartItems d).
Proof.
  intros Hp Hu.
  rewrite (@left_join_single _ _ _ (cartItems d) (products d))
    by (intros c; apply (product_key_single Hp)).
  rewrite left_join_single.
  - rewrite map_map. apply map_ext. intros c. unfold line_of. simpl.
    rewrite product_of_join.
    destruct (product_of d (CartItems.productId c)) as [p|]; simpl.
    + rewrite user_of_join. reflexivity.
    + rewrite filter_none. reflexivity.
  - intros [c [p|]]; simpl.
    + apply (user_key_single Hu).
    + rewrite filter_none. simpl. lia.
Qed.

(** X6: with the keys of [products] and [users] intact, [getCartItems u]
    returns one line per cart row of [u] and no other, newest first; each
    line carries the product its row names and that product's owner. *)
Theorem getCartItems_lines :
  forall (E : Engine) (u : string) (d : Db),
    product_keys_ok d -> user_keys_ok d ->
    exists lines,
      getCartItems u d = (Ok lines, d) /\
      Permutation (map cart_items lines)
                  (filter (eq_s CartItems.userId u) (cartItems d)) /\
      StronglySorted
        (fun a b => may_precede (by_desc CartItems.createdAt)
                      (cart_items a) (cart_items b) = true) lines /\
      Forall
        (fun line =>
           line_products line
           = product_of d (CartItems.productId (cart_items line)) /\
           line_users line
           = match line_products line with
             | Some p => user_of d (Products.userId p)
             | None => None
             end) lines.
Proof.
  intros E u d Hp Hu. eexists. split.
  { unfold getCartItems. rewrite (cart_joins Hp Hu). reflexivity. }
  rewrite filter_map_pre. simpl.
  set (mine := filter (fun a => eq_s CartItems.userId u a) (cartItems d)).
  set (key := may_precede
                (fun r1 r2 : CartItems.row * option Products.row
                             * option Users.row =>
                   desc (CartItems.createdAt (fst (fst r1)))
                        (CartItems.createdAt (fst (fst r2))))).
  pose proof (sort_rows_perm key (map (line_of d) mine)) as Hperm.
  split; [|split].
  - rewrite map_map. simpl.
    eapply perm_trans; [apply Permutation_map, Hperm|].
    rewrite map_map. simpl. rewrite map_id. apply Permutation_refl.
  - apply StronglySorted_map_rel. simpl.
    apply (@sort_rows_sorted E _ key).
    + intros x y.
      apply (@may_precede_desc_total _
               (fun r : CartItems.row * option Products.row
                        * option Users.row =>
                  CartItems.createdAt (fst (fst r)))).
    + intros x y z.
      apply (@may_precede_desc_trans _
               (fun r : CartItems.row * option Products.row
                        * option Users.row =>
                  CartItems.createdAt (fst (fst r)))).
  - apply Forall_map. apply Forall_forall. intros r Hr.
    apply (Permutation_in _ Hperm) in Hr. apply in_map_iff in Hr.
    destruct Hr as [c [<- _]]. simpl. split; reflexivity.
Qed.

Lemma getCartItems_lines_witness :
  (product_keys_ok shop /\ user_keys_ok shop) /\
  exists lines,
    @getCartItems scan_engine "alice" shop = (Ok lines, shop) /\
    Permutation (map cart_items lines)
                (filter (eq_s CartItems.userId "alice") (cartItems shop)) /\
    StronglySorted
      (fun a b => may_precede (by_desc CartItems.createdAt)
                    (cart_items a) (cart_items b) = true) lines /\
    Forall
      (fun line =>
         line_products line
         = product_of shop (CartItems.productId (cart_items line)) /\
         line_users line
         = match line_products line with
           | Some p => user_of shop (Products.userId p)
           | None => None
           end) lines.
Proof.
  assert (Hp : product_keys_ok shop).
  { unfold product_keys_ok. simpl. repeat constructor; simpl; intuition lia. }
  assert (Hu : user_keys_ok shop).
  { unfold user_keys_ok. simpl. repeat constructor.
    - intros [H|[]]. discriminate.
    - intros []. }
  split; [split; assumption|].
  apply (@getCartItems_lines scan_engine "alice" shop Hp Hu).
Defined.

(** The bookmark list, with the products' key intact. *)
Lemma getUserBookmarks_run (E : Engine) u d :
  product_keys_ok d ->
  getUserBookmarks u d
  = (Ok (map snd
           (sort_rows
              (may_precede
                 (fun r1 r2 : ProductBookmarks.row * option Products.row =>
                    desc (ProductBookmarks.createdAt (fst r1))
                         (ProductBookmarks.createdAt (fst r2))))
              (map (fun b => (b, product_of d (ProductBookmarks.productId b)))
                   (filter (eq_s ProductBookmarks.userId u)
                           (productBookmarks d))))), d).
Proof.
  intros Hp. unfold getUserBookmarks.
  rewrite left_join_single by (intros b; apply (product_key_single Hp)).
  rewrite filter_map_pre. simpl.
  do 4 f_equal. apply map_ext. intros b. rewrite product_of_join. reflexivity.
Qed.

(** X7: bookmarking a product makes [getUserBookmarks] one entry longer,
    with the product's row among the entries, whether or not the user had
    bookmarked it before; after [unbookmarkProduct] no entry is that
    product. *)
Theorem bookmarks_listed_until_removed :
  forall (E : Engine) (u : string) (p : nat) (d : Db),
    product_keys_ok d ->
    is_user d u = true -> is_product d p = true ->
    exists before b d1 listed d2 rest,
      getUserBookmarks u d = (Ok before, d) /\
      bookmarkProduct u p d = (Ok (Some b), d1) /\
      getUserBookmarks u d1 = (Ok listed, d1) /\
      List.length listed = S (List.length before) /\
      In (product_of d p) listed /\ product_of d p <> None /\
      unbookmarkProduct u p d1 = (Ok tt, d2) /\
      getUserBookmarks u d2 = (Ok rest, d2) /\
      (forall q, In (Some q) rest -> Products.id q <> p).
Proof.
  intros E u p d Hp Hu Hprod.
  assert (Hrun : bookmarkProduct u p d
                 = (Ok (Some (ProductBookmarks.mk (nextUuid d) u p
                                (Some (clock d)))),
                    with_productBookmarks
                      (productBookmarks d
                       ++ [ProductBookmarks.mk (nextUuid d) u p
                             (Some (clock d))])
                      (with_nextUuid (S (nextUuid d)) d))).
  { unfold bookmarkProduct, insert_productBookmarks, bind, references.
    simpl. unfold is_user in Hu. unfold is_product in Hprod.
    rewrite Hu, Hprod. reflexivity. }
  match type of Hrun with _ = (_, ?s) => set (d1 := s) in * end.
  set (d2 := with_productBookmarks
               (filter (fun r => negb (and_ (eq_s ProductBookmarks.userId u)
                                         (eq_n ProductBookmarks.productId p)
                                         r))
                       (productBookmarks d1)) d1).
  assert (Hp1 : product_keys_ok d1) by exact Hp.
  assert (Hp2 : product_keys_ok d2) by exact Hp.
  eexists. eexists. exists d1. eexists. exists d2. eexists.
  split; [apply (getUserBookmarks_run E u Hp)|].
  split; [exact Hrun|].
  split; [apply (getUserBookmarks_run E u Hp1)|].
  split; [|split; [|split; [|split; [reflexivity|split]]]].
  - rewrite !length_map.
    rewrite !(Permutation_length (sort_rows_perm _ _)).
    rewrite !length_map. simpl. rewrite filter_app, length_app. simpl.
    unfold eq_s at 2. simpl. rewrite String.eqb_refl. simpl. lia.
  - apply in_map_iff.
    exists (ProductBookmarks.mk (nextUuid d) u p (Some (clock d)),
            product_of d p).
    split; [reflexivity|].
    apply (Permutation_in _ (Permutation_sym (sort_rows_perm _ _))).
    apply in_map_iff.
    exists (ProductBookmarks.mk (nextUuid d) u p (Some (clock d))).
    split; [reflexivity|]. apply filter_In. split.
    + simpl. apply in_or_app. right. left. reflexivity.
    + unfold eq_s. simpl. apply String.eqb_refl.
  - unfold product_of, is_product in *.
    apply existsb_exists in Hprod. destruct Hprod as [x [Hin Hx]].
    destruct (filter (eq_n Products.id p) (products d)) as [|y l] eqn:Hf;
      [|discriminate].
    assert (Hin' : In x (filter (eq_n Products.id p) (products d)))
      by (apply filter_In; split; assumption).
    rewrite Hf in Hin'. contradiction.
  - apply (getUserBookmarks_run E u Hp2).
  - intros q Hq. apply in_map_iff in Hq. destruct Hq as [[b oq] [Hs Hin]].
    simpl in Hs. subst oq.
    apply (Permutation_in _ (sort_rows_perm _ _)) in Hin.
    apply in_map_iff in Hin. destruct Hin as [b0 [Hb Hin]].
    injection Hb as -> Hq.
    apply filter_In in Hin. destruct Hin as [Hin Hbu].
    simpl in Hin. apply filter_In in Hin. destruct Hin as [_ Hneg].
    unfold and_ in Hneg. rewrite Hbu in Hneg. simpl in Hneg.
    apply negb_true_iff in Hneg. unfold eq_n in Hneg.
    apply Nat.eqb_neq in Hneg.
    unfold product_of in Hq. simpl in Hq.
    destruct (filter (eq_n Products.id (ProductBookmarks.productId b))
                (products d)) as [|y l] eqn:Hf; [discriminate|].
    injection Hq as ->.
    destruct (@filter_In_first _ _ _ _ _ Hf) as [_ Hy].
    unfold eq_n in Hy. apply Nat.eqb_eq in Hy. congruence.
Qed.

Lemma bookmarks_listed_until_removed_witness :
  (product_keys_ok shop /\
   is_user shop "bob" = true /\ is_product shop 1 = true) /\
  exists before b d1 listed d2 rest,
    @getUserBookmarks scan_engine "bob" shop = (Ok before, shop) /\
    bookmarkProduct "bob" 1 shop = (Ok (Some b), d1) /\
    @getUserBookmarks scan_engine "bob" d1 = (Ok listed, d1) /\
    List.length listed = S (List.length before) /\
    In (product_of shop 1) listed /\ product_of shop 1 <> None /\
    unbookmarkProduct "bob" 1 d1 = (Ok tt, d2) /\
    @getUserBookmarks scan_engine "bob" d2 = (Ok rest, d2) /\
    (forall q, In (Some q) rest -> Products.id q <> 1).
Proof.
  assert (Hp : product_keys_ok shop).
  { unfold product_keys_ok. simpl. repeat constructor; simpl; intuition lia. }
  split; [split; [exact Hp | split; reflexivity]|].
  apply (@bookmarks_listed_until_removed scan_engine "bob" 1 shop Hp);
    reflexivity.
Defined.

(** ** Recommendations beyond the fallback *)

Lemma set_add_In x s t : In t (set_add x s) <-> In t s \/ t = x.
Proof.
  unfold set_add. destruct (existsb (String.eqb x) s) eqn:Hx.
  - split; [auto|]. intros [H| ->]; [exact H|].
    apply existsb_exists in Hx. destruct Hx as [y [Hy E]].
    apply String.eqb_eq in E. subst y. exact Hy.
  - rewrite in_app_iff. simpl. intuition.
Qed.

Lemma set_add_all_In tags : forall acc t,
  In t (fold_left (fun s tag => set_add tag s) tags acc)
  <-> In t acc \/ In t tags.
Proof.
  induction tags as [|x tags IH]; intros acc t; simpl; [intuition|].
  rewrite IH, set_add_In. intuition.
Qed.

Lemma gathered_tags_In ps : forall acc t,
  In t (fold_left
          (fun acc p =>
             match Products.hashtags p with
             | Some tags => fold_left (fun s tag => set_add tag s) tags acc
             | None => acc
             end) ps acc)
  <-> In t acc \/
      exists q tags, In q ps /\ Products.hashtags q = Some tags /\ In t tags.
Proof.
  induction ps as [|p ps IH]; intros acc t; simpl.
  - split; [auto|]. intros [H|[q [tags [[] _]]]]. exact H.
  - rewrite IH. destruct (Products.hashtags p) as [tags|] eqn:Hp.
    + rewrite set_add_all_In. split.
      * intros [[H|H]|[q [tq [Hq H]]]].
        { left. exact H. }
        { right. exists p, tags. auto. }
        { right. exists q, tq. split; [right; exact Hq | exact H]. }
      * intros [H|[q [tq [[<-|Hq] [Hh Ht]]]]].
        { left. left. exact H. }
        { left. right. congruence. }
        { right. exists q, tq. auto. }
    + split.
      * intros [H|[q [tq [Hq H]]]]; [left; exact H|].
        right. exists q, tq. split; [right; exact Hq | exact H].
      * intros [H|[q [tq [[<-|Hq] [Hh Ht]]]]].
        { left. exact H. }
        { congruence. }
        { right. exists q, tq. auto. }
Qed.

Lemma user_hashtags_In d u t :
  In t (user_hashtags d u) <->
  exists q tags,
    In q (products d) /\ In (Products.id q) (interacted_ids d u) /\
    Products.hashtags q = Some tags /\ In t tags.
Proof.
  unfold user_hashtags. rewrite gathered_tags_In. split.
  - intros [[]|[q [tags [Hq [Hh Ht]]]]].
    apply filter_In in Hq. destruct Hq as [Hq Hid].
    exists q, tags. split; [exact Hq|]. split; [|auto].
    unfold inArray in Hid. apply existsb_exists in Hid.
    destruct Hid as [i [Hi E]]. apply Nat.eqb_eq in E. subst i. exact Hi.
  - intros [q [tags [Hq [Hid [Hh Ht]]]]]. right. exists q, tags.
    split; [|auto]. apply filter_In. split; [exact Hq|].
    unfold inArray. apply existsb_exists.
    exists (Products.id q). split; [exact Hid | apply Nat.eqb_refl].
Qed.

(** The three ways [getRecommendedProducts] can go. *)
Lemma getRecommendedProducts_run (E : Engine) u (n : Z) d :
  getRecommendedProducts u (Some n) d
  = if (List.length (interacted_ids d u) =? 0)%nat
    then getTrendingProducts (Some n) d
    else if (List.length (user_hashtags d u) =? 0)%nat
         then getTrendingProducts (Some n) d
         else
           (operand <- array_operand (user_hashtags d u) ;;
            sql_limit n
              (select_order_by productsT
                 (and_ (eq_b Products.isAvailable true)
                       (overlaps Products.hashtags operand))
                 (by_desc Products.likesCount))) d.
Proof.
  unfold getRecommendedProducts, select. unfold bind at 1 2. simpl.
  fold (interacted_ids d u).
  destruct (List.length (interacted_ids d u) =? 0)%nat; [reflexivity|].
  unfold bind at 1.
  fold (user_hashtags d u).
  destruct (List.length (user_hashtags d u) =? 0)%nat; reflexivity.
Qed.

Lemma set_add_NoDup x s : NoDup s -> NoDup (set_add x s).
Proof.
  intros Hs. unfold set_add. destruct (existsb (String.eqb x) s) eqn:Hx;
    [exact Hs|].
  apply NoDup_app; [exact Hs | repeat constructor; intros [] |].
  intros y Hy [<-|[]].
  assert (Hex : existsb (String.eqb x) s = true).
  { apply existsb_exists. exists x. split; [exact Hy | apply String.eqb_refl]. }
  rewrite Hex in Hx. discriminate.
Qed.

Lemma set_add_all_NoDup tags : forall acc,
  NoDup acc -> NoDup (fold_left (fun s tag => set_add tag s) tags acc).
Proof.
  induction tags as [|x tags IH]; intros acc Hacc; simpl; [exact Hacc|].
  apply IH, set_add_NoDup, Hacc.
Qed.

(** The gathered hashtags are a set. *)
Lemma user_hashtags_NoDup d u : NoDup (user_hashtags d u).
Proof.
  unfold user_hashtags.
  generalize (filter (inArray Products.id (interacted_ids d u)) (products d)).
  intros ps.
  assert (H : forall acc, NoDup acc ->
            NoDup (fold_left
                     (fun acc p =>
                        match Products.hashtags p with
                        | Some tags =>
                            fold_left (fun s tag => set_add tag s) tags acc
                        | None => acc
                        end) ps acc)).
  { induction ps as [|p ps IH]; intros acc Hacc; simpl; [exact Hacc|].
    apply IH. destruct (Products.hashtags p); [|exact Hacc].
    apply set_add_all_NoDup, Hacc. }
  apply H. constructor.
Qed.

(** X8: beyond the fallback the recommendation query does not run.  When a
    stored product that the user liked or bookmarked carries a hashtag, the
    gathered hashtags reach the store as a list of parameters: if they are
    two or more the store has no overlap operator for them, and if there is
    one, and it does not open an array, the store cannot read it as an
    array; either way [getRecommendedProducts] fails and returns no
    product. *)
Theorem recommended_by_hashtags_is_rejected :
  forall (E : Engine) (u : string) (n : option Z) (d : Db)
         (q0 : Products.row) (t0 : string) (tags0 : list string),
    In q0 (products d) -> In (Products.id q0) (interacted_ids d u) ->
    Products.hashtags q0 = Some tags0 -> In t0 tags0 ->
    ((exists t, In t (user_hashtags d u) /\ t <> t0) ->
     getRecommendedProducts u n d = (Fail UndefinedOperator, d)) /\
    ((forall t, In t (user_hashtags d u) -> t = t0) ->
     opens_array t0 = false ->
     getRecommendedProducts u n d = (Fail MalformedArrayLiteral, d)).
Proof.
  intros E u n d q0 t0 tags0 Hq0 Hid0 Hh0 Ht0.
  assert (Htag : In t0 (user_hashtags d u)).
  { apply user_hashtags_In. exists q0, tags0. auto. }
  assert (Hrun : getRecommendedProducts u n d
                 = (operand <- array_operand (user_hashtags d u) ;;
                    sql_limit (default_arg n 10)
                      (select_order_by productsT
                         (and_ (eq_b Products.isAvailable true)
                               (overlaps Products.hashtags operand))
                         (by_desc Products.likesCount))) d).
  { transitivity (getRecommendedProducts u (Some (default_arg n 10)) d);
      [destruct n; reflexivity|].
    rewrite getRecommendedProducts_run.
    replace (List.length (interacted_ids d u) =? 0)%nat with false
      by (destruct (interacted_ids d u); [contradiction | reflexivity]).
    replace (List.length (user_hashtags d u) =? 0)%nat with false
      by (destruct (user_hashtags d u); [contradiction | reflexivity]).
    reflexivity. }
  rewrite Hrun. clear Hrun.
  pose proof (user_hashtags_NoDup d u) as Hnd.
  split.
  - intros [t [Ht Hne]].
    destruct (user_hashtags d u) as [|a [|b ts]]; [contradiction| |reflexivity].
    destruct Ht as [<-|[]]. destruct Htag as [<-|[]]. contradiction.
  - intros Hall Hopen.
    destruct (user_hashtags d u) as [|a [|b ts]]; [contradiction| |].
    + rewrite (Hall a (or_introl eq_refl)).
      unfold bind, array_operand. rewrite (array_in_opens t0 Hopen).
      reflexivity.
    + exfalso. inversion Hnd as [|? ? Hnotin _]; subst. apply Hnotin.
      rewrite (Hall a (or_introl eq_refl)),
              (Hall b (or_intror (or_introl eq_refl))).
      left. reflexivity.
Qed.

Lemma recommended_by_hashtags_is_rejected_witness :
  let liked :=
    with_productLikes [ProductLikes.mk 9 "bob" 1 (Some 50%Z)] shop in
  (In lamp (products liked) /\
   In (Products.id lamp) (interacted_ids liked "bob") /\
   Products.hashtags lamp = Some ["vintage"; "home"]%string /\
   In "home"%string ["vintage"; "home"]%string /\
   In "vintage"%string (user_hashtags liked "bob")) /\
  @getRecommendedProducts scan_engine "bob" (Some 5%Z) liked
  = (Fail UndefinedOperator, liked).
Proof.
  cbv zeta.
  assert (H1 : In lamp (products
                          (with_productLikes
                             [ProductLikes.mk 9 "bob" 1 (Some 50%Z)] shop)))
    by (left; reflexivity).
  assert (H2 : In (Products.id lamp)
                  (interacted_ids
                     (with_productLikes
                        [ProductLikes.mk 9 "bob" 1 (Some 50%Z)] shop) "bob"))
    by (left; reflexivity).
  assert (H4 : In "home"%string ["vintage"; "home"]%string)
    by (right; left; reflexivity).
  assert (H5 : In "vintage"%string
                  (user_hashtags
                     (with_productLikes
                        [ProductLikes.mk 9 "bob" 1 (Some 50%Z)] shop) "bob"))
    by (left; reflexivity).
  split; [repeat split; assumption|].
  apply (proj1 (@recommended_by_hashtags_is_rejected scan_engine "bob"
                  (Some 5%Z) _ lamp "home" ["vintage"; "home"]%string
                  H1 H2 eq_refl H4)).
  exists "vintage"%string. split; [exact H5 | discriminate].
Defined.

(** X9: a search with hashtags does not run either.  The hashtags reach
    the store as a list of parameters: two or more make a row, for which
    there is no overlap operator, and a single hashtag that does not open
    an array cannot be read as one; [searchProducts] fails and returns no
    product, whatever the query text. *)
Theorem searchProducts_with_hashtags_is_rejected :
  forall (E : Engine) (query : string) (d : Db),
    (forall h1 h2 hs,
       searchProducts query (Some (h1 :: h2 :: hs)) d
       = (Fail UndefinedOperator, d)) /\
    (forall h, opens_array h = false ->
       searchProducts query (Some [h]) d = (Fail MalformedArrayLiteral, d)).
Proof.
  intros E query d. split.
  - reflexivity.
  - intros h Hh. unfold searchProducts, array_operand. simpl.
    rewrite (array_in_opens h Hh). reflexivity.
Qed.

(** X10: a user whose liked and bookmarked products carry no hashtag at
    all gets the trending list, like a user without likes or bookmarks. *)
Theorem recommended_without_hashtags_is_trending :
  forall (E : Engine) (u : string) (n : option Z) (d : Db),
    (forall q, In q (products d) ->
               In (Products.id q) (interacted_ids d u) ->
               Products.hashtags q = None \/ Products.hashtags q = Some []) ->
    getRecommendedProducts u n d = getTrendingProducts n d.
Proof.
  intros E u n d Hnone.
  assert (Hempty : user_hashtags d u = []).
  { destruct (user_hashtags d u) as [|t ts] eqn:Hu; [reflexivity|].
    assert (Hin : In t (user_hashtags d u)) by (rewrite Hu; left; reflexivity).
    apply user_hashtags_In in Hin.
    destruct Hin as [q [tags [Hq [Hid [Hh Ht]]]]].
    destruct (Hnone q Hq Hid) as [H|H]; rewrite H in Hh.
    - discriminate.
    - injection Hh as <-. contradiction. }
  assert (Hsame : getTrendingProducts (Some (default_arg n 10)) d
                  = getTrendingProducts n d) by (destruct n; reflexivity).
  rewrite <- Hsame.
  transitivity (getRecommendedProducts u (Some (default_arg n 10)) d);
    [destruct n; reflexivity|].
  rewrite getRecommendedProducts_run, Hempty. simpl.
  destruct (List.length (interacted_ids d u) =? 0)%nat; reflexivity.
Qed.

Lemma recommended_without_hashtags_is_trending_witness :
  let liked :=
    with_productLikes [ProductLikes.mk 9 "bob" 6 (Some 50%Z)] shop in
  (forall q, In q (products liked) ->
             In (Products.id q) (interacted_ids liked "bob") ->
             Products.hashtags q = None \/ Products.hashtags q = Some []) /\
  @getRecommendedProducts scan_engine "bob" (Some 3%Z) liked
  = @getTrendingProducts scan_engine (Some 3%Z) liked.
Proof.
  cbv zeta.
  assert (H : forall q,
            In q (products (with_productLikes
                              [ProductLikes.mk 9 "bob" 6 (Some 50%Z)] shop)) ->
            In (Products.id q)
               (interacted_ids
                  (with_productLikes
                     [ProductLikes.mk 9 "bob" 6 (Some 50%Z)] shop) "bob") ->
            Products.hashtags q = None \/ Products.hashtags q = Some []).
  { simpl. intros q [<-|[<-|[<-|[<-|[]]]]] [Hid|[]]; simpl in Hid;
      try discriminate. left. reflexivity. }
  split; [exact H|].
  apply (@recommended_without_hashtags_is_trending scan_engine "bob"
           (Some 3%Z) _ H).
Defined.

(** ** Deleting a product *)

Lemma refers_to_In dead k :
  refers_to dead (Some k) = true <-> In k dead.
Proof.
  simpl. rewrite existsb_exists. split.
  - intros [x [Hx E]]. apply Nat.eqb_eq in E. subst x. exact Hx.
  - intros H. exists k. split; [exact H | apply Nat.eqb_refl].
Qed.

Lemma cascade_replies_incl rounds : forall dead cs c,
  In c (cascade_replies rounds dead cs) -> In c cs.
Proof.
  induction rounds as [|rounds IH]; intros dead cs c H; simpl in H;
    [exact H|].
  destruct (filter (fun c => refers_to dead (Comments.parentId c)) cs)
    as [|g gs]; [exact H|].
  apply IH in H. apply filter_In in H. apply H.
Qed.

Lemma cascade_replies_done rounds dead cs :
  filter (fun c => refers_to dead (Comments.parentId c)) cs = [] ->
  cascade_replies (S rounds) dead cs = cs.
Proof. intros H. simpl. rewrite H. reflexivity. Qed.

Lemma cascade_replies_more rounds dead cs :
  filter (fun c => refers_to dead (Comments.parentId c)) cs <> [] ->
  cascade_replies (S rounds) dead cs
  = cascade_replies rounds
      (map Comments.id
           (filter (fun c => refers_to dead (Comments.parentId c)) cs))
      (filter (fun c => negb (refers_to dead (Comments.parentId c))) cs).
Proof.
  intros H. simpl.
  destruct (filter (fun c => refers_to dead (Comments.parentId c)) cs);
    [contradiction | reflexivity].
Qed.

(** With as many rounds as there are comments the cascade runs to its end:
    no reply is left without its parent. *)
Lemma cascade_replies_closed rounds : forall dead cs,
  List.length cs <= rounds ->
  (forall c k, In c cs -> Comments.parentId c = Some k ->
               In k dead \/ has_key Comments.id cs k) ->
  forall c k, In c (cascade_replies rounds dead cs) ->
              Comments.parentId c = Some k ->
              has_key Comments.id (cascade_replies rounds dead cs) k.
Proof.
  induction rounds as [|rounds IH]; intros dead cs Hlen Hinv c k Hc Hk.
  - destruct cs; [destruct Hc | simpl in Hlen; lia].
  - destruct (filter (fun c => refers_to dead (Comments.parentId c)) cs)
      as [|g gs] eqn:Hhit.
    + rewrite (cascade_replies_done rounds dead cs Hhit) in *.
      destruct (Hinv c k Hc Hk) as [Hdead|Hkey]; [|exact Hkey].
      exfalso.
      assert (Hin : In c (filter (fun c => refers_to dead
                                              (Comments.parentId c)) cs)).
      { apply filter_In. split; [exact Hc|].
        rewrite Hk. apply refers_to_In. exact Hdead. }
      rewrite Hhit in Hin. exact Hin.
    + assert (Hne : filter (fun c => refers_to dead (Comments.parentId c)) cs
                    <> []) by (rewrite Hhit; discriminate).
      rewrite (cascade_replies_more rounds dead cs Hne) in *.
      apply IH with (c := c); [| |exact Hc|exact Hk].
      * pose proof (filter_length
                      (fun c => refers_to dead (Comments.parentId c)) cs)
          as Hsum.
        rewrite Hhit in Hsum at 1. simpl in Hsum. lia.
      * intros c' k' Hc' Hk'. apply filter_In in Hc'.
        destruct Hc' as [Hin Hnot].
        destruct (Hinv c' k' Hin Hk') as [Hdead|[p [Hp Hid]]].
        { apply refers_to_In in Hdead. rewrite Hk' in Hnot.
          rewrite Hdead in Hnot. discriminate. }
        destruct (refers_to dead (Comments.parentId p)) eqn:Hp'.
        { left. rewrite <- Hid. apply in_map. apply filter_In. auto. }
        { right. exists p. split; [|exact Hid].
          apply filter_In. rewrite Hp'. auto. }
Qed.

Lemma kept_has_product R (col : R -> nat) id ps (rows : list R) :
  Forall (fun r => has_key Products.id ps (col r)) rows ->
  Forall (fun r => has_key Products.id
                     (filter (fun p => negb (eq_n Products.id id p)) ps)
                     (col r))
         (filter (fun r => negb (eq_n col id r)) rows).
Proof.
  intros H. apply Forall_forall. intros r Hr.
  apply filter_In in Hr. destruct Hr as [Hin Hkeep].
  rewrite Forall_forall in H. destruct (H r Hin) as [p [Hp Hid]].
  exists p. split; [|exact Hid]. apply filter_In. split; [exact Hp|].
  unfold eq_n in *. rewrite Hid. exact Hkeep.
Qed.

Lemma has_key_found R (col : R -> nat) (l : list R) k :
  existsb (fun r => Nat.eqb (col r) k) l = true -> has_key col l k.
Proof.
  intros H. apply existsb_exists in H. destruct H as [r [Hr E]].
  exists r. split; [exact Hr | apply Nat.eqb_eq; exact E].
Defined.

(** What [deleteProduct] leaves of each table when the product exists. *)
Lemma deleteProduct_run id s p ps :
  filter (eq_n Products.id id) (products (core s)) = p :: ps ->
  deleteProduct id s
  = (Returned tt,
     with_messages
       (filter (fun m =>
                  negb (refers_to
                          (map Orders.id
                               (filter (eq_n Orders.productId id)
                                       (orders (core s))))
                          (Messages.orderId m)))
               (messages s))
       (with_comments
          (cascade_replies (List.length (comments s))
             (map Comments.id
                  (filter (eq_n Comments.productId id) (comments s)))
             (filter (fun c => negb (eq_n Comments.productId id c))
                     (comments s)))
          (with_core
             (with_products
                (filter (fun r => negb (eq_n Products.id id r))
                        (products (core s)))
                (with_productLikes
                   (filter (fun r => negb (eq_n ProductLikes.productId id r))
                           (productLikes (core s)))
                   (with_productBookmarks
                      (filter
                         (fun r => negb (eq_n ProductBookmarks.productId id r))
                         (productBookmarks (core s)))
                      (with_cartItems
                         (filter
                            (fun r => negb (eq_n CartItems.productId id r))
                            (cartItems (core s)))
                         (with_orders
                            (filter
                               (fun r => negb (eq_n Orders.productId id r))
                               (orders (core s)))
                            (core s))))))
             s))).
Proof.
  intros H. unfold deleteProduct. rewrite H. reflexivity.
Qed.

(** X11: [deleteProduct] takes with the product every row that points at
    it, directly or through a deleted order or comment: the product is
    gone, and no like, bookmark, cart row, order, comment or message is left
    pointing at a missing row.  Every other product is kept, and so is every
    message without an order; users, follows, vrooms and vroom follows are
    as they were; every comment left was there before and is on another
    product. *)
Theorem deleteProduct_cascades :
  forall (id : nat) (s : Store),
    refs_ok s ->
    exists s',
      deleteProduct id s = (Returned tt, s') /\
      refs_ok s' /\
      is_product (core s') id = false /\
      (forall p, In p (products (core s)) -> Products.id p <> id ->
                 In p (products (core s'))) /\
      (forall c, In c (comments s') ->
                 In c (comments s) /\ Comments.productId c <> id) /\
      (forall m, In m (messages s) -> Messages.orderId m = None ->
                 In m (messages s')) /\
      users (core s') = users (core s) /\
      follows (core s') = follows (core s) /\
      vrooms s' = vrooms s /\
      vroomFollows s' = vroomFollows s.
Proof.
  intros id s Hrefs.
  destruct (filter (eq_n Products.id id) (products (core s)))
    as [|p0 ps0] eqn:Hfound.
  - exists s. unfold deleteProduct. rewrite Hfound.
    split; [reflexivity|]. split; [exact Hrefs|].
    assert (Hnone : forall p, In p (products (core s)) ->
                              eq_n Products.id id p = false).
    { intros p Hp. destruct (eq_n Products.id id p) eqn:E; [|reflexivity].
      assert (Hin : In p (filter (eq_n Products.id id) (products (core s))))
        by (apply filter_In; auto).
      rewrite Hfound in Hin. destruct Hin. }
    split.
    { unfold is_product. destruct (existsb _ _) eqn:Ex; [|reflexivity].
      apply existsb_exists in Ex. destruct Ex as [p [Hp E]].
      rewrite (Hnone p Hp) in E. discriminate. }
    split; [auto|]. split.
    { intros c Hc. split; [exact Hc|].
      destruct Hrefs as (_ & _ & _ & _ & Hcp & _).
      rewrite Forall_forall in Hcp. destruct (Hcp c Hc) as [p [Hp Hid]].
      intros E. pose proof (Hnone p Hp) as Hn. unfold eq_n in Hn.
      rewrite Hid, E, Nat.eqb_refl in Hn. discriminate. }
    repeat split; auto.
  - eexists. split; [apply (deleteProduct_run id s Hfound)|].
    destruct Hrefs as (Hl & Hb & Hc & Ho & Hcp & Hcc & Hm).
    simpl. split.
    { unfold refs_ok. simpl.
      split; [apply kept_has_product; exact Hl|].
      split; [apply kept_has_product; exact Hb|].
      split; [apply kept_has_product; exact Hc|].
      split; [apply kept_has_product; exact Ho|].
      split.
      { apply Forall_forall. intros c Hin.
        apply cascade_replies_incl in Hin.
        pose proof (kept_has_product Comments.productId id Hcp) as Hk.
        rewrite Forall_forall in Hk. apply Hk. exact Hin. }
      split.
      { apply Forall_forall. intros c Hin k Hk.
        apply (@cascade_replies_closed (List.length (comments s)) _ _)
          with (c := c); [| |exact Hin|exact Hk].
        - pose proof (filter_length
                        (eq_n Comments.productId id) (comments s)). lia.
        - intros c' k' Hc' Hk'. apply filter_In in Hc'.
          destruct Hc' as [Hin' _]. rewrite Forall_forall in Hcc.
          destruct (Hcc c' Hin' k' Hk') as [q [Hq Hid]].
          destruct (eq_n Comments.productId id q) eqn:Hon.
          + left. rewrite <- Hid. apply in_map. apply filter_In. auto.
          + right. exists q. split; [|exact Hid].
            apply filter_In. rewrite Hon. auto. }
      apply Forall_forall. intros m Hin k Hk.
      apply filter_In in Hin. destruct Hin as [Hin Hkeep].
      rewrite Forall_forall in Hm. destruct (Hm m Hin k Hk) as [o [Ho' Hid]].
      exists o. split; [|exact Hid]. apply filter_In. split; [exact Ho'|].
      destruct (eq_n Orders.productId id o) eqn:Hon; [|reflexivity].
      exfalso. rewrite Hk in Hkeep.
      assert (Hdead : refers_to
                        (map Orders.id
                             (filter (eq_n Orders.productId id)
                                     (orders (core s)))) (Some k) = true).
      { apply refers_to_In. rewrite <- Hid. apply in_map.
        apply filter_In. auto. }
      rewrite Hdead in Hkeep. discriminate. }
    split.
    { unfold is_product. simpl. destruct (existsb _ _) eqn:Ex; [|reflexivity].
      apply existsb_exists in Ex. destruct Ex as [p [Hp E]].
      apply filter_In in Hp. destruct Hp as [_ Hp]. rewrite E in Hp.
      discriminate. }
    split.
    { intros p Hp Hne. apply filter_In. split; [exact Hp|].
      unfold eq_n. apply negb_true_iff. apply Nat.eqb_neq. exact Hne. }
    split.
    { intros c Hin. apply cascade_replies_incl in Hin.
      apply filter_In in Hin. destruct Hin as [Hin Hkeep].
      split; [exact Hin|]. unfold eq_n in Hkeep.
      apply negb_true_iff in Hkeep. apply Nat.eqb_neq in Hkeep. exact Hkeep. }
    split.
    { intros m Hin Hnone. apply filter_In. split; [exact Hin|].
      rewrite Hnone. reflexivity. }
    repeat split; reflexivity.
Qed.

Lemma deleteProduct_cascades_witness :
  refs_ok market /\
  exists s',
    deleteProduct 1 market = (Returned tt, s') /\
    refs_ok s' /\
    is_product (core s') 1 = false /\
    (forall p, In p (products (core market)) -> Products.id p <> 1 ->
               In p (products (core s'))) /\
    (forall c, In c (comments s') ->
               In c (comments market) /\ Comments.productId c <> 1) /\
    (forall m, In m (messages market) -> Messages.orderId m = None ->
               In m (messages s')) /\
    users (core s') = users (core market) /\
    follows (core s') = follows (core market) /\
    vrooms s' = vrooms market /\
    vroomFollows s' = vroomFollows market.
Proof.
  assert (H : refs_ok market).
  { unfold refs_ok. simpl.
    repeat split; repeat constructor;
      try (apply has_key_found; reflexivity);
      intros k Hk; try discriminate Hk;
      injection Hk as <-; apply has_key_found; reflexivity. }
  split; [exact H|].
  apply (@deleteProduct_cascades 1 market H).
Defined.

(** ** Route handlers *)

Lemma lift_ok A (m : M A) s a d' :
  m (core s) = (Ok a, d') -> lift m s = (Returned a, with_core d' s).
Proof. intros H. unfold lift. rewrite H. reflexivity. Qed.

Lemma lift_fail A (m : M A) s e d' :
  m (core s) = (Fail e, d') -> lift m s = (Thrown (Core e), with_core d' s).
Proof. intros H. unfold lift. rewrite H. reflexivity. Qed.

Lemma with_core_same s : with_core (core s) s = s.
Proof. destruct s; reflexivity. Qed.

Lemma first_filter_left_join A B (on : A -> B -> bool) (c : A -> bool) l r :
  first (filter (fun x => c (fst x)) (left_join on l r))
  = option_map (fun a => (a, first (filter (on a) r))) (first (filter c l)).
Proof.
  unfold left_join.
  induction l as [|a l IH]; [reflexivity|].
  match goal with
  | |- first (filter _ (flat_map ?f (a :: l))) = _ =>
      change (flat_map f (a :: l)) with (f a ++ flat_map f l)
  end.
  rewrite filter_app.
  replace (filter c (a :: l))
    with (if c a then a :: filter c l else filter c l) by reflexivity.
  destruct (c a) eqn:Hc.
  - replace (option_map (fun a => (a, first (filter (on a) r)))
                        (first (a :: filter c l)))
      with (Some (a, first (filter (on a) r))) by reflexivity.
    destruct (filter (on a) r) as [|b ms]; simpl; rewrite Hc; reflexivity.
  - assert (Hnone : forall bs : list B,
              filter (fun x : A * option B => c (fst x))
                     (map (fun b => (a, Some b)) bs) = []).
    { induction bs as [|b bs IHr]; simpl; [reflexivity|].
      rewrite Hc. exact IHr. }
    destruct (filter (on a) r) as [|b ms].
    + simpl. rewrite Hc. simpl. exact IH.
    + rewrite Hnone. simpl. exact IH.
Qed.

Lemma getProductWithUser_run id d :
  getProductWithUser id d
  = (Ok (option_map (fun p => (p, user_of d (Products.userId p)))
                    (product_of d id)), d).
Proof.
  unfold getProductWithUser.
  pose proof (first_filter_left_join
                (fun p u => String.eqb (Products.userId p) (Users.id u))
                (eq_n Products.id id) (products d) (users d)) as H.
  fold (product_of d id) in H.
  destruct (filter (fun r => eq_n Products.id id (fst r)) _) as [|r rs];
    simpl in H; destruct (product_of d id) as [p|]; simpl in *;
    try discriminate; [reflexivity|].
  injection H as ->. rewrite user_of_join. reflexivity.
Qed.

Lemma add_view_fits r v :
  sql_add (Products.viewsCount r) 1 = Some v -> add_view r = Some (viewed r).
Proof.
  unfold add_view, viewed, sql_add, int4, plus.
  destruct (Products.viewsCount r) as [z|]; simpl.
  - destruct (in_int4 (z + 1)); [|discriminate]. reflexivity.
  - reflexivity.
Qed.

Lemma add_view_overflow r :
  sql_add (Products.viewsCount r) 1 = None -> add_view r = None.
Proof. unfold add_view. intros ->. reflexivity. Qed.

(** X12: [GET /api/products/:id], product ids being distinct, answers 404
    and writes nothing when no product has the id.  Otherwise, when the
    product's view counter is below the largest 32-bit integer, it answers
    200 with the product as stored before the call, joined with its owner,
    and then stores one more view: the view count in the answer does not
    include the view it records, and every other product is kept.  At the
    largest 32-bit integer the update is rejected and the route answers 500
    although the product was found; the store is as it was. *)
Theorem get_product_counts_the_view :
  forall (E : Engine) (id : nat) (s : Store),
    product_keys_ok (core s) ->
    match product_of (core s) id with
    | None =>
        get_product id s
        = ({| status := 404; body := JsonMessage "Product not found" |}, s)
    | Some p =>
        match sql_add (Products.viewsCount p) 1 with
        | Some v =>
            exists s',
              get_product id s
              = ({| status := 200;
                    body := Json (p, user_of (core s) (Products.userId p)) |},
                 s') /\
              product_of (core s') id = Some (viewed p) /\
              Products.viewsCount (viewed p) = v /\
              (forall q, In q (products (core s)) -> Products.id q <> id ->
                         In q (products (core s')))
        | None =>
            get_product id s
            = ({| status := 500;
                  body := JsonMessage "Failed to fetch product" |}, s)
        end
    end.
Proof.
  intros E id s Hkeys. unfold get_product, try_catch, bindS.
  rewrite (lift_ok _ s (getProductWithUser_run id (core s))).
  rewrite with_core_same.
  destruct (product_of (core s) id) as [p|] eqn:Hp; simpl; [|reflexivity].
  unfold product_of in Hp.
  pose proof (@filter_by_nat_key _ Products.id _ id _ Hkeys Hp) as Hone.
  destruct (sql_add (Products.viewsCount p) 1) as [v|] eqn:Hv.
  - assert (Hrun : incrementProductViews id (core s)
                   = (Ok tt,
                      with_products
                        (rewritten (eq_n Products.id id) viewed
                           (products (core s))) (core s))).
    { unfold incrementProductViews. unfold bind at 1.
      rewrite (update_fits E productsT add_view viewed).
      - reflexivity.
      - simpl. intros x Hx Hid.
        assert (Hin : In x (filter (eq_n Products.id id) (products (core s))))
          by (apply filter_In; auto).
        rewrite Hone in Hin. destruct Hin as [<-|[]].
        exact (add_view_fits p Hv). }
    rewrite (lift_ok _ s Hrun).
    eexists. split; [reflexivity|]. split; [|split].
    + unfold product_of. simpl. rewrite rewritten_filter_hit.
      * rewrite first_map, Hp. reflexivity.
      * auto.
      * intros x. reflexivity.
    + unfold viewed, sql_add, int4, plus in *.
      destruct (Products.viewsCount p) as [z|]; simpl in *.
      * destruct (in_int4 (z + 1)); [|discriminate]. congruence.
      * congruence.
    + intros q Hq Hne. simpl. apply rewritten_In. unfold in_place.
      apply in_map_iff. exists q. split; [|exact Hq].
      unfold eq_n. apply Nat.eqb_neq in Hne. rewrite Hne. reflexivity.
  - assert (Hrun : incrementProductViews id (core s)
                   = (Fail IntegerOutOfRange, core s)).
    { unfold incrementProductViews. unfold bind at 1.
      destruct (first_filter_Some _ _ Hp) as [Hin Hid].
      rewrite (update_overflow E productsT add_view _ _ p Hin Hid
                 (add_view_overflow p Hv)).
      reflexivity. }
    rewrite (lift_fail _ s Hrun). rewrite with_core_same. reflexivity.
Qed.

Lemma get_product_counts_the_view_witness :
  product_keys_ok (core market) /\
  exists s',
    @get_product scan_engine 1 market
    = ({| status := 200; body := Json (lamp, Some alice) |}, s') /\
    product_of (core s') 1 = Some (viewed lamp) /\
    Products.viewsCount (viewed lamp) = Some 11%Z /\
    (forall q, In q (products (core market)) -> Products.id q <> 1 ->
               In q (products (core s'))).
Proof.
  assert (Hk : product_keys_ok (core market)).
  { unfold product_keys_ok. simpl.
    repeat constructor; simpl; intuition discriminate. }
  split; [exact Hk|].
  exact (@get_product_counts_the_view scan_engine 1 market Hk).
Defined.

(** A product that was viewed 2147483647 times can no longer be fetched. *)
Example get_product_at_the_top :
  let full := with_core
                (with_products
                   [set_viewsCount (Some int4_max) lamp]
                   (core market)) market in
  @get_product scan_engine 1 full
  = ({| status := 500; body := JsonMessage "Failed to fetch product" |}, full).
Proof. reflexivity. Qed.

Lemma deleteProduct_removes id s :
  fst (deleteProduct id s) = Returned tt /\
  is_product (core (snd (deleteProduct id s))) id = false.
Proof.
  unfold deleteProduct.
  destruct (filter (eq_n Products.id id) (products (core s)))
    as [|p ps] eqn:Hfound; simpl.
  - split; [reflexivity|]. unfold is_product.
    destruct (existsb _ _) eqn:Ex; [|reflexivity].
    apply existsb_exists in Ex. destruct Ex as [p [Hp E]].
    assert (Hin : In p (filter (eq_n Products.id id) (products (core s))))
      by (apply filter_In; auto).
    rewrite Hfound in Hin. destruct Hin.
  - split; [reflexivity|]. unfold is_product. simpl.
    destruct (existsb _ _) eqn:Ex; [|reflexivity].
    apply existsb_exists in Ex. destruct Ex as [q [Hq E]].
    apply filter_In in Hq. destruct Hq as [_ Hq]. rewrite E in Hq.
    discriminate.
Qed.

(** X13: [DELETE /api/products/:id] deletes only for the owner: when the
    stored product belongs to the caller the answer is 204 and the product
    is gone; when it belongs to someone else, or no product has the id, the
    answer is 403 and the store is left as it was. *)
Theorem delete_product_only_by_owner :
  forall (E : Engine) (userId : string) (id : nat) (s : Store),
    match product_of (core s) id with
    | Some p =>
        if String.eqb (Products.userId p) userId
        then
          fst (delete_product userId id s)
          = {| status := 204; body := NoContent |} /\
          is_product (core (snd (delete_product userId id s))) id = false
        else
          delete_product userId id s
          = ({| status := 403;
                body := JsonMessage "Not authorized to delete this product" |},
             s)
    | None =>
        delete_product userId id s
        = ({| status := 403;
              body := JsonMessage "Not authorized to delete this product" |},
           s)
    end.
Proof.
  intros E u id s. unfold delete_product, try_catch, bindS.
  rewrite (lift_ok _ s (getProduct_run id (core s))).
  rewrite with_core_same. fold (product_of (core s) id).
  destruct (product_of (core s) id) as [p|]; [|reflexivity].
  destruct (String.eqb (Products.userId p) u); simpl; [|reflexivity].
  destruct (deleteProduct_removes id s) as [Hr Hgone].
  destruct (deleteProduct id s) as [[[]|e] s']; simpl in *;
    [|discriminate].
  split; [reflexivity | exact Hgone].
Qed.

(** X14: [POST /api/users/:id/follow] never stores an edge from a user to
    that same user: a self-follow is answered 400 without touching the
    store, so a store without such edges stays without them.  The check is
    the route's: [followUser] itself stores the self-edge of an existing
    user. *)
Theorem post_follow_never_follows_self :
  forall (E : Engine) (followerId followingId : string) (s : Store),
    no_self_follow (core s) ->
    no_self_follow (core (snd (post_follow followerId followingId s))) /\
    post_follow followerId followerId s
    = ({| status := 400; body := JsonMessage "Cannot follow yourself" |}, s) /\
    (is_user (core s) followerId = true ->
     exists f,
       In f (follows (after (followUser followerId followerId) (core s))) /\
       Follows.followerId f = Follows.followingId f).
Proof.
  intros E a b s Hno. split; [|split].
  - unfold post_follow, try_catch, bindS.
    destruct (String.eqb a b) eqn:Hab; [exact Hno|].
    destruct (is_user (core s) a && is_user (core s) b) eqn:Hu.
    + apply andb_prop in Hu. destruct Hu as [Ha Hb].
      rewrite (lift_ok _ s (@followUser_run E a b (core s) Ha Hb)). simpl.
      unfold no_self_follow. simpl. apply Forall_app. split; [exact Hno|].
      constructor; [|constructor]. simpl.
      apply String.eqb_neq. exact Hab.
    + rewrite (lift_fail _ s (@followUser_unknown_user E a b (core s) Hu)).
      simpl. exact Hno.
  - unfold post_follow, try_catch. rewrite String.eqb_refl. reflexivity.
  - intros Ha. unfold after.
    rewrite (@followUser_run E a a (core s) Ha Ha). simpl.
    eexists. split; [apply in_or_app; right; left; reflexivity|].
    reflexivity.
Qed.

Lemma post_follow_never_follows_self_witness :
  no_self_follow (core market) /\
  no_self_follow
    (core (snd (@post_follow scan_engine "alice" "bob" market))) /\
  @post_follow scan_engine "alice" "alice" market
  = ({| status := 400; body := JsonMessage "Cannot follow yourself" |},
     market) /\
  (is_user (core market) "alice" = true ->
   exists f,
     In f (follows (after (@followUser scan_engine "alice" "alice")
                      (core market))) /\
     Follows.followerId f = Follows.followingId f).
Proof.
  assert (H : no_self_follow (core market)).
  { unfold no_self_follow. simpl. constructor; [|constructor].
    simpl. discriminate. }
  split; [exact H|].
  apply (@post_follow_never_follows_self scan_engine "alice" "bob" market H).
Defined.

(** X15: of the two routes that delete from the cart, [DELETE /api/cart]
    removes exactly the caller's rows, while [DELETE /api/cart/:id] removes
    the row with that id whoever the caller is: the caller's id is not
    compared with the row's owner. *)
Theorem cart_delete_routes_ownership :
  forall (userId : string) (s : Store),
    (fst (delete_cart userId s) = {| status := 204; body := NoContent |} /\
     forall c, In c (cartItems (core (snd (delete_cart userId s)))) <->
               In c (cartItems (core s)) /\ CartItems.userId c <> userId) /\
    (forall c, In c (cartItems (core s)) ->
       fst (delete_cart_item userId (CartItems.id c) s)
       = {| status := 204; body := NoContent |} /\
       ~ In c (cartItems
                 (core (snd (delete_cart_item userId (CartItems.id c) s))))).
Proof.
  intros u s. split.
  - split; [reflexivity|]. intros c. simpl. rewrite filter_In.
    unfold eq_s. rewrite negb_true_iff, String.eqb_neq. reflexivity.
  - intros c Hc. split; [reflexivity|]. simpl. rewrite filter_In.
    unfold eq_n. rewrite Nat.eqb_refl. simpl. intros [_ H]. discriminate.
Qed.

(** ** Listings *)

Lemma eq_b_true R (col : R -> option bool) r :
  eq_b col true r = true -> col r = Some true.
Proof.
  unfold eq_b, sql_eq_bool. destruct (col r) as [[|]|]; try discriminate.
  reflexivity.
Qed.

Lemma sorted_rows_In (E : Engine) R (le : R -> R -> bool) (c : R -> bool)
    l r :
  In r (sort_rows le (filter c l)) -> In r l /\ c r = true.
Proof.
  intros H. apply (Permutation_in _ (sort_rows_perm _ _)) in H.
  apply filter_In. exact H.
Qed.




(** ** Messages and conversations *)

Lemma map_has_In V k (m : list (string * V)) :
  map_has k m = true <-> In k (map fst m).
Proof.
  unfold map_has. rewrite existsb_exists, in_map_iff. split.
  - intros [e [He E]]. apply String.eqb_eq in E. exists e. auto.
  - intros [e [E He]]. exists e. split; [exact He|].
    apply String.eqb_eq. exact E.
Qed.

(** A loop that sets a key only when the map does not have it keeps, for
    every key, the entry of the first element with that key. *)
Lemma first_per_key V X (k : X -> string) (v : X -> V) (xs : list X) :
  forall acc,
    let out :=
      fold_left (fun m x => if map_has (k x) m then m
                            else m ++ [(k x, v x)]) xs acc in
    (NoDup (map fst acc) -> NoDup (map fst out)) /\
    (forall e, In e out ->
       In e acc \/
       exists pre x post,
         xs = pre ++ x :: post /\ e = (k x, v x) /\
         (forall y, In y pre -> k y <> k x) /\ ~ In (k x) (map fst acc)) /\
    (forall x, In x xs -> In (k x) (map fst out)) /\
    (forall key, In key (map fst acc) -> In key (map fst out)).
Proof.
  induction xs as [|x xs IH]; intros acc; simpl.
  - repeat split; auto. intros x [].
  - destruct (map_has (k x) acc) eqn:Hhas.
    + destruct (IH acc) as (Hnd & Hin & Hall & Hkeep).
      apply map_has_In in Hhas.
      split; [exact Hnd|]. split; [|split; [|exact Hkeep]].
      * intros e He. destruct (Hin e He) as [Ha|Hnew]; [left; exact Ha|].
        destruct Hnew as (pre & x0 & post & -> & -> & Hfirst & Hfresh).
        right. exists (x :: pre), x0, post.
        split; [reflexivity|]. split; [reflexivity|].
        split; [|exact Hfresh].
        intros y [<-|Hy]; [|exact (Hfirst y Hy)].
        intros E. apply Hfresh. rewrite <- E. exact Hhas.
      * intros y [<-|Hy]; [apply Hkeep; exact Hhas | exact (Hall y Hy)].
    + destruct (IH (acc ++ [(k x, v x)])) as (Hnd & Hin & Hall & Hkeep).
      assert (Hfresh : ~ In (k x) (map fst acc)).
      { intros H. apply map_has_In in H. rewrite H in Hhas. discriminate. }
      split; [|split; [|split]].
      * intros Hacc. apply Hnd. rewrite map_app. simpl.
        apply (@Permutation_NoDup _ (k x :: map fst acc));
          [apply Permutation_cons_append|].
        constructor; assumption.
      * intros e He. destruct (Hin e He) as [Ha|Hnew].
        { apply in_app_or in Ha. destruct Ha as [Ha|[<-|[]]];
            [left; exact Ha|].
          right. exists [], x, xs. repeat split; auto. }
        destruct Hnew as (pre & x0 & post & -> & -> & Hfirst & Hfresh0).
        rewrite map_app, in_app_iff in Hfresh0. simpl in Hfresh0.
        right. exists (x :: pre), x0, post.
        split; [reflexivity|]. split; [reflexivity|]. split.
        { intros y [<-|Hy]; [|exact (Hfirst y Hy)].
          intros E. apply Hfresh0. right. left. exact E. }
        { intros H. apply Hfresh0. left. exact H. }
      * intros y [<-|Hy]; [|exact (Hall y Hy)].
        apply Hkeep. rewrite map_app, in_app_iff. right. left. reflexivity.
      * intros key Hkey. apply Hkeep. rewrite map_app, in_app_iff.
        left. exact Hkey.
Qed.

Lemma getUserConversations_run (E : Engine) u s :
  getUserConversations u s
  = (Returned
       (map snd
          (fold_left
             (fun m x => if map_has (counterpart u x) m then m
                         else m ++ [(counterpart u x, conversation_of s u x)])
             (sort_rows (may_precede (by_desc Messages.createdAt))
                        (filter (involves u) (messages s)))
             [])), s).
Proof. reflexivity. Qed.

Lemma may_precede_desc_refl R (col : R -> option Z) x :
  may_precede (by_desc col) x x = true.
Proof. unfold may_precede, by_desc. rewrite desc_refl. reflexivity. Qed.

(** What the list of [getUserConversations] holds. *)
Lemma getUserConversations_spec (E : Engine) u s :
  exists l,
    getUserConversations u s = (Returned l, s) /\
    NoDup (map (fun c => counterpart u (lastMessage c)) l) /\
    (forall m, In m (messages s) -> involves u m = true ->
       exists c, In c l /\
                 counterpart u (lastMessage c) = counterpart u m /\
                 no_newer (lastMessage c) m) /\
    (forall c, In c l ->
       In (lastMessage c) (messages s) /\
       involves u (lastMessage c) = true /\
       c = conversation_of s u (lastMessage c)).
Proof.
  rewrite getUserConversations_run.
  set (sorted := sort_rows (may_precede (by_desc Messages.createdAt))
                           (filter (involves u) (messages s))).
  destruct (first_per_key (counterpart u) (conversation_of s u) sorted [])
    as (Hnd & Hin & Hall & _).
  set (out := fold_left _ sorted []) in *.
  assert (Hentry : forall e, In e out ->
            exists pre x post,
              sorted = pre ++ x :: post /\
              e = (counterpart u x, conversation_of s u x) /\
              (forall y, In y pre -> counterpart u y <> counterpart u x)).
  { intros e He. destruct (Hin e He) as [[]|Hnew].
    destruct Hnew as (pre & x & post & H1 & H2 & H3 & _).
    exists pre, x, post. auto. }
  assert (Hsorted : StronglySorted (fun x y => no_newer x y) sorted).
  { apply (@sort_rows_sorted E _ (may_precede (by_desc Messages.createdAt))).
    - apply may_precede_desc_total.
    - apply may_precede_desc_trans. }
  assert (Hmem : forall m, In m sorted <->
                           In m (messages s) /\ involves u m = true).
  { intros m. rewrite <- filter_In. split; intros H.
    - exact (Permutation_in _ (sort_rows_perm _ _) H).
    - exact (Permutation_in _ (Permutation_sym (sort_rows_perm _ _)) H). }
  eexists. split; [reflexivity|]. split; [|split].
  - rewrite map_map.
    replace (map (fun e => counterpart u (lastMessage (snd e))) out)
      with (map fst out); [apply Hnd; constructor|].
    apply map_ext_in. intros e He.
    destruct (Hentry e He) as (pre & x & post & _ & -> & _). reflexivity.
  - intros m Hm Hinv.
    assert (Hs : In m sorted) by (apply Hmem; auto).
    pose proof (Hall m Hs) as Hkey. apply in_map_iff in Hkey.
    destruct Hkey as [e [Hfst He]].
    destruct (Hentry e He) as (pre & x & post & Hsplit & -> & Hfirst).
    simpl in Hfst.
    exists (conversation_of s u x). split; [|split].
    + apply in_map_iff. exists (counterpart u x, conversation_of s u x).
      auto.
    + exact Hfst.
    + simpl. rewrite Hsplit in Hs. apply in_app_or in Hs.
      destruct Hs as [Hpre|[<-|Hpost]].
      * exfalso. apply (Hfirst m Hpre). symmetry. exact Hfst.
      * apply may_precede_desc_refl.
      * rewrite Hsplit in Hsorted.
        replace (pre ++ x :: post) with ((pre ++ [x]) ++ post) in Hsorted
          by (rewrite <- app_assoc; reflexivity).
        apply (StronglySorted_app_cross _ _ Hsorted).
        { apply in_or_app. right. left. reflexivity. }
        { exact Hpost. }
  - intros c Hc. apply in_map_iff in Hc. destruct Hc as [e [<- He]].
    destruct (Hentry e He) as (pre & x & post & Hsplit & -> & _). simpl.
    assert (Hx : In x sorted).
    { rewrite Hsplit. apply in_or_app. right. left. reflexivity. }
    apply Hmem in Hx. destruct Hx as [H1 H2]. auto.
Qed.

(** X17: [getUserConversations u] has exactly one entry for every user
    that [u] exchanged a message with: its lastMessage is a message between
    the two than which none is newer, its user is the stored row of the
    other side, and its unreadCount is the number of stored messages from
    the other side to [u] that are not read. *)
Theorem conversations_one_per_counterpart :
  forall (E : Engine) (u : string) (s : Store),
    exists l,
      getUserConversations u s = (Returned l, s) /\
      NoDup (map (fun c => counterpart u (lastMessage c)) l) /\
      (forall m, In m (messages s) -> involves u m = true ->
         exists c, In c l /\
                   counterpart u (lastMessage c) = counterpart u m /\
                   no_newer (lastMessage c) m) /\
      (forall c, In c l ->
         In (lastMessage c) (messages s) /\
         involves u (lastMessage c) = true /\
         user c = user_of (core s) (counterpart u (lastMessage c)) /\
         unreadCount c = unread_from s (counterpart u (lastMessage c)) u).
Proof.
  intros E u s.
  destruct (getUserConversations_spec E u s) as (l & Hrun & Hnd & Hall & Hc).
  exists l. split; [exact Hrun|]. split; [exact Hnd|]. split; [exact Hall|].
  intros c Hin. destruct (Hc c Hin) as (H1 & H2 & H3).
  split; [exact H1|]. split; [exact H2|].
  rewrite H3 at 1 3. simpl. auto.
Qed.

Lemma filter_length_map A (c : A -> bool) (g : A -> A) l :
  (forall x, c (g x) = c x) ->
  List.length (filter c (map g l)) = List.length (filter c l).
Proof.
  intros H. rewrite (filter_map_comm c g l H). apply length_map.
Qed.

(** X18: after [markConversationAsRead u other], the conversation of [u]
    with [other] shows no unread message; the unread counts of the other
    conversations of [u] are as before, and so are the counts of what [u]
    sent, read or not, when [other] is not [u]. *)
Theorem markConversationAsRead_clears_unread :
  forall (E : Engine) (u other : string) (s : Store),
    exists s' l,
      markConversationAsRead u other s = (Returned tt, s') /\
      getUserConversations u s' = (Returned l, s') /\
      (forall c, In c l -> counterpart u (lastMessage c) = other ->
                 unreadCount c = 0%Z) /\
      (forall x, x <> other -> unread_from s' x u = unread_from s x u) /\
      (u <> other -> forall x, unread_from s' u x = unread_from s u x).
Proof.
  intros E u o s.
  set (c0 := and_ (eq_s Messages.senderId o) (eq_s Messages.receiverId u)).
  set (g := Messages.set_isRead (Some true)).
  assert (Hrun0 : markConversationAsRead u o s
                  = (Returned tt,
                     with_messages (rewritten c0 g (messages s)) s)).
  { unfold markConversationAsRead, bindS.
    rewrite (updateS_fits E messagesS
               (fun m => Some (Messages.set_isRead (Some true) m)) g)
      by reflexivity.
    reflexivity. }
  destruct (getUserConversations_spec E u
              (with_messages (rewritten c0 g (messages s)) s))
    as (l & Hrun & _ & _ & Hc).
  eexists. exists l. split; [exact Hrun0|]. split; [exact Hrun|].
  assert (Hother : forall a b, (a, b) <> (o, u) ->
            unread_from (with_messages (rewritten c0 g (messages s)) s) a b
            = unread_from s a b).
  { intros a b Hab. unfold unread_from. f_equal.
    replace (messages (with_messages (rewritten c0 g (messages s)) s))
      with (rewritten c0 g (messages s)) by reflexivity.
    rewrite rewritten_filter_length. unfold in_place.
    apply filter_length_map. intros x. unfold c0, and_, eq_s.
    destruct (String.eqb (Messages.senderId x) o) eqn:Ho;
      destruct (String.eqb (Messages.receiverId x) u) eqn:Hu; simpl;
      try reflexivity.
    apply String.eqb_eq in Ho, Hu.
    destruct (String.eqb (Messages.senderId x) a) eqn:Ha;
      [|reflexivity].
    destruct (String.eqb (Messages.receiverId x) b) eqn:Hb;
      [|reflexivity].
    apply String.eqb_eq in Ha, Hb. exfalso. apply Hab. congruence. }
  split; [|split].
  - intros c Hin Hco. destruct (Hc c Hin) as (_ & _ & ->). simpl.
    rewrite Hco. unfold unread_from.
    replace (messages (with_messages (rewritten c0 g (messages s)) s))
      with (rewritten c0 g (messages s)) by reflexivity.
    rewrite filter_all_false; [reflexivity|].
    intros x Hx. apply rewritten_In in Hx. unfold in_place in Hx.
    apply in_map_iff in Hx. destruct Hx as [m [<- _]].
    unfold c0, g, and_, eq_s, eq_b.
    destruct (String.eqb (Messages.senderId m) o) eqn:Ho;
      destruct (String.eqb (Messages.receiverId m) u) eqn:Hu; simpl;
      rewrite ?Ho, ?Hu; simpl; reflexivity.
  - intros x Hx. apply Hother. congruence.
  - intros Hne x. apply Hother. congruence.
Qed.

Lemma left_join_In A B (on : A -> B -> bool) l r a :
  In a l -> In (a, first (filter (on a) r)) (left_join on l r).
Proof.
  intros H. unfold left_join. apply in_flat_map. exists a.
  split; [exact H|].
  destruct (filter (on a) r) as [|b ms]; left; reflexivity.
Qed.

Lemma getConversation_sym (E : Engine) a b s :
  getConversation a b s = getConversation b a s.
Proof.
  unfold getConversation. do 3 f_equal. f_equal.
  apply filter_ext. intros r. unfold or_. apply orb_comm.
Qed.

(** [sendMessage] between two stored users: the row it stores. *)
Lemma sendMessage_run message s :
  is_user (core s) (InsertMessage.senderId message) = true ->
  is_user (core s) (InsertMessage.receiverId message) = true ->
  order_known (core s) (InsertMessage.orderId message) ->
  let r :=
    Messages.mk (nextUuid (core s)) (InsertMessage.senderId message)
      (InsertMessage.receiverId message) (InsertMessage.content message)
      (column_value None (InsertMessage.orderId message))
      (column_value (Some false) (InsertMessage.isRead message))
      (Some (clock (core s))) in
  exists s',
    sendMessage message s = (Returned (Some r), s') /\
    messages s' = messages s ++ [r] /\
    users (core s') = users (core s).
Proof.
  intros Hs Hr Ho. destruct s as [d vs vfs cs ms]. simpl in *.
  unfold is_user in Hs, Hr. unfold order_known in Ho.
  unfold sendMessage, insert_messages, bindS, lift, references, references_if.
  simpl. rewrite Hs. simpl. rewrite Hr. simpl.
  destruct (column_value None (InsertMessage.orderId message)) as [o|] eqn:Hc.
  - simpl. rewrite (Ho o eq_refl). simpl. eexists. split; [reflexivity|].
    split; reflexivity.
  - simpl. eexists. split; [reflexivity|]. split; reflexivity.
Qed.

(** X19: a message sent between two stored users is stored unread unless
    the caller says otherwise, is part of the conversation of the two
    whichever of them asks and in whichever order they are named, and, when
    stored unread, adds one to what the receiver has unread from the
    sender. *)
Theorem sendMessage_reaches_conversation :
  forall (E : Engine) (message : InsertMessage.t) (s : Store),
    is_user (core s) (InsertMessage.senderId message) = true ->
    is_user (core s) (InsertMessage.receiverId message) = true ->
    order_known (core s) (InsertMessage.orderId message) ->
    exists r s' l,
      sendMessage message s = (Returned (Some r), s') /\
      messages s' = messages s ++ [r] /\
      Messages.isRead r
      = column_value (Some false) (InsertMessage.isRead message) /\
      getConversation (InsertMessage.senderId message)
                      (InsertMessage.receiverId message) s'
      = (Returned l, s') /\
      getConversation (InsertMessage.receiverId message)
                      (InsertMessage.senderId message) s'
      = (Returned l, s') /\
      (exists v, In v l /\ view_message v = r /\
                 sender v = user_of (core s)
                                    (InsertMessage.senderId message) /\
                 receiver v = user_of (core s)
                                      (InsertMessage.receiverId message)) /\
      (InsertMessage.isRead message = Undefined ->
       unread_from s' (InsertMessage.senderId message)
                   (InsertMessage.receiverId message)
       = (unread_from s (InsertMessage.senderId message)
                      (InsertMessage.receiverId message) + 1)%Z).
Proof.
  intros E message s Hs Hr Ho.
  destruct (sendMessage_run message s Hs Hr Ho) as (s' & Hrun & Hms & Hus).
  eexists. exists s'. eexists.
  split; [exact Hrun|]. split; [exact Hms|]. split; [reflexivity|].
  split; [reflexivity|]. split; [rewrite getConversation_sym; reflexivity|].
  split.
  - eexists. split.
    + apply in_map.
      apply (Permutation_in _ (Permutation_sym (sort_rows_perm _ _))).
      apply filter_In. split.
      * apply left_join_In. rewrite Hms. apply in_or_app. right. left.
        reflexivity.
      * unfold or_, and_, eq_s. simpl. rewrite !String.eqb_refl. reflexivity.
    + simpl. split; [reflexivity|]. rewrite Hus. split.
      * apply user_of_join.
      * unfold user_of. reflexivity.
  - intros Hundef. unfold unread_from. rewrite Hms, filter_app, length_app.
    rewrite Nat2Z.inj_add. f_equal. simpl.
    unfold and_, eq_s, eq_b. simpl. rewrite !String.eqb_refl, Hundef.
    reflexivity.
Qed.

Lemma sendMessage_reaches_conversation_witness :
  let message :=
    InsertMessage.mk "bob" "alice" "Deal" Undefined Undefined in
  (is_user (core market) (InsertMessage.senderId message) = true /\
   is_user (core market) (InsertMessage.receiverId message) = true /\
   order_known (core market) (InsertMessage.orderId message)) /\
  exists r s' l,
    sendMessage message market = (Returned (Some r), s') /\
    messages s' = messages market ++ [r] /\
    Messages.isRead r
    = column_value (Some false) (InsertMessage.isRead message) /\
    @getConversation scan_engine (InsertMessage.senderId message)
                     (InsertMessage.receiverId message) s'
    = (Returned l, s') /\
    @getConversation scan_engine (InsertMessage.receiverId message)
                     (InsertMessage.senderId message) s'
    = (Returned l, s') /\
    (exists v, In v l /\ view_message v = r /\
               sender v = user_of (core market)
                                  (InsertMessage.senderId message) /\
               receiver v = user_of (core market)
                                    (InsertMessage.receiverId message)) /\
    (InsertMessage.isRead message = Undefined ->
     unread_from s' (InsertMessage.senderId message)
                 (InsertMessage.receiverId message)
     = (unread_from market (InsertMessage.senderId message)
                    (InsertMessage.receiverId message) + 1)%Z).
Proof.
  cbv zeta.
  assert (Ho : order_known (core market)
                 (InsertMessage.orderId
                    (InsertMessage.mk "bob" "alice" "Deal" Undefined
                                      Undefined))).
  { intros o Hsome. discriminate Hsome. }
  split; [split; [reflexivity | split; [reflexivity | exact Ho]]|].
  apply (@sendMessage_reaches_conversation scan_engine
           (InsertMessage.mk "bob" "alice" "Deal" Undefined Undefined)
           market eq_refl eq_refl Ho).
Defined.
(** ** Vrooms *)

Lemma insert_vroomFollows_run u v s :
  is_user (core s) u = true -> is_vroom s v = true ->
  let f := VroomFollows.mk (nextUuid (core s)) u v (Some (clock (core s))) in
  insert_vroomFollows u v s
  = (Returned [f],
     with_vroomFollows (vroomFollows s ++ [f])
       (with_core (with_nextUuid (S (nextUuid (core s))) (core s)) s)).
Proof.
  intros Hu Hv. destruct s as [d vs vfs cs ms]. simpl in *.
  unfold is_user in Hu. unfold is_vroom in Hv. simpl in Hv.
  unfold insert_vroomFollows, bindS, lift, references, referencesS.
  simpl. rewrite Hu. simpl. rewrite Hv. reflexivity.
Qed.

Lemma add_followers_fits k r c :
  Vrooms.followersCount r = Some c -> in_int4 (c + k) = true ->
  add_followers k r = Some (with_followers k r).
Proof.
  intros Hc Hfit. unfold add_followers, with_followers, sql_add, int4, plus.
  rewrite Hc. simpl. rewrite Hfit. reflexivity.
Qed.

(** The counter update of a vroom whose key names one row. *)
Lemma add_followers_update (E : Engine) v k s w c :
  vroom_keys_ok s -> vroom_of s v = Some w ->
  Vrooms.followersCount w = Some c -> in_int4 (c + k) = true ->
  updateS vroomsS (add_followers k) (eq_n Vrooms.id v) s
  = (Returned [with_followers k w],
     with_vrooms (rewritten (eq_n Vrooms.id v) (with_followers k) (vrooms s))
       s).
Proof.
  intros Hkeys Hw Hc Hfit. unfold vroom_of in Hw.
  pose proof (@filter_by_nat_key _ Vrooms.id _ v _ Hkeys Hw) as Hone.
  rewrite (updateS_fits E vroomsS (add_followers k) (with_followers k)).
  - cbn [srows sput vroomsS]. rewrite Hone. reflexivity.
  - cbn [srows vroomsS]. intros x Hx Hid.
    assert (Hin : In x (filter (eq_n Vrooms.id v) (vrooms s)))
      by (apply filter_In; auto).
    rewrite Hone in Hin. destruct Hin as [<-|[]].
    exact (@add_followers_fits k w c Hc Hfit).
Qed.

Lemma vroom_of_rewritten (E : Engine) v k l w :
  first (filter (eq_n Vrooms.id v) l) = Some w ->
  first (filter (eq_n Vrooms.id v)
                (rewritten (eq_n Vrooms.id v) (with_followers k) l))
  = Some (with_followers k w).
Proof.
  intros Hw. rewrite rewritten_filter_hit.
  - rewrite first_map, Hw. reflexivity.
  - auto.
  - intros x. reflexivity.
Qed.

Lemma vroom_keys_rewritten (E : Engine) v k l :
  NoDup (map Vrooms.id l) ->
  NoDup (map Vrooms.id
             (rewritten (eq_n Vrooms.id v) (with_followers k) l)).
Proof.
  intros Hk. eapply Permutation_NoDup; [|exact Hk].
  apply Permutation_sym.
  eapply perm_trans; [apply Permutation_map, rewritten_perm|].
  unfold in_place. rewrite map_map.
  erewrite map_ext; [apply Permutation_refl|].
  intros x. simpl. destruct (eq_n Vrooms.id v x); reflexivity.
Qed.

Lemma followVroom_run (E : Engine) u v s w c :
  is_user (core s) u = true -> vroom_keys_ok s ->
  vroom_of s v = Some w -> Vrooms.followersCount w = Some c ->
  in_int4 (c + 1) = true ->
  let f := VroomFollows.mk (nextUuid (core s)) u v (Some (clock (core s))) in
  followVroom u v s
  = (Returned (Some f),
     with_vrooms
       (rewritten (eq_n Vrooms.id v) (with_followers 1) (vrooms s))
       (with_vroomFollows (vroomFollows s ++ [f])
          (with_core (with_nextUuid (S (nextUuid (core s))) (core s)) s))).
Proof.
  intros Hu Hkeys Hw Hc Hfit f. subst f.
  assert (Hv : is_vroom s v = true).
  { unfold is_vroom. eapply first_filter_existsb. exact Hw. }
  unfold followVroom. unfold bindS at 1.
  rewrite (@insert_vroomFollows_run u v s Hu Hv). cbv zeta.
  unfold bindS at 1.
  rewrite (@add_followers_update E v 1
             (with_vroomFollows
                (vroomFollows s
                 ++ [VroomFollows.mk (nextUuid (core s)) u v
                       (Some (clock (core s)))])
                (with_core (with_nextUuid (S (nextUuid (core s))) (core s))
                   s))
             w c Hkeys Hw Hc Hfit).
  reflexivity.
Qed.

Lemma unfollowVroom_run (E : Engine) u v s w c :
  vroom_keys_ok s ->
  vroom_of s v = Some w -> Vrooms.followersCount w = Some c ->
  in_int4 (c - 1) = true ->
  unfollowVroom u v s
  = (Returned tt,
     with_vrooms
       (rewritten (eq_n Vrooms.id v) (with_followers (-1)) (vrooms s))
       (with_vroomFollows
          (filter (fun r => negb (and_ (eq_s VroomFollows.userId u)
                                       (eq_n VroomFollows.vroomId v) r))
                  (vroomFollows s)) s)).
Proof.
  intros Hkeys Hw Hc Hfit.
  unfold unfollowVroom, deleteS. unfold bindS at 1. unfold bindS at 1.
  cbn [srows sput vroomFollowsS].
  rewrite (@add_followers_update E v (-1)
             (with_vroomFollows
                (filter (fun r => negb (and_ (eq_s VroomFollows.userId u)
                                    (eq_n VroomFollows.vroomId v) r))
                   (vroomFollows s)) s)
             w c Hkeys Hw Hc Hfit).
  reflexivity.
Qed.

Lemma isFollowingVroom_run u v s :
  isFollowingVroom u v s
  = (Returned
       (0 <? List.length
               (filter (and_ (eq_s VroomFollows.userId u)
                             (eq_n VroomFollows.vroomId v))
                       (vroomFollows s)))%nat, s).
Proof. reflexivity. Qed.

Lemma with_followers_cancel r c :
  Vrooms.followersCount r = Some c ->
  with_followers (-1) (with_followers 1 r) = r.
Proof.
  intros Hc. destruct r. unfold with_followers, plus. simpl in *. subst.
  simpl. replace (c + 1 + -1)%Z with c by lia. reflexivity.
Qed.

Lemma in_int4_between c :
  in_int4 c = true -> (c < int4_max)%Z -> in_int4 (c + 1) = true.
Proof.
  unfold in_int4, int4_min, int4_max. intros H Hlt.
  apply andb_prop in H. destruct H as [Hlo Hhi].
  apply Z.leb_le in Hlo, Hhi.
  apply andb_true_intro. split; apply Z.leb_le; lia.
Qed.

(** X20: following an existing vroom whose followersCount [c] is a 32-bit
    integer below the largest one, vroom ids being distinct, stores
    [c + 1]; unfollowing it right after brings the vroom's row back to what
    it was, and the vrooms table to the rows it held before, in an order
    the store chooses; in between [isFollowingVroom] is true, afterwards
    false. *)
Theorem followVroom_then_unfollowVroom :
  forall (E : Engine) (u : string) (v : nat) (s : Store)
         (w : Vrooms.row) (c : Z),
    is_user (core s) u = true -> vroom_keys_ok s ->
    vroom_of s v = Some w -> Vrooms.followersCount w = Some c ->
    in_int4 c = true -> (c < int4_max)%Z ->
    exists f s1 s2 w1,
      followVroom u v s = (Returned (Some f), s1) /\
      vroom_of s1 v = Some w1 /\
      Vrooms.followersCount w1 = Some (c + 1)%Z /\
      isFollowingVroom u v s1 = (Returned true, s1) /\
      unfollowVroom u v s1 = (Returned tt, s2) /\
      isFollowingVroom u v s2 = (Returned false, s2) /\
      vroom_of s2 v = Some w /\
      Permutation (vrooms s2) (vrooms s).
Proof.
  intros E u v s w c Hu Hkeys Hw Hc Hin4 Hlt.
  pose proof (@in_int4_between c Hin4 Hlt) as Hfit.
  pose proof (@followVroom_run E u v s w c Hu Hkeys Hw Hc Hfit) as Hrun.
  cbv zeta in Hrun.
  set (s1 := with_vrooms _ _) in Hrun.
  assert (Hw1 : vroom_of s1 v = Some (with_followers 1 w))
    by (apply vroom_of_rewritten; exact Hw).
  assert (Hc1 : Vrooms.followersCount (with_followers 1 w)
                = Some (c + 1)%Z)
    by (unfold with_followers, plus; simpl; rewrite Hc; reflexivity).
  assert (Hkeys1 : vroom_keys_ok s1)
    by (apply vroom_keys_rewritten; exact Hkeys).
  assert (Hback : in_int4 (c + 1 - 1) = true)
    by (replace (c + 1 - 1)%Z with c by lia; exact Hin4).
  pose proof (@unfollowVroom_run E u v s1 _ _ Hkeys1 Hw1 Hc1 Hback)
    as Hun.
  eexists. exists s1. eexists. exists (with_followers 1 w).
  split; [exact Hrun|]. split; [exact Hw1|]. split; [exact Hc1|].
  split.
  { rewrite isFollowingVroom_run.
    replace (vroomFollows s1)
      with (vroomFollows s
            ++ [VroomFollows.mk (nextUuid (core s)) u v
                  (Some (clock (core s)))]) by reflexivity.
    rewrite filter_app. simpl.
    unfold and_, eq_s, eq_n. simpl.
    rewrite String.eqb_refl, Nat.eqb_refl. simpl.
    rewrite length_app. simpl.
    replace (0 <? _ + 1)%nat with true; [reflexivity|].
    symmetry. apply Nat.ltb_lt. lia. }
  split; [exact Hun|]. split; [|split].
  - rewrite isFollowingVroom_run. simpl.
    rewrite filter_delete_none. reflexivity.
  - unfold vroom_of.
    replace (vrooms (with_vrooms
               (rewritten (eq_n Vrooms.id v) (with_followers (-1))
                  (vrooms s1))
               (with_vroomFollows
                  (filter (fun r => negb (and_ (eq_s VroomFollows.userId u)
                                      (eq_n VroomFollows.vroomId v) r))
                     (vroomFollows s1)) s1)))
      with (rewritten (eq_n Vrooms.id v) (with_followers (-1)) (vrooms s1))
      by reflexivity.
    unfold vroom_of in Hw1.
    rewrite (@vroom_of_rewritten E v (-1) _ _ Hw1).
    rewrite (@with_followers_cancel w c Hc). reflexivity.
  - replace (vrooms (with_vrooms
               (rewritten (eq_n Vrooms.id v) (with_followers (-1))
                  (vrooms s1))
               (with_vroomFollows
                  (filter (fun r => negb (and_ (eq_s VroomFollows.userId u)
                                      (eq_n VroomFollows.vroomId v) r))
                     (vroomFollows s1)) s1)))
      with (rewritten (eq_n Vrooms.id v) (with_followers (-1))
              (rewritten (eq_n Vrooms.id v) (with_followers 1) (vrooms s)))
      by reflexivity.
    eapply perm_trans; [apply rewritten_perm|].
    unfold in_place at 1.
    eapply perm_trans; [apply Permutation_map, rewritten_perm|].
    unfold in_place. rewrite map_map.
    rewrite <- (map_id (vrooms s)) at 2.
    erewrite map_ext_in; [apply Permutation_refl|].
    intros x Hx. simpl.
    destruct (eq_n Vrooms.id v x) eqn:Hid.
    + assert (Hid' : eq_n Vrooms.id v (with_followers 1 x) = true)
        by exact Hid.
      rewrite Hid'.
      assert (Hxin : In x (filter (eq_n Vrooms.id v) (vrooms s)))
        by (apply filter_In; auto).
      unfold vroom_of in Hw.
      rewrite (@filter_by_nat_key _ Vrooms.id _ v _ Hkeys Hw) in Hxin.
      destruct Hxin as [<-|[]]. apply (@with_followers_cancel w c Hc).
    + rewrite Hid. reflexivity.
Qed.

Lemma followVroom_then_unfollowVroom_witness :
  (is_user (core market) "bob" = true /\ vroom_keys_ok market /\
   vroom_of market 9 = Some attic /\
   Vrooms.followersCount attic = Some 0%Z /\
   in_int4 0 = true /\ (0 < int4_max)%Z) /\
  exists f s1 s2 w1,
    @followVroom scan_engine "bob" 9 market = (Returned (Some f), s1) /\
    vroom_of s1 9 = Some w1 /\
    Vrooms.followersCount w1 = Some (0 + 1)%Z /\
    isFollowingVroom "bob" 9 s1 = (Returned true, s1) /\
    @unfollowVroom scan_engine "bob" 9 s1 = (Returned tt, s2) /\
    isFollowingVroom "bob" 9 s2 = (Returned false, s2) /\
    vroom_of s2 9 = Some attic /\
    Permutation (vrooms s2) (vrooms market).
Proof.
  assert (Hk : vroom_keys_ok market).
  { unfold vroom_keys_ok. simpl.
    repeat constructor; simpl; intuition discriminate. }
  assert (Hlt : (0 < int4_max)%Z) by reflexivity.
  split; [repeat split; try reflexivity; exact Hk|].
  apply (@followVroom_then_unfollowVroom scan_engine "bob" 9 market attic
           0%Z eq_refl Hk eq_refl eq_refl eq_refl Hlt).
Defined.

(** X21: nothing keeps a user from following a vroom twice, and one
    [unfollowVroom] removes both edges but takes only one off the counter:
    with vroom ids distinct and a followersCount [c] that two more
    followers do not take past the largest 32-bit integer, after two
    follows and one unfollow the user no longer follows the vroom and its
    followersCount is [c + 1], one higher than at the start. *)
Theorem followVroom_twice_drifts :
  forall (E : Engine) (u : string) (v : nat) (s : Store)
         (w : Vrooms.row) (c : Z),
    is_user (core s) u = true -> vroom_keys_ok s ->
    vroom_of s v = Some w -> Vrooms.followersCount w = Some c ->
    in_int4 c = true -> (c + 1 < int4_max)%Z ->
    exists f1 f2 s1 s2 s3 w',
      followVroom u v s = (Returned (Some f1), s1) /\
      followVroom u v s1 = (Returned (Some f2), s2) /\
      VroomFollows.id f1 <> VroomFollows.id f2 /\
      unfollowVroom u v s2 = (Returned tt, s3) /\
      isFollowingVroom u v s3 = (Returned false, s3) /\
      vroom_of s3 v = Some w' /\
      Vrooms.followersCount w' = Some (c + 1)%Z.
Proof.
  intros E u v s w c Hu Hkeys Hw Hc Hin4 Hlt.
  assert (Hfit1 : in_int4 (c + 1) = true)
    by (apply in_int4_between; [exact Hin4 | lia]).
  assert (Hfit2 : in_int4 (c + 1 + 1) = true)
    by (apply in_int4_between; [exact Hfit1 | exact Hlt]).
  assert (Hfit3 : in_int4 (c + 1 + 1 - 1) = true)
    by (replace (c + 1 + 1 - 1)%Z with (c + 1)%Z by lia; exact Hfit1).
  pose proof (@followVroom_run E u v s w c Hu Hkeys Hw Hc Hfit1) as Hrun1.
  cbv zeta in Hrun1. set (s1 := with_vrooms _ _) in Hrun1.
  assert (Hw1 : vroom_of s1 v = Some (with_followers 1 w))
    by (apply vroom_of_rewritten; exact Hw).
  assert (Hc1 : Vrooms.followersCount (with_followers 1 w)
                = Some (c + 1)%Z)
    by (unfold with_followers, plus; simpl; rewrite Hc; reflexivity).
  assert (Hkeys1 : vroom_keys_ok s1)
    by (apply vroom_keys_rewritten; exact Hkeys).
  assert (Hu1 : is_user (core s1) u = true) by exact Hu.
  pose proof (@followVroom_run E u v s1 _ _ Hu1 Hkeys1 Hw1 Hc1 Hfit2)
    as Hrun2.
  cbv zeta in Hrun2. set (s2 := with_vrooms _ _) in Hrun2.
  assert (Hw2 : vroom_of s2 v = Some (with_followers 1 (with_followers 1 w)))
    by (apply vroom_of_rewritten; exact Hw1).
  assert (Hc2 : Vrooms.followersCount (with_followers 1 (with_followers 1 w))
                = Some (c + 1 + 1)%Z)
    by (unfold with_followers, plus; simpl; rewrite Hc; reflexivity).
  assert (Hkeys2 : vroom_keys_ok s2)
    by (apply vroom_keys_rewritten; exact Hkeys1).
  pose proof (@unfollowVroom_run E u v s2 _ _ Hkeys2 Hw2 Hc2 Hfit3) as Hun.
  eexists. eexists. exists s1, s2. eexists. eexists.
  split; [exact Hrun1|]. split; [exact Hrun2|]. split.
  { simpl. lia. }
  split; [exact Hun|]. split.
  { rewrite isFollowingVroom_run. simpl. rewrite filter_delete_none.
    reflexivity. }
  split.
  - unfold vroom_of.
    replace (vrooms (with_vrooms
               (rewritten (eq_n Vrooms.id v) (with_followers (-1))
                  (vrooms s2))
               (with_vroomFollows
                  (filter (fun r => negb (and_ (eq_s VroomFollows.userId u)
                                      (eq_n VroomFollows.vroomId v) r))
                     (vroomFollows s2)) s2)))
      with (rewritten (eq_n Vrooms.id v) (with_followers (-1)) (vrooms s2))
      by reflexivity.
    unfold vroom_of in Hw2.
    apply (@vroom_of_rewritten E v (-1) _ _ Hw2).
  - unfold with_followers, plus. simpl. rewrite Hc. simpl. f_equal. lia.
Qed.

Lemma followVroom_twice_drifts_witness :
  (is_user (core market) "bob" = true /\ vroom_keys_ok market /\
   vroom_of market 8 = Some corner /\
   Vrooms.followersCount corner = Some 1%Z /\
   in_int4 1 = true /\ (1 + 1 < int4_max)%Z) /\
  exists f1 f2 s1 s2 s3 w',
    @followVroom scan_engine "bob" 8 market = (Returned (Some f1), s1) /\
    @followVroom scan_engine "bob" 8 s1 = (Returned (Some f2), s2) /\
    VroomFollows.id f1 <> VroomFollows.id f2 /\
    @unfollowVroom scan_engine "bob" 8 s2 = (Returned tt, s3) /\
    isFollowingVroom "bob" 8 s3 = (Returned false, s3) /\
    vroom_of s3 8 = Some w' /\
    Vrooms.followersCount w' = Some (1 + 1)%Z.
Proof.
  assert (Hk : vroom_keys_ok market).
  { unfold vroom_keys_ok. simpl.
    repeat constructor; simpl; intuition discriminate. }
  assert (Hlt : (1 + 1 < int4_max)%Z) by reflexivity.
  split; [repeat split; try reflexivity; exact Hk|].
  apply (@followVroom_twice_drifts scan_engine "bob" 8 market corner 1%Z
           eq_refl Hk eq_refl eq_refl eq_refl Hlt).
Defined.

Lemma getProductsByUser_run (E : Engine) u d :
  getProductsByUser u d
  = (Ok (sort_rows (may_precede (by_desc Products.createdAt))
           (filter (and_ (eq_s Products.userId u)
                         (eq_b Products.isAvailable true))
                   (products d))), d).
Proof. reflexivity. Qed.

(** X22: the products of a vroom are its owner's available products: for
    a stored vroom, active or not, [getVroomWithProducts] returns the vroom,
    its owner's row and exactly the list [getProductsByUser] gives for the
    owner, so all vrooms of one owner show the same products. *)
Theorem vroom_products_are_the_owners :
  forall (E : Engine) (id : nat) (s : Store) (v : Vrooms.row),
    vroom_of s id = Some v ->
    exists l,
      getVroomWithProducts id s
      = (Returned (Some (v, user_of (core s) (Vrooms.userId v), l)), s) /\
      getProductsByUser (Vrooms.userId v) (core s) = (Ok l, core s).
Proof.
  intros E id s v Hv. eexists. split; [|apply getProductsByUser_run].
  unfold getVroomWithProducts.
  pose proof (first_filter_left_join
                (fun v u => String.eqb (Vrooms.userId v) (Users.id u))
                (eq_n Vrooms.id id) (vrooms s) (users (core s))) as H.
  fold (vroom_of s id) in H. rewrite Hv in H. simpl in H.
  destruct (filter (fun r => eq_n Vrooms.id id (fst r)) _) as [|r rs];
    [discriminate|].
  simpl in H. injection H as ->. unfold bindS, retS.
  rewrite (lift_ok _ s (select_order_by_run E productsT _ _ (core s))).
  rewrite with_core_same. simpl. rewrite user_of_join. reflexivity.
Qed.

Lemma vroom_products_are_the_owners_witness :
  vroom_of market 9 = Some attic /\
  exists l,
    @getVroomWithProducts scan_engine 9 market
    = (Returned (Some (attic, user_of (core market) (Vrooms.userId attic),
                       l)), market) /\
    @getProductsByUser scan_engine (Vrooms.userId attic) (core market)
    = (Ok l, core market).
Proof.
  split; [reflexivity|].
  apply (@vroom_products_are_the_owners scan_engine 9 market attic eq_refl).
Defined.

Lemma vroom_ranks_before_total x y :
  may_precede vroom_key x y = true \/ may_precede vroom_key y x = true.
Proof.
  unfold may_precede, vroom_key, then_by, by_desc.
  rewrite (desc_flip (Vrooms.followersCount x) (Vrooms.followersCount y)).
  rewrite (desc_flip (Vrooms.viewsCount x) (Vrooms.viewsCount y)).
  destruct (desc (Vrooms.followersCount x) (Vrooms.followersCount y));
    simpl; auto.
  destruct (desc (Vrooms.viewsCount x) (Vrooms.viewsCount y)); simpl; auto.
Qed.

Lemma vroom_ranks_before_trans x y z :
  may_precede vroom_key x y = true ->
  may_precede vroom_key y z = true ->
  may_precede vroom_key x z = true.
Proof.
  unfold may_precede, vroom_key, then_by, by_desc.
  destruct (desc (Vrooms.followersCount x) (Vrooms.followersCount y))
    eqn:Lxy;
    destruct (desc (Vrooms.followersCount y) (Vrooms.followersCount z))
      eqn:Lyz;
    try discriminate.
  - apply desc_Eq in Lxy. apply desc_Eq in Lyz.
    rewrite Lxy, Lyz, desc_refl.
    intros H1 H2.
    exact (@may_precede_desc_trans _ Vrooms.viewsCount x y z H1 H2).
  - apply desc_Eq in Lxy. rewrite Lxy, Lyz. reflexivity.
  - apply desc_Eq in Lyz. rewrite <- Lyz, Lxy. reflexivity.
  - rewrite (desc_Lt_trans _ _ _ Lxy Lyz). reflexivity.
Qed.

(** X23: for a limit [n] from 0 to the largest 64-bit row count,
    [getTrendingVrooms n] returns the smaller of [n] and the number of
    active vrooms many vrooms, so at most [n], all of them stored and
    active, each ranking before all later ones by (followers descending,
    views descending), and before every active vroom that was cut off.  For
    a negative [n] the query carries no limit: every active vroom is
    returned, ranked the same way.  A larger [n] is rejected by the
    store. *)
Theorem trending_vrooms_limited_active_sorted :
  forall (E : Engine) (n : Z) (s : Store),
    ((0 <= n <= int8_max)%Z ->
     exists l,
       getTrendingVrooms (Some n) s = (Returned l, s) /\
       List.length l
       = Nat.min (Z.to_nat n)
           (List.length (filter (eq_b Vrooms.isActive true) (vrooms s))) /\
       (Z.of_nat (List.length l) <= n)%Z /\
       Forall (fun v => In v (vrooms s) /\ Vrooms.isActive v = Some true) l /\
       StronglySorted vroom_ranks_before l /\
       (forall v w, In v l -> In w (vrooms s) ->
                    Vrooms.isActive w = Some true -> ~ In w l ->
                    vroom_ranks_before v w)) /\
    ((n < 0)%Z ->
     exists l,
       getTrendingVrooms (Some n) s = (Returned l, s) /\
       Permutation l (filter (eq_b Vrooms.isActive true) (vrooms s)) /\
       StronglySorted vroom_ranks_before l) /\
    ((int8_max < n)%Z ->
     exists e, getTrendingVrooms (Some n) s = (Thrown e, s)).
Proof.
  intros E n s.
  set (sorted := sort_rows (may_precede vroom_key)
                   (filter (eq_b Vrooms.isActive true) (vrooms s))).
  assert (Hsorted : StronglySorted vroom_ranks_before sorted).
  { apply (@sort_rows_sorted E _ (may_precede vroom_key)).
    - apply vroom_ranks_before_total.
    - apply vroom_ranks_before_trans. }
  assert (Hmem : forall v, In v sorted <->
            In v (vrooms s) /\ eq_b Vrooms.isActive true v = true).
  { intros v. rewrite <- filter_In. split; intros H.
    - exact (Permutation_in _ (sort_rows_perm _ _) H).
    - exact (Permutation_in _ (Permutation_sym (sort_rows_perm _ _)) H). }
  split; [|split].
  - intros [Hn Hmax].
    assert (Hrun : getTrendingVrooms (Some n) s
                   = (Returned (firstn (Z.to_nat n) sorted), s)).
    { unfold getTrendingVrooms, sql_limit_offset, default_arg.
      replace (int8_max <? n)%Z with false
        by (symmetry; apply Z.ltb_ge; lia).
      replace (n <? 0)%Z with false by (symmetry; apply Z.ltb_ge; lia).
      reflexivity. }
    eexists. split; [exact Hrun|].
    split.
    { rewrite length_firstn. unfold sorted.
      rewrite (Permutation_length (sort_rows_perm _ _)). reflexivity. }
    split; [rewrite length_firstn; lia|]. split; [|split].
    + apply Forall_forall. intros v Hv. apply firstn_In_self in Hv.
      apply Hmem in Hv. destruct Hv as [Hin Hact].
      split; [exact Hin | apply eq_b_true, Hact].
    + apply firstn_StronglySorted. exact Hsorted.
    + intros v w Hv Hw Hact Hcut.
      assert (Hws : In w sorted).
      { apply Hmem. split; [exact Hw|].
        unfold eq_b. rewrite Hact. reflexivity. }
      rewrite <- (firstn_skipn (Z.to_nat n) sorted) in Hws, Hsorted.
      apply in_app_or in Hws. destruct Hws as [Hws|Hws]; [contradiction|].
      exact (StronglySorted_app_cross _ _ Hsorted v w Hv Hws).
  - intros Hn. exists sorted. split.
    + unfold getTrendingVrooms, sql_limit_offset, default_arg.
      replace (int8_max <? n)%Z with false
        by (symmetry; apply Z.ltb_ge; unfold int8_max; lia).
      replace (n <? 0)%Z with true by (symmetry; apply Z.ltb_lt; lia).
      reflexivity.
    + split; [apply sort_rows_perm | exact Hsorted].
  - intros Hn. eexists.
    unfold getTrendingVrooms, sql_limit_offset, default_arg.
    replace (int8_max <? n)%Z with true by (symmetry; apply Z.ltb_lt; lia).
    reflexivity.
Qed.

(** With the limit -1 the one active vroom of the sample store is
    returned. *)
Example getTrendingVrooms_negative_limit :
  @getTrendingVrooms scan_engine (Some (-1)%Z) market
  = (Returned [corner], market).
Proof. reflexivity. Qed.

(** ** Comments *)

Lemma insert_comments_run comment s :
  is_user (core s) (InsertComment.userId comment) = true ->
  is_product (core s) (InsertComment.productId comment) = true ->
  parent_known s (InsertComment.parentId comment) ->
  let r :=
    Comments.mk (nextUuid (core s)) (InsertComment.userId comment)
      (InsertComment.productId comment) (InsertComment.content comment)
      (column_value None (InsertComment.parentId comment))
      (Some (clock (core s))) in
  insert_comments comment s
  = (Returned [r],
     with_comments (comments s ++ [r])
       (with_core (with_nextUuid (S (nextUuid (core s))) (core s)) s)).
Proof.
  intros Hu Hp Hk. destruct s as [d vs vfs cs ms]. simpl in *.
  unfold is_user in Hu. unfold is_product in Hp. unfold parent_known in Hk.
  simpl in Hk.
  unfold insert_comments, bindS, lift, references,
    references_if, referencesS.
  simpl. rewrite Hu. simpl. rewrite Hp. simpl.
  destruct (column_value None (InsertComment.parentId comment)) as [k|].
  - simpl. rewrite (Hk k eq_refl). reflexivity.
  - reflexivity.
Qed.

Lemma add_comment_fits r c :
  Products.commentsCount r = Some c -> in_int4 (c + 1) = true ->
  add_comment r = Some (commented r).
Proof.
  intros Hc Hfit. unfold add_comment, commented, sql_add, int4, plus.
  rewrite Hc. simpl. rewrite Hfit. reflexivity.
Qed.

Lemma add_comment_overflow r c :
  Products.commentsCount r = Some c -> in_int4 (c + 1) = false ->
  add_comment r = None.
Proof.
  intros Hc Hfit. unfold add_comment, sql_add, int4, plus.
  rewrite Hc. simpl. rewrite Hfit. reflexivity.
Qed.

(** X24: every comment on a stored product whose commentsCount [c] is
    below the largest 32-bit integer (product ids being distinct) adds one
    to that counter, a reply as much as a top-level comment, while
    [getProductComments] lists the new comment only when it has no parent; a
    reply is listed by [getCommentReplies] of its parent instead.  At the
    largest 32-bit integer the comment is stored and the counter update is
    then rejected: [createComment] fails with the comment in the table. *)
Theorem createComment_counts_replies :
  forall (E : Engine) (comment : InsertComment.t) (s : Store)
         (p0 : Products.row) (c : Z),
    is_user (core s) (InsertComment.userId comment) = true ->
    product_keys_ok (core s) ->
    product_of (core s) (InsertComment.productId comment) = Some p0 ->
    Products.commentsCount p0 = Some c -> in_int4 c = true ->
    parent_known s (InsertComment.parentId comment) ->
    ((c < int4_max)%Z ->
     exists r s' top,
       createComment comment s = (Returned (Some r), s') /\
       Comments.parentId r
       = column_value None (InsertComment.parentId comment) /\
       product_of (core s') (InsertComment.productId comment)
       = Some (commented p0) /\
       Products.commentsCount (commented p0) = Some (c + 1)%Z /\
       getProductComments (InsertComment.productId comment) s'
       = (Returned top, s') /\
       (In r top <-> Comments.parentId r = None) /\
       (forall k, Comments.parentId r = Some k ->
          exists l, getCommentReplies k s' = (Returned l, s') /\ In r l)) /\
    (c = int4_max ->
     exists r s',
       createComment comment s = (Thrown (Core IntegerOutOfRange), s') /\
       comments s' = comments s ++ [r] /\
       Comments.productId r = InsertComment.productId comment /\
       products (core s') = products (core s)).
Proof.
  intros E comment s p0 c Hu Hkeys Hp0 Hc Hin4 Hk.
  set (pid := InsertComment.productId comment) in *.
  assert (Hp : is_product (core s) pid = true).
  { unfold is_product. eapply first_filter_existsb. exact Hp0. }
  pose proof (@insert_comments_run comment s Hu Hp Hk) as Hins.
  cbv zeta in Hins.
  set (r := Comments.mk _ _ _ _ _ _) in Hins.
  set (s0 := with_comments _ _) in Hins.
  unfold product_of in Hp0.
  pose proof (@filter_by_nat_key _ Products.id _ pid _ Hkeys Hp0) as Hone.
  split.
  - intros Hlt.
    pose proof (@in_int4_between c Hin4 Hlt) as Hfit.
    assert (Hup : update productsT add_comment (eq_n Products.id pid)
                    (core s0)
                  = (Ok [commented p0],
                     with_products
                       (rewritten (eq_n Products.id pid) commented
                          (products (core s)))
                       (core s0))).
    { rewrite (update_fits E productsT add_comment commented).
      - cbn [rows productsT]. 
        replace (products (core s0)) with (products (core s))
          by reflexivity.
        rewrite Hone. reflexivity.
      - cbn [rows productsT]. intros x Hx Hid.
        assert (Hin : In x (filter (eq_n Products.id pid)
                              (products (core s))))
          by (apply filter_In; auto).
        rewrite Hone in Hin. destruct Hin as [<-|[]].
        exact (@add_comment_fits p0 c Hc Hfit). }
    assert (Hrun : createComment comment s
                   = (Returned (Some r),
                      with_core
                        (with_products
                           (rewritten (eq_n Products.id pid) commented
                              (products (core s)))
                           (core s0)) s0)).
    { unfold createComment. unfold bindS at 1. rewrite Hins.
      unfold bindS at 1. fold pid. rewrite (lift_ok _ s0 Hup).
      reflexivity. }
    exists r. eexists. eexists.
    split; [exact Hrun|]. split; [reflexivity|].
    split; [|split; [|split; [reflexivity|split]]].
    + unfold product_of. simpl. rewrite rewritten_filter_hit.
      * rewrite first_map, Hp0. reflexivity.
      * auto.
      * intros x. reflexivity.
    + unfold commented, plus. simpl. rewrite Hc. reflexivity.
    + unfold select_order_byS. simpl. split.
      * intros H. apply sorted_rows_In in H. destruct H as [_ Hcond].
        unfold and_, is_null in Hcond. simpl in Hcond.
        apply andb_prop in Hcond. destruct Hcond as [_ Hcond].
        destruct (column_value None (InsertComment.parentId comment));
          [discriminate | reflexivity].
      * intros Hnone.
        apply (Permutation_in _ (Permutation_sym (sort_rows_perm _ _))).
        apply filter_In. split.
        -- apply in_or_app. right. left. reflexivity.
        -- unfold and_, eq_n, is_null. simpl. fold pid.
           rewrite Nat.eqb_refl.
           simpl in Hnone. rewrite Hnone. reflexivity.
    + intros k Hsome. eexists. split; [reflexivity|].
      apply (Permutation_in _ (Permutation_sym (sort_rows_perm _ _))).
      apply filter_In. split.
      * cbn [srows commentsS]. simpl. apply in_or_app. right. left.
        reflexivity.
      * unfold eq_on. rewrite Hsome. apply Nat.eqb_refl.
  - intros ->.
    assert (Hup : update productsT add_comment (eq_n Products.id pid)
                    (core s0)
                  = (Fail IntegerOutOfRange, core s0)).
    { destruct (first_filter_Some _ _ Hp0) as [Hin Hid].
      apply (update_overflow E productsT add_comment _ (core s0) p0 Hin Hid).
      apply (@add_comment_overflow p0 int4_max Hc). reflexivity. }
    exists r. eexists. split.
    + unfold createComment. unfold bindS at 1. rewrite Hins.
      unfold bindS at 1. fold pid. rewrite (lift_fail _ s0 Hup).
      reflexivity.
    + split; [reflexivity|]. split; reflexivity.
Qed.

Lemma createComment_counts_replies_witness :
  let comment := InsertComment.mk "bob" 1 "How old is it?" (Val 11) in
  (is_user (core market) (InsertComment.userId comment) = true /\
   product_keys_ok (core market) /\
   product_of (core market) (InsertComment.productId comment) = Some lamp /\
   Products.commentsCount lamp = Some 0%Z /\ in_int4 0 = true /\
   parent_known market (InsertComment.parentId comment) /\
   (0 < int4_max)%Z) /\
  exists r s' top,
    @createComment scan_engine comment market = (Returned (Some r), s') /\
    Comments.parentId r
    = column_value None (InsertComment.parentId comment) /\
    product_of (core s') (InsertComment.productId comment)
    = Some (commented lamp) /\
    Products.commentsCount (commented lamp) = Some (0 + 1)%Z /\
    @getProductComments scan_engine (InsertComment.productId comment) s'
    = (Returned top, s') /\
    (In r top <-> Comments.parentId r = None) /\
    (forall k, Comments.parentId r = Some k ->
       exists l, @getCommentReplies scan_engine k s' = (Returned l, s') /\
                 In r l).
Proof.
  cbv zeta.
  assert (Hk : parent_known market
                 (InsertComment.parentId
                    (InsertComment.mk "bob" 1 "How old is it?" (Val 11)))).
  { intros c Hc. injection Hc as <-. reflexivity. }
  assert (Hkeys : product_keys_ok (core market)).
  { unfold product_keys_ok. simpl.
    repeat constructor; simpl; intuition discriminate. }
  assert (Hlt : (0 < int4_max)%Z) by reflexivity.
  split; [repeat split; try reflexivity; assumption|].
  apply (proj1 (@createComment_counts_replies scan_engine
           (InsertComment.mk "bob" 1 "How old is it?" (Val 11))
           market lamp 0%Z eq_refl Hkeys eq_refl eq_refl eq_refl Hk) Hlt).
Defined.

(** ** New products and orders *)

Lemma first_filter_fresh A (key : A -> nat) (l : list A) (r : A) n :
  Forall (fun x => key x < n) l -> key r = n ->
  first (filter (eq_n key n) (l ++ [r])) = Some r.
Proof.
  intros Hl Hr. rewrite filter_app.
  rewrite filter_all_false.
  - simpl. unfold eq_n. rewrite Hr, Nat.eqb_refl. reflexivity.
  - intros x Hx. rewrite Forall_forall in Hl. specialize (Hl x Hx).
    unfold eq_n. apply Nat.eqb_neq. lia.
Qed.




Lemma varchar_255_run v s :
  varchar_255 v s
  = if too_long v then (Thrown ValueTooLong, s)
    else (Returned (if (char_count v <=? 255)%nat then v
                    else string_of_list_ascii
                           (take_chars 255 (list_ascii_of_string v))), s).
Proof.
  unfold varchar_255, too_long.
  destruct (char_count v <=? 255)%nat; [reflexivity|]. simpl.
  destruct (forallb _ _); reflexivity.
Qed.


(** A title of 128 letters in 256 bytes is stored as given. *)
Example createProduct_accented_title :
  String.length accented_title = 256 /\
  char_count accented_title = 128 /\
  exists r s',
    @createProduct sample_numeric
      (InsertProduct.mk "bob" accented_title "Oak" "120.00" Undefined
         Undefined Undefined Null Undefined Undefined) market
    = (Returned (Some r), s') /\
    Products.title r = accented_title.
Proof.
  split; [reflexivity|]. split; [reflexivity|].
  eexists. eexists. split; reflexivity.
Qed.






Lemma createVroom_run vroom s :
  (char_count (InsertVroom.name vroom) <= 255)%nat ->
  is_user (core s) (InsertVroom.userId vroom) = true ->
  let r :=
    Vrooms.mk (nextUuid (core s)) (InsertVroom.userId vroom)
      (InsertVroom.name vroom)
      (column_value None (InsertVroom.description vroom))
      (column_value None (InsertVroom.bannerImageUrl vroom))
      (Some 0%Z) (Some 0%Z)
      (column_value (Some true) (InsertVroom.isActive vroom))
      (Some (clock (core s))) (Some (clock (core s))) in
  exists s',
    createVroom vroom s = (Returned (Some r), s') /\
    vrooms s' = vrooms s ++ [r] /\
    nextUuid (core s') = S (nextUuid (core s)).
Proof.
  intros Hlen Hu. destruct s as [d vs vfs cs ms]. simpl in *.
  unfold is_user in Hu.
  unfold createVroom, insert_vrooms, bindS, lift, references, varchar_255.
  replace (char_count (InsertVroom.name vroom) <=? 255)%nat
    with true by (symmetry; apply Nat.leb_le; exact Hlen).
  unfold retS at 1. simpl. rewrite Hu. simpl.
  eexists. split; [reflexivity|]. split; reflexivity.
Qed.

(** X28: a vroom created for a stored user, with a name of at most 255
    characters (characters, not bytes), starts with no followers and no
    views and is active unless the caller says otherwise; [getVroom] on the
    new id returns exactly that row, and [getVroomsByUser] of the owner
    lists it if and only if it is active.  A name of more than 255
    characters, not all spaces past the 255th, is rejected and nothing is
    stored. *)
Theorem createVroom_round_trip :
  forall (E : Engine) (vroom : InsertVroom.t) (s : Store),
    is_user (core s) (InsertVroom.userId vroom) = true ->
    vroom_keys_fresh s ->
    ((char_count (InsertVroom.name vroom) <= 255)%nat ->
     exists r s' l,
       createVroom vroom s = (Returned (Some r), s') /\
       vrooms s' = vrooms s ++ [r] /\
       Vrooms.name r = InsertVroom.name vroom /\
       Vrooms.followersCount r = Some 0%Z /\
       Vrooms.viewsCount r = Some 0%Z /\
       Vrooms.isActive r
       = column_value (Some true) (InsertVroom.isActive vroom) /\
       getVroom (Vrooms.id r) s' = (Returned (Some r), s') /\
       getVroomsByUser (InsertVroom.userId vroom) s' = (Returned l, s') /\
       (In r l <-> Vrooms.isActive r = Some true) /\
       vroom_keys_fresh s') /\
    (too_long (InsertVroom.name vroom) = true ->
     createVroom vroom s = (Thrown ValueTooLong, s)).
Proof.
  intros E vroom s Hu Hfresh. split.
  - intros Hlen.
    destruct (@createVroom_run vroom s Hlen Hu) as (s' & Hrun & Hvs & Hn).
    eexists. exists s'. eexists.
    split; [exact Hrun|]. split; [exact Hvs|].
    do 4 (split; [reflexivity|]). split; [|split; [reflexivity|split]].
    + unfold getVroom, selectS, bindS, retS. cbn [srows vroomsS].
      rewrite Hvs. simpl Vrooms.id.
      erewrite first_filter_fresh;
        [reflexivity | exact Hfresh | reflexivity].
    + cbn [srows vroomsS]. split.
      * intros H. apply sorted_rows_In in H. destruct H as [_ Hc].
        unfold and_ in Hc. apply andb_prop in Hc.
        apply eq_b_true, Hc.
      * intros Hact.
        apply (Permutation_in _ (Permutation_sym (sort_rows_perm _ _))).
        apply filter_In. split.
        { rewrite Hvs. apply in_or_app. right. left. reflexivity. }
        { unfold and_, eq_s, eq_b. rewrite Hact. simpl.
          rewrite String.eqb_refl. reflexivity. }
    + unfold vroom_keys_fresh in *. rewrite Hvs, Hn.
      apply Forall_app. split.
      * eapply Forall_impl; [|exact Hfresh]. simpl. intros v Hv. lia.
      * constructor; [simpl; lia | constructor].
  - intros Hlong.
    unfold createVroom, insert_vrooms. unfold bindS at 1 2.
    rewrite varchar_255_run, Hlong. reflexivity.
Qed.

Lemma createVroom_round_trip_witness :
  let vroom := InsertVroom.mk "bob" "Bob's bikes" Undefined Null (Val false) in
  (is_user (core market) (InsertVroom.userId vroom) = true /\
   vroom_keys_fresh market /\
   (char_count (InsertVroom.name vroom) <= 255)%nat) /\
  exists r s' l,
    createVroom vroom market = (Returned (Some r), s') /\
    vrooms s' = vrooms market ++ [r] /\
    Vrooms.name r = InsertVroom.name vroom /\
    Vrooms.followersCount r = Some 0%Z /\
    Vrooms.viewsCount r = Some 0%Z /\
    Vrooms.isActive r
    = column_value (Some true) (InsertVroom.isActive vroom) /\
    getVroom (Vrooms.id r) s' = (Returned (Some r), s') /\
    @getVroomsByUser scan_engine (InsertVroom.userId vroom) s'
    = (Returned l, s') /\
    (In r l <-> Vrooms.isActive r = Some true) /\
    vroom_keys_fresh s'.
Proof.
  cbv zeta.
  assert (Hfresh : vroom_keys_fresh market).
  { unfold vroom_keys_fresh. simpl. repeat constructor; simpl; lia. }
  assert (Hlen : (char_count "Bob's bikes" <= 255)%nat)
    by (apply Nat.leb_le; reflexivity).
  split; [split; [reflexivity | split; [exact Hfresh | exact Hlen]]|].
  apply (proj1 (@createVroom_round_trip scan_engine
                  (InsertVroom.mk "bob" "Bob's bikes" Undefined Null
                                  (Val false))
                  market eq_refl Hfresh) Hlen).
Defined.
